(** * SWAPIT: the swipe-to-match flow of the Discover and Dashboard pages

    A shallow embedding of [src/pages/Discover.tsx] ([fetchProfiles],
    [triggerMatch], [handleSwipe]) and [src/pages/Dashboard.tsx]
    ([fetchMatches], [fetchPendingRequests], [handleAcceptRequest],
    [handleRejectRequest]) over a model of the tables they talk to
    ([users], [swap_requests], [notifications]).

    The handlers are [async] functions; each is modelled as one sequential
    run in a state-and-exception monad.  The state is the database together
    with the React state of the page; the database carries the outcome of
    the store calls to come, so that a run with an unavailable store is a run
    like any other.  Between two awaited calls of a handler the calls of
    other pages can reach the store: [handleSwipe_among] is [handleSwipe]
    with what other writers do between its calls. *)

From Stdlib Require Import List String ZArith Bool Arith Lia.
From Stdlib Require Import QArith Qabs.
Close Scope Q_scope.
Import ListNotations.
Local Open Scope string_scope.
Local Open Scope list_scope.

Set Implicit Arguments.

(** ** Rows of the tables *)

Definition UserId := string.
Definition RequestId := nat.
Definition Timestamp := nat.

(** [status] column of [swap_requests]: 'pending', 'matched', 'rejected'. *)
Inductive Status := pending | matched | rejected.

(** [swipe_type] column of [swap_requests]: 'normal', 'super'. *)
Inductive SwipeType := normal | super.

Definition Status_eqb (a b : Status) : bool :=
  match a, b with
  | pending, pending | matched, matched | rejected, rejected => true
  | _, _ => false
  end.

Record SwapRequest := mkSwapRequest {
  sr_id : RequestId;
  from_user_id : UserId;
  to_user_id : UserId;
  swipe_type : SwipeType;
  status : Status;
  created_at : Timestamp
}.

Record Notification := mkNotification {
  n_user_id : UserId;
  n_type : string;
  n_title : string;
  n_message : string
}.

(** A row of [users] with the skill names its two join tables embed. *)
Record UserRow := mkUserRow {
  u_id : UserId;
  fullname : option string;
  location : option string;
  description : option string;
  profile_pic : option string;
  user_skill_offer : list string;
  user_skill_want : list string
}.

Definition set_status (s : Status) (r : SwapRequest) : SwapRequest :=
  mkSwapRequest (sr_id r) (from_user_id r) (to_user_id r) (swipe_type r) s
                (created_at r).

(** ** The store client

    Every call of the client resolves to [{ data, error }]; it never throws. *)

Record PostgrestError := mkError { code : string }.

Record Response (A : Type) := mkResponse {
  data : option A;
  error : option PostgrestError
}.

(** The calls the two pages issue, as the query builders spell them. *)
Inductive StoreCall :=
| SelectUsers (neq_id : UserId) (limit : nat)
| InsertSwapRequest (from to : UserId) (k : SwipeType) (s : Status)
| SelectPendingSingle (from to : UserId)
| UpdateStatusIn (s : Status) (ids : list RequestId)
| UpdateStatusEq (s : Status) (id : RequestId)
| InsertNotification (n : Notification)
| SelectMatched (u : UserId)
| SelectPendingInbound (u : UserId).

(** The database: the three tables, the generators of the defaulted columns
    ([id], [created_at]), the outcome of the calls to come ([faults]: [Some e]
    makes the next call fail with [e] and leave the tables alone) and the
    calls issued so far, oldest first. *)
Record Db := mkDb {
  users : list UserRow;
  swap_requests : list SwapRequest;
  notifications : list Notification;
  next_id : RequestId;
  now : Timestamp;
  faults : list (option PostgrestError);
  trace : list StoreCall
}.

Definition with_swap_requests (rs : list SwapRequest) (db : Db) : Db :=
  mkDb (users db) rs (notifications db) (next_id db) (now db) (faults db)
       (trace db).

Definition with_notifications (ns : list Notification) (db : Db) : Db :=
  mkDb (users db) (swap_requests db) ns (next_id db) (now db) (faults db)
       (trace db).

Definition with_faults (fs : list (option PostgrestError)) (db : Db) : Db :=
  mkDb (users db) (swap_requests db) (notifications db) (next_id db) (now db)
       fs (trace db).

Definition log (c : StoreCall) (db : Db) : Db :=
  mkDb (users db) (swap_requests db) (notifications db) (next_id db) (now db)
       (faults db) (trace db ++ [c]).

(** One round trip: the call is recorded, then it fails if the store is
    unavailable for it, and runs against the tables otherwise. *)
Definition request {A : Type} (c : StoreCall) (run : Db -> Response A * Db)
    (db : Db) : Response A * Db :=
  let db := log c db in
  match faults db with
  | Some e :: fs => (mkResponse None (Some e), with_faults fs db)
  | None :: fs => run (with_faults fs db)
  | [] => run db
  end.

Definition same_pair (from to : UserId) (r : SwapRequest) : bool :=
  String.eqb (from_user_id r) from && String.eqb (to_user_id r) to.

Definition duplicate_key : PostgrestError := mkError "23505".
Definition not_single_row : PostgrestError := mkError "PGRST116".

(** Modelled from the spec: the schema of [swap_requests], which is not among
    the sources.  "Uniqueness invariant: at most one InterestSignal per
    ordered pair (initiator, target)": an insert for a pair that has a row
    fails with the duplicate-key error 23505 that [handleSwipe] ignores.
    [id] and [created_at] are generated by the table. *)
Definition insert_swap_request (from to : UserId) (k : SwipeType) (s : Status)
    (db : Db) : Response unit * Db :=
  if existsb (same_pair from to) (swap_requests db)
  then (mkResponse None (Some duplicate_key), db)
  else (mkResponse None None,
        mkDb (users db)
             (swap_requests db ++ [mkSwapRequest (next_id db) from to k s (now db)])
             (notifications db) (S (next_id db)) (S (now db)) (faults db)
             (trace db)).

(** [.single()]: the row when exactly one row passes the filters, an error
    and no data otherwise. *)
Definition single {A : Type} (rows : list A) : Response A :=
  match rows with
  | [r] => mkResponse (Some r) None
  | _ => mkResponse None (Some not_single_row)
  end.

Definition is_pending_pair (from to : UserId) (r : SwapRequest) : bool :=
  same_pair from to r && Status_eqb (status r) pending.

Definition select_pending_single (from to : UserId) (db : Db)
    : Response SwapRequest * Db :=
  (single (filter (is_pending_pair from to) (swap_requests db)), db).

Definition update_rows (s : Status) (sel : SwapRequest -> bool)
    (rows : list SwapRequest) : list SwapRequest :=
  map (fun r => if sel r then set_status s r else r) rows.

Definition id_in (ids : list RequestId) (r : SwapRequest) : bool :=
  existsb (Nat.eqb (sr_id r)) ids.

Definition id_eq (i : RequestId) (r : SwapRequest) : bool :=
  Nat.eqb (sr_id r) i.

(** [.update({ status }).in('id', ids)] and [.update({ status }).eq('id', i)]:
    no filter on the current status. *)
Definition update_status_in (s : Status) (ids : list RequestId) (db : Db)
    : Response unit * Db :=
  (mkResponse None None,
   with_swap_requests (update_rows s (id_in ids) (swap_requests db)) db).

Definition update_status_eq (s : Status) (i : RequestId) (db : Db)
    : Response unit * Db :=
  (mkResponse None None,
   with_swap_requests (update_rows s (id_eq i) (swap_requests db)) db).

Definition insert_notification (n : Notification) (db : Db)
    : Response unit * Db :=
  (mkResponse None None, with_notifications (notifications db ++ [n]) db).

(** The embedded resource [users!swap_requests_from_user_id_fkey(...)]: the
    [users] row the foreign key [from_user_id] points to. *)
Definition from_user (db : Db) (r : SwapRequest) : option UserRow :=
  find (fun u => String.eqb (u_id u) (from_user_id r)) (users db).

Definition Joined : Type := SwapRequest * option UserRow.

Definition is_matched_of (u : UserId) (r : SwapRequest) : bool :=
  Status_eqb (status r) matched
  && (String.eqb (from_user_id r) u || String.eqb (to_user_id r) u).

Definition is_pending_to (u : UserId) (r : SwapRequest) : bool :=
  String.eqb (to_user_id r) u && Status_eqb (status r) pending.

Definition select_matched (u : UserId) (db : Db) : Response (list Joined) * Db :=
  (mkResponse
     (Some (map (fun r => (r, from_user db r))
                (filter (is_matched_of u) (swap_requests db))))
     None, db).

Definition select_pending_inbound (u : UserId) (db : Db)
    : Response (list Joined) * Db :=
  (mkResponse
     (Some (map (fun r => (r, from_user db r))
                (filter (is_pending_to u) (swap_requests db))))
     None, db).

Definition nonempty {A : Type} (l : list A) : bool :=
  match l with [] => false | _ => true end.

(** [user_skill_offer!inner(...)], [user_skill_want!inner(...)],
    [.neq('id', me)], [.limit(n)]. *)
Definition select_users (me : UserId) (n : nat) (db : Db)
    : Response (list UserRow) * Db :=
  (mkResponse
     (Some (firstn n
              (filter (fun u => nonempty (user_skill_offer u)
                                && nonempty (user_skill_want u)
                                && negb (String.eqb (u_id u) me))
                      (users db))))
     None, db).

(** ** Effects of the handlers: state and thrown values *)

Inductive Thrown :=
| ThrownError (e : PostgrestError)
| TypeError (msg : string).

Inductive Completion (A : Type) :=
| Normal (a : A)
| Abrupt (t : Thrown).
Arguments Abrupt {A} t.

Definition Eff (S A : Type) : Type := S -> Completion A * S.

Definition ret {S A : Type} (a : A) : Eff S A := fun s => (Normal a, s).

Definition bind {S A B : Type} (m : Eff S A) (k : A -> Eff S B) : Eff S B :=
  fun s =>
    match m s with
    | (Normal a, s') => k a s'
    | (Abrupt t, s') => (Abrupt t, s')
    end.

Definition throw {S A : Type} (t : Thrown) : Eff S A := fun s => (Abrupt t, s).

Definition try_catch {S A : Type} (body : Eff S A) (handler : Thrown -> Eff S A)
    : Eff S A :=
  fun s =>
    match body s with
    | (Normal a, s') => (Normal a, s')
    | (Abrupt t, s') => handler t s'
    end.

Definition try_finally {S A : Type} (body : Eff S A) (final : Eff S unit)
    : Eff S A :=
  fun s =>
    match body s with
    | (c, s') =>
        match final s' with
        | (Normal _, s'') => (c, s'')
        | (Abrupt t, s'') => (Abrupt t, s'')
        end
    end.

Declare Scope eff_scope.
Delimit Scope eff_scope with eff.
Notation "x <- m ;; k" := (bind m (fun x => k))
  (at level 61, m at next level, right associativity) : eff_scope.
Notation "m ;; k" := (bind m (fun _ => k))
  (at level 61, right associativity) : eff_scope.
Local Open Scope eff_scope.

(** The state of a page: the database and the component's React state. *)
Definition await {U A : Type} (call : Db -> Response A * Db)
    : Eff (Db * U) (Response A) :=
  fun s => let (r, db') := call (fst s) in (Normal r, (db', snd s)).

Definition component {U : Type} : Eff (Db * U) U := fun s => (Normal (snd s), s).

Definition set_state {U : Type} (f : U -> U) : Eff (Db * U) unit :=
  fun s => (Normal tt, (fst s, f (snd s))).

Definition when {S : Type} (b : bool) (m : Eff S unit) : Eff S unit :=
  if b then m else ret tt.

(** [a || d] on a nullable string: [null] and the empty string are falsy. *)
Definition or_else (a : option string) (d : string) : string :=
  match a with
  | Some s => if String.eqb s "" then d else s
  | None => d
  end.

Inductive Toast :=
| ToastPlain (msg icon : string)
| ToastSuccess (msg : string)
| ToastError (msg : string).

(** ** The Discover page: [src/pages/Discover.tsx] *)

Module Discover.

(** [rating], a random float made up by [fetchProfiles], is left out. *)
Record Profile := mkProfile {
  p_id : UserId;
  p_name : string;
  p_age : nat;
  p_location : string;
  canTeach : list string;
  wantToLearn : list string;
  bio : string;
  availability : string;
  badges : list string
}.

Inductive Direction := Left | Right | Up | Down.

(** What [controls.start] and [controls.set] leave the card at. *)
Record CardPose := mkPose { x : Z; y : Z; rotate : Z; opacity : Z }.

(** The [useState] cells of the component, the signed-in [user] of
    [useAuth] (the page works on a deck only for a signed-in user:
    [fetchProfiles] returns at once without one), and what the page has put
    on the screen and on the console. *)
Record State := mkState {
  profiles : list Profile;
  currentIndex : nat;
  isAnimating : bool;
  dailySwipes : Z;
  loading : bool;
  user : UserId;
  card : CardPose;
  confetti : nat;
  toasts : list Toast;
  console : list (string * Thrown)
}.

(** [useState([])], [useState(0)], [useState(false)], [useState(15)],
    [useState(true)]. *)
Definition initial (me : UserId) : State :=
  mkState [] 0 false 15 true me (mkPose 0 0 0 1) 0 [] [].

Definition setProfiles (v : list Profile) (s : State) : State :=
  mkState v (currentIndex s) (isAnimating s) (dailySwipes s) (loading s)
          (user s) (card s) (confetti s) (toasts s) (console s).

Definition setCurrentIndex (f : nat -> nat) (s : State) : State :=
  mkState (profiles s) (f (currentIndex s)) (isAnimating s) (dailySwipes s)
          (loading s) (user s) (card s) (confetti s) (toasts s) (console s).

Definition setIsAnimating (v : bool) (s : State) : State :=
  mkState (profiles s) (currentIndex s) v (dailySwipes s) (loading s)
          (user s) (card s) (confetti s) (toasts s) (console s).

Definition setDailySwipes (f : Z -> Z) (s : State) : State :=
  mkState (profiles s) (currentIndex s) (isAnimating s) (f (dailySwipes s))
          (loading s) (user s) (card s) (confetti s) (toasts s) (console s).

Definition setLoading (v : bool) (s : State) : State :=
  mkState (profiles s) (currentIndex s) (isAnimating s) (dailySwipes s) v
          (user s) (card s) (confetti s) (toasts s) (console s).

Definition controls (p : CardPose) (s : State) : State :=
  mkState (profiles s) (currentIndex s) (isAnimating s) (dailySwipes s)
          (loading s) (user s) p (confetti s) (toasts s) (console s).

Definition fire_confetti (s : State) : State :=
  mkState (profiles s) (currentIndex s) (isAnimating s) (dailySwipes s)
          (loading s) (user s) (card s) (S (confetti s)) (toasts s) (console s).

Definition toast (t : Toast) (s : State) : State :=
  mkState (profiles s) (currentIndex s) (isAnimating s) (dailySwipes s)
          (loading s) (user s) (card s) (confetti s) (toasts s ++ [t])
          (console s).

Definition console_error (msg : string) (t : Thrown) (s : State) : State :=
  mkState (profiles s) (currentIndex s) (isAnimating s) (dailySwipes s)
          (loading s) (user s) (card s) (confetti s) (toasts s)
          (console s ++ [(msg, t)]).

Definition Page (A : Type) : Type := Eff (Db * State) A.

(** The [Profile] a [users] row is turned into. *)
Definition transform (u : UserRow) : Profile :=
  mkProfile (u_id u) (or_else (fullname u) "Anonymous") 25
            (or_else (location u) "Unknown")
            (user_skill_offer u) (user_skill_want u)
            (or_else (description u) "No bio available")
            "Flexible" ["Active User"].

Definition fetchProfiles : Page unit :=
  st <- component ;;
  try_finally
    (try_catch
       (res <- await (request (SelectUsers (user st) 10)
                              (select_users (user st) 10)) ;;
        match error res with
        | Some e => throw (ThrownError e)
        | None =>
            set_state (setProfiles
                         (map transform
                              (match data res with Some us => us | None => [] end)))
        end)
       (fun t =>
          set_state (console_error "Error fetching profiles:" t) ;;
          set_state (toast (ToastError "Failed to load profiles"))))
    (set_state (setLoading false)).

Definition triggerMatch (currentProfile : Profile) : Page unit :=
  set_state fire_confetti ;;
  set_state (toast (ToastSuccess
                      ("🎉 It's a match with " ++ p_name currentProfile ++ "!"))).

Definition exitX (direction : Direction) : Z :=
  match direction with Left => -1000 | Right => 1000 | _ => 0 end.

Definition exitY (direction : Direction) : Z :=
  match direction with Up => -1000 | Down => 1000 | _ => 0 end.

Definition exitRotate (direction : Direction) : Z :=
  match direction with Left => -30 | Right => 30 | _ => 0 end.

Definition kind_of (direction : Direction) : SwipeType :=
  match direction with Up => super | _ => normal end.

Definition is_interest (direction : Direction) : bool :=
  match direction with Right | Up => true | _ => false end.

Definition direction_toast (direction : Direction) : Toast :=
  match direction with
  | Left => ToastPlain "Not interested" "❌"
  | Right => ToastPlain "Interested!" "❤️"
  | Up => ToastPlain "Super Swipe!" "🔥"
  | Down => ToastPlain "Saved for later" "🕓"
  end.

Definition match_notification (me : UserId) (currentProfile : Profile)
    : Notification :=
  mkNotification me "match" "New Match!"
                 ("You matched with " ++ p_name currentProfile ++ "!").

(** The [try] block of [handleSwipe]: insert, reverse lookup, update,
    notification.  Only the insert's [error] is read. *)
Definition submit (me : UserId) (currentProfile : Profile)
    (direction : Direction) : Page unit :=
  res <- await (request
                  (InsertSwapRequest me (p_id currentProfile)
                                     (kind_of direction) pending)
                  (insert_swap_request me (p_id currentProfile)
                                       (kind_of direction) pending)) ;;
  match error res with
  | Some e =>
      if negb (String.eqb (code e) "23505")
      then throw (ThrownError e) else ret tt
  | None => ret tt
  end ;;
  found <- await (request (SelectPendingSingle (p_id currentProfile) me)
                          (select_pending_single (p_id currentProfile) me)) ;;
  match data found with
  | Some mutualMatch =>
      await (request (UpdateStatusIn matched [sr_id mutualMatch])
                     (update_status_in matched [sr_id mutualMatch])) ;;
      await (request (InsertNotification (match_notification me currentProfile))
                     (insert_notification (match_notification me currentProfile))) ;;
      triggerMatch currentProfile
  | None => ret tt
  end.

Definition handleSwipe (direction : Direction) : Page unit :=
  st <- component ;;
  if isAnimating st || (List.length (profiles st) <=? currentIndex st)%nat then ret tt
  else
    match nth_error (profiles st) (currentIndex st) with
    | None => ret tt
    | Some currentProfile =>
        set_state (setIsAnimating true) ;;
        set_state (setDailySwipes (fun prev => Z.max 0 (prev - 1))) ;;
        set_state (controls (mkPose (exitX direction) (exitY direction)
                                    (exitRotate direction) 0)) ;;
        when (is_interest direction)
             (try_catch (submit (user st) currentProfile direction)
                        (fun t => set_state (console_error "Error handling swipe:" t))) ;;
        set_state (toast (direction_toast direction)) ;;
        set_state (setCurrentIndex (fun prev => prev + 1)) ;;
        set_state (controls (mkPose 0 0 0 1)) ;;
        set_state (setIsAnimating false)
    end.

(** [resetStack]. *)
Definition resetStack : Page unit :=
  set_state (setCurrentIndex (fun _ => 0)) ;;
  set_state (controls (mkPose 0 0 0 1)) ;;
  set_state (toast (ToastSuccess "New profiles loaded!")).





End Discover.

(** ** The Dashboard page: [src/pages/Dashboard.tsx] *)

Module Dashboard.

Record Person := mkPerson {
  person_id : UserId;
  person_name : string;
  avatar : string;
  skills : list string
}.

Record Match := mkMatch {
  m_id : RequestId;
  m_user : Person;
  matchedAt : Timestamp;
  m_status : Status
}.

Record PendingRequest := mkPendingRequest {
  pr_id : RequestId;
  fromUser : Person;
  swipeType : SwipeType;
  createdAt : Timestamp
}.

Record State := mkState {
  matches : list Match;
  pendingRequests : list PendingRequest;
  loading : bool;
  user : UserId;
  toasts : list Toast;
  console : list (string * Thrown)
}.

Definition initial (me : UserId) : State := mkState [] [] true me [] [].

Definition setMatches (v : list Match) (s : State) : State :=
  mkState v (pendingRequests s) (loading s) (user s) (toasts s) (console s).

Definition setPendingRequests (v : list PendingRequest) (s : State) : State :=
  mkState (matches s) v (loading s) (user s) (toasts s) (console s).

Definition setLoading (v : bool) (s : State) : State :=
  mkState (matches s) (pendingRequests s) v (user s) (toasts s) (console s).

Definition toast (t : Toast) (s : State) : State :=
  mkState (matches s) (pendingRequests s) (loading s) (user s)
          (toasts s ++ [t]) (console s).

Definition console_error (msg : string) (t : Thrown) (s : State) : State :=
  mkState (matches s) (pendingRequests s) (loading s) (user s) (toasts s)
          (console s ++ [(msg, t)]).

Definition Page (A : Type) : Type := Eff (Db * State) A.

Definition default_avatar : string :=
  "https://images.pexels.com/photos/774909/pexels-photo-774909.jpeg?auto=compress&cs=tinysrgb&w=100".

Definition person (u : UserRow) : Person :=
  mkPerson (u_id u) (or_else (fullname u) "Anonymous")
           (or_else (profile_pic u) default_avatar) (user_skill_offer u).

(** The callback of [data.map] in [fetchMatches]; both arms of its
    conditional are [match.users].  Reading a property of a missing [users]
    object throws, which is [None] here. *)
Definition to_match (me : UserId) (j : Joined) : option Match :=
  let otherUser :=
    if String.eqb (from_user_id (fst j)) me then snd j else snd j in
  match otherUser with
  | Some o => Some (mkMatch (sr_id (fst j)) (person o) (created_at (fst j)) matched)
  | None => None
  end.

Definition to_request (j : Joined) : option PendingRequest :=
  match snd j with
  | Some o => Some (mkPendingRequest (sr_id (fst j)) (person o)
                                     (swipe_type (fst j)) (created_at (fst j)))
  | None => None
  end.

Fixpoint traverse {A B : Type} (f : A -> option B) (l : list A)
    : option (list B) :=
  match l with
  | [] => Some []
  | a :: l' =>
      match f a with
      | Some b =>
          match traverse f l' with
          | Some bs => Some (b :: bs)
          | None => None
          end
      | None => None
      end
  end.

Definition null_property : Thrown :=
  TypeError "Cannot read properties of null".

Definition fetchMatches : Page unit :=
  st <- component ;;
  try_catch
    (res <- await (request (SelectMatched (user st)) (select_matched (user st))) ;;
     match error res with
     | Some e => throw (ThrownError e)
     | None =>
         match traverse (to_match (user st))
                        (match data res with Some d => d | None => [] end) with
         | Some transformedMatches => set_state (setMatches transformedMatches)
         | None => throw null_property
         end
     end)
    (fun t =>
       set_state (console_error "Error fetching matches:" t) ;;
       set_state (toast (ToastError "Failed to load matches"))).

Definition fetchPendingRequests : Page unit :=
  st <- component ;;
  try_finally
    (try_catch
       (res <- await (request (SelectPendingInbound (user st))
                              (select_pending_inbound (user st))) ;;
        match error res with
        | Some e => throw (ThrownError e)
        | None =>
            match traverse to_request
                           (match data res with Some d => d | None => [] end) with
            | Some transformedRequests =>
                set_state (setPendingRequests transformedRequests)
            | None => throw null_property
            end
        end)
       (fun t =>
          set_state (console_error "Error fetching pending requests:" t) ;;
          set_state (toast (ToastError "Failed to load pending requests"))))
    (set_state (setLoading false)).

Definition accepted_notification (requester : UserId) : Notification :=
  mkNotification requester "match" "Match Accepted!"
                 "Your swap request was accepted!".

(** The two refreshes at the end are started without [await]; they are run
    here one after the other, in the order they are started. *)
Definition handleAcceptRequest (requestId : RequestId) : Page unit :=
  try_catch
    (res <- await (request (UpdateStatusEq matched requestId)
                           (update_status_eq matched requestId)) ;;
     match error res with
     | Some e => throw (ThrownError e)
     | None =>
         st <- component ;;
         match find (fun r => Nat.eqb (pr_id r) requestId) (pendingRequests st) with
         | Some req =>
             await (request
                      (InsertNotification
                         (accepted_notification (person_id (fromUser req))))
                      (insert_notification
                         (accepted_notification (person_id (fromUser req))))) ;;
             ret tt
         | None => ret tt
         end ;;
         set_state (toast (ToastSuccess "Request accepted! 🎉")) ;;
         fetchMatches ;;
         fetchPendingRequests
     end)
    (fun t =>
       set_state (console_error "Error accepting request:" t) ;;
       set_state (toast (ToastError "Failed to accept request"))).

Definition handleRejectRequest (requestId : RequestId) : Page unit :=
  try_catch
    (res <- await (request (UpdateStatusEq rejected requestId)
                           (update_status_eq rejected requestId)) ;;
     match error res with
     | Some e => throw (ThrownError e)
     | None =>
         set_state (toast (ToastSuccess "Request rejected")) ;;
         fetchPendingRequests
     end)
    (fun t =>
       set_state (console_error "Error rejecting request:" t) ;;
       set_state (toast (ToastError "Failed to reject request"))).

End Dashboard.

(** ** Trying the handlers on a small database *)

Definition alice : UserId := "alice".
Definition bob : UserId := "bob".

Definition alice_row : UserRow :=
  mkUserRow alice (Some "Alice") None None None ["Rocq"] ["Piano"].
Definition bob_row : UserRow :=
  mkUserRow bob (Some "Bob") (Some "Pune") None None ["Piano"] ["Rocq"].

Definition db0 : Db := mkDb [alice_row; bob_row] [] [] 0 0 [] [].

(** The database and the page after a handler has run. *)
Definition after {U A : Type} (m : Eff (Db * U) A) (db : Db) (ui : U) : Db * U :=
  snd (m (db, ui)).

Definition db_after {U A : Type} (m : Eff (Db * U) A) (db : Db) (ui : U) : Db :=
  fst (after m db ui).

Definition ui_after {U A : Type} (m : Eff (Db * U) A) (db : Db) (ui : U) : U :=
  snd (after m db ui).

Definition completion {U A : Type} (m : Eff (Db * U) A) (db : Db) (ui : U)
    : Completion A :=
  fst (m (db, ui)).

(** A signed-in user opens Discover and the deck loads. *)
Definition open_discover (me : UserId) (db : Db) : Db * Discover.State :=
  after Discover.fetchProfiles db (Discover.initial me).

Unset Implicit Arguments.

Import Discover.

(** ** Auxiliary definitions: invariants, shapes and scenarios *)

(** The database once a call has used up its entry of [faults]. *)
Definition pop (db : Db) : Db := with_faults (tl (faults db)) db.

(** The store is available for every call to come. *)
Definition reliable (db : Db) : Prop := faults db = [].

Definition pair_of (r : SwapRequest) : UserId * UserId :=
  (from_user_id r, to_user_id r).

(** What the table guarantees of its rows: generated ids are fresh and
    distinct, and no ordered pair has two rows. *)
Record wf_db (db : Db) : Prop := mk_wf {
  ids_fresh : forall r, In r (swap_requests db) -> sr_id r < next_id db;
  ids_unique : NoDup (map sr_id (swap_requests db));
  pairs_unique : NoDup (map pair_of (swap_requests db))
}.

(** The page shows [currentProfile] and no swipe is under way. *)
Definition ready (st : State) (currentProfile : Profile) : Prop :=
  isAnimating st = false
  /\ nth_error (profiles st) (currentIndex st) = Some currentProfile.

(** The state updates before and after the [try] block. *)
Definition begin_swipe (direction : Direction) (st : State) : State :=
  controls (mkPose (exitX direction) (exitY direction) (exitRotate direction) 0)
           (setDailySwipes (fun prev => Z.max 0 (prev - 1))
                           (setIsAnimating true st)).

Definition end_swipe (direction : Direction) (st : State) : State :=
  setIsAnimating false
    (controls (mkPose 0 0 0 1)
       (setCurrentIndex (fun prev => prev + 1)
          (toast (direction_toast direction) st))).

Definition triggered (currentProfile : Profile) (st : State) : State :=
  toast (ToastSuccess ("🎉 It's a match with " ++ p_name currentProfile ++ "!"))
        (fire_confetti st).

(** Steps of [submit] after the insert, as one function of the state. *)
Definition reconcile (me : UserId) (currentProfile : Profile) (db : Db)
    (st : State) : Completion unit * (Db * State) :=
  let (found, db2) :=
    request (SelectPendingSingle (p_id currentProfile) me)
            (select_pending_single (p_id currentProfile) me) db in
  match data found with
  | Some mutualMatch =>
      let db3 := snd (request (UpdateStatusIn matched [sr_id mutualMatch])
                              (update_status_in matched [sr_id mutualMatch])
                              db2) in
      let db4 := snd (request
                        (InsertNotification (match_notification me currentProfile))
                        (insert_notification (match_notification me currentProfile))
                        db3) in
      (Normal tt, (db4, triggered currentProfile st))
  | None => (Normal tt, (db2, st))
  end.

Definition logged (t : Thrown) (st : State) : State :=
  console_error "Error handling swipe:" t st.

(** The reverse lookup and what follows it, on an available store. *)
Definition committed (me : UserId) (p : Profile) (m : SwapRequest) (db : Db)
    : Db :=
  mkDb (users db)
       (update_rows matched (id_in [sr_id m]) (swap_requests db))
       (notifications db ++ [match_notification me p])
       (next_id db) (now db) (faults db)
       (trace db ++ [SelectPendingSingle (p_id p) me;
                     UpdateStatusIn matched [sr_id m];
                     InsertNotification (match_notification me p)]).

(** The rows after the insert of [submit], on an available store. *)
Definition inserted (me : UserId) (p : Profile) (d : Direction) (db : Db) : Db :=
  snd (insert_swap_request me (p_id p) (kind_of d) pending
         (log (InsertSwapRequest me (p_id p) (kind_of d) pending) db)).

Definition new_row (me : UserId) (p : Profile) (d : Direction) (db : Db)
    : SwapRequest :=
  mkSwapRequest (next_id db) me (p_id p) (kind_of d) pending (now db).

(** The three tables and the generator of ids are as they were. *)
Definition same_tables (db db' : Db) : Prop :=
  users db' = users db
  /\ swap_requests db' = swap_requests db
  /\ notifications db' = notifications db
  /\ next_id db' = next_id db.

(** The notification [handleAcceptRequest] sends: to the requester of the
    request when the page lists it, none otherwise. *)
Definition accept_notifications (requestId : RequestId) (st : Dashboard.State)
    : list Notification :=
  match find (fun r => Nat.eqb (Dashboard.pr_id r) requestId)
             (Dashboard.pendingRequests st) with
  | Some req => [Dashboard.accepted_notification
                  (Dashboard.person_id (Dashboard.fromUser req))]
  | None => []
  end.

(** Bob has swiped right on Alice; nothing else has happened. *)
Definition db_bob_waits : Db :=
  let s := open_discover bob db0 in
  db_after (handleSwipe Right) (fst s) (snd s).

(** Alice's Discover page, opened on that database. *)
Definition alice_page : Db * State := open_discover alice db_bob_waits.

Definition bob_request : SwapRequest :=
  mkSwapRequest 0 bob alice normal pending 0.

Definition bob_profile : Profile := transform bob_row.

Ltac concrete_nodup :=
  vm_compute; repeat constructor; intros H; vm_compute in H;
  intuition discriminate.

Ltac concrete_wf :=
  constructor;
  [ intros r H; vm_compute in H;
    repeat (destruct H as [<- | H]; [vm_compute; lia|]); contradiction
  | concrete_nodup
  | concrete_nodup ].

(** Alice's Dashboard, opened on the database where Bob waits: the effect
    hook runs [fetchMatches] and [fetchPendingRequests]. *)
Definition alice_dashboard : Db * Dashboard.State :=
  after (Dashboard.fetchMatches ;; Dashboard.fetchPendingRequests)
        db_bob_waits (Dashboard.initial alice).

(** The notifications a handler has added, and those of them for a user. *)
Definition dispatched (db db' : Db) : list Notification :=
  skipn (List.length (notifications db)) (notifications db').


Definition bob_pending_request : Dashboard.PendingRequest :=
  Dashboard.mkPendingRequest 0 (Dashboard.person bob_row) normal 0.

(** Alice rejects Bob's request; the same page, not refreshed, then accepts
    it (a second tab, or a click that was already under way). *)
Definition db_bob_rejected : Db :=
  db_after (Dashboard.handleRejectRequest 0) (fst alice_dashboard)
           (snd alice_dashboard).

Definition db_bob_accepted_after_all : Db :=
  db_after (Dashboard.handleAcceptRequest 0) db_bob_rejected
           (snd alice_dashboard).

Definition unavailable : PostgrestError := mkError "08006".

(** [useAuth] hands the page another user; the deck in [profiles] is the one
    loaded before, until [fetchProfiles] has run again. *)
Definition signed_in_as (u : UserId) (s : State) : State :=
  mkState (profiles s) (currentIndex s) (isAnimating s) (dailySwipes s)
          (loading s) u (card s) (confetti s) (toasts s) (console s).

(** Alice's deck, with Bob on top, at the moment the session becomes Bob's. *)
Definition bob_on_alices_deck : State :=
  signed_in_as bob (snd (open_discover alice db0)).

(** Alice swipes right on Bob, Bob swipes right on Alice, and Alice, back at
    the top of her deck, swipes right on Bob again. *)
Definition alice_first : Db * State :=
  let s := open_discover alice db0 in
  after (handleSwipe Right) (fst s) (snd s).

Definition bob_answers : Db * State :=
  let s := open_discover bob (fst alice_first) in
  after (handleSwipe Right) (fst s) (snd s).

Definition alice_back_on_top : State :=
  ui_after resetStack (fst bob_answers) (snd alice_first).

Definition alice_again : Db * State :=
  after (handleSwipe Right) (fst bob_answers) alice_back_on_top.

(** The entry [fetchMatches] makes of a matched record: the person shown is
    always the initiator of the record. *)
Definition match_entry (db : Db) (r : SwapRequest) : option Dashboard.Match :=
  option_map (fun o => Dashboard.mkMatch (sr_id r) (Dashboard.person o)
                                         (created_at r) matched)
             (from_user db r).

(** Both records between Alice and Bob are MATCHED after Alice's second
    swipe; her Dashboard then lists the pair twice. *)
Definition alice_matches : list Dashboard.Match :=
  Dashboard.matches
    (ui_after Dashboard.fetchMatches (fst alice_again) (Dashboard.initial alice)).

(** A record, a call and a database with the kinds blanked out. *)
Definition forget_kind (r : SwapRequest) : SwapRequest :=
  mkSwapRequest (sr_id r) (from_user_id r) (to_user_id r) normal (status r)
                (created_at r).

Definition forget_kind_call (c : StoreCall) : StoreCall :=
  match c with
  | InsertSwapRequest f t _ s => InsertSwapRequest f t normal s
  | _ => c
  end.

Definition forget_kinds (db : Db) : Db :=
  mkDb (users db) (map forget_kind (swap_requests db)) (notifications db)
       (next_id db) (now db) (faults db) (map forget_kind_call (trace db)).

(** *** Beyond the claims *)

(** One swipe after the other, as the buttons and the drags start them. *)
Fixpoint swipes (ds : list Direction) : Page unit :=
  match ds with
  | [] => ret tt
  | d :: ds' => handleSwipe d ;; swipes ds'
  end.

(** What a record is apart from its status. *)
Definition identity (r : SwapRequest)
    : RequestId * UserId * UserId * SwipeType * Timestamp :=
  (sr_id r, from_user_id r, to_user_id r, swipe_type r, created_at r).

(** The entry [fetchPendingRequests] makes of a pending record. *)
Definition request_entry (db : Db) (r : SwapRequest)
    : option Dashboard.PendingRequest :=
  option_map (fun o => Dashboard.mkPendingRequest (sr_id r) (Dashboard.person o)
                                                  (swipe_type r) (created_at r))
             (from_user db r).

(** Every record's initiator has a row in [users]: the foreign key
    [swap_requests_from_user_id_fkey]. *)
Definition fk_from_user (db : Db) : Prop :=
  forall r, In r (swap_requests db) -> from_user db r <> None.



Definition accepted_toast : Toast := ToastSuccess "Request accepted! 🎉".



(** A database that is down for the next call. *)
Definition down_for_next_call (db : Db) : Db := with_faults [Some unavailable] db.

(** *** Other writers, and a page out of swipes *)

(** What other clients do to the store between two calls of a handler. *)
Definition meanwhile (others : Db -> Db) : Page unit :=
  fun s => (Normal tt, (others (fst s), snd s)).

(** The [try] block of [handleSwipe] as [submit] has it, with what other
    clients do to the store between its four calls: each [await] of the
    block lets the calls of other pages reach the store first. *)
Definition submit_among (e1 e2 e3 : Db -> Db) (me : UserId)
    (currentProfile : Profile) (direction : Direction) : Page unit :=
  res <- await (request
                  (InsertSwapRequest me (p_id currentProfile)
                                     (kind_of direction) pending)
                  (insert_swap_request me (p_id currentProfile)
                                       (kind_of direction) pending)) ;;
  match error res with
  | Some e =>
      if negb (String.eqb (code e) "23505")
      then throw (ThrownError e) else ret tt
  | None => ret tt
  end ;;
  meanwhile e1 ;;
  found <- await (request (SelectPendingSingle (p_id currentProfile) me)
                          (select_pending_single (p_id currentProfile) me)) ;;
  match data found with
  | Some mutualMatch =>
      meanwhile e2 ;;
      await (request (UpdateStatusIn matched [sr_id mutualMatch])
                     (update_status_in matched [sr_id mutualMatch])) ;;
      meanwhile e3 ;;
      await (request (InsertNotification (match_notification me currentProfile))
                     (insert_notification (match_notification me currentProfile))) ;;
      triggerMatch currentProfile
  | None => ret tt
  end.

(** [handleSwipe] among other writers. *)
Definition handleSwipe_among (e1 e2 e3 : Db -> Db) (direction : Direction)
    : Page unit :=
  st <- component ;;
  if isAnimating st || (List.length (profiles st) <=? currentIndex st)%nat
  then ret tt
  else
    match nth_error (profiles st) (currentIndex st) with
    | None => ret tt
    | Some currentProfile =>
        set_state (setIsAnimating true) ;;
        set_state (setDailySwipes (fun prev => Z.max 0 (prev - 1))) ;;
        set_state (controls (mkPose (exitX direction) (exitY direction)
                                    (exitRotate direction) 0)) ;;
        when (is_interest direction)
             (try_catch (submit_among e1 e2 e3 (user st) currentProfile direction)
                        (fun t => set_state (console_error "Error handling swipe:" t))) ;;
        set_state (toast (direction_toast direction)) ;;
        set_state (setCurrentIndex (fun prev => prev + 1)) ;;
        set_state (controls (mkPose 0 0 0 1)) ;;
        set_state (setIsAnimating false)
    end.

(** Nobody else writes. *)
Definition nobody (db : Db) : Db := db.

(** The store call of another page's [handleRejectRequest]. *)
Definition reject_call (i : RequestId) (db : Db) : Db :=
  snd (request (UpdateStatusEq rejected i) (update_status_eq rejected i) db).

(** The page with no swipes left on its counter. *)
Definition out_of_swipes (st : State) : State :=
  setDailySwipes (fun _ => 0%Z) st.

(** Alice's page once she has used up her swipes. *)
Definition alice_out_of_swipes : State := out_of_swipes (snd alice_page).

(** ** Facts about the store client *)

Lemma request_eq (A : Type) (c : StoreCall) (run : Db -> Response A * Db)
    (db : Db) :
  request c run db =
  match hd None (faults db) with
  | Some e => (mkResponse None (Some e), pop (log c db))
  | None => run (pop (log c db))
  end.
Proof.
  unfold request, pop. destruct db as [us rs ns i t fs tr]. simpl.
  destruct fs as [|[e|] fs]; reflexivity.
Qed.

Lemma request_reliable (A : Type) (c : StoreCall)
    (run : Db -> Response A * Db) (db : Db) :
  reliable db -> request c run db = run (log c db).
Proof.
  unfold reliable, request. destruct db as [us rs ns i t fs tr]. simpl.
  intros ->. reflexivity.
Qed.

Lemma same_pair_true (f t : UserId) (r : SwapRequest) :
  same_pair f t r = true <-> pair_of r = (f, t).
Proof.
  unfold same_pair, pair_of. rewrite andb_true_iff, !String.eqb_eq.
  split; [intros [-> ->]; reflexivity | intros [= -> ->]; auto].
Qed.

Lemma existsb_same_pair_false (f t : UserId) (rows : list SwapRequest) :
  existsb (same_pair f t) rows = false <-> ~ In (f, t) (map pair_of rows).
Proof.
  split.
  - intros H Hin. apply in_map_iff in Hin as (r & Hr & Hin).
    assert (existsb (same_pair f t) rows = true) as E.
    { apply existsb_exists. exists r. split; [assumption|].
      apply same_pair_true. assumption. }
    congruence.
  - intros H. destruct (existsb (same_pair f t) rows) eqn:E; [|reflexivity].
    apply existsb_exists in E as (r & Hin & Hr). exfalso. apply H.
    apply same_pair_true in Hr. rewrite <- Hr. apply in_map. assumption.
Qed.

Lemma Status_eqb_eq (a b : Status) : Status_eqb a b = true <-> a = b.
Proof. destruct a, b; simpl; split; congruence. Qed.

Lemma is_pending_pair_true (f t : UserId) (r : SwapRequest) :
  is_pending_pair f t r = true <-> pair_of r = (f, t) /\ status r = pending.
Proof.
  unfold is_pending_pair. rewrite andb_true_iff, same_pair_true, Status_eqb_eq.
  reflexivity.
Qed.

(** Under the uniqueness of pairs, the reverse lookup finds the pending
    reverse row whenever there is one. *)
Lemma filter_pending_pair_unique (f t : UserId) (rows : list SwapRequest)
    (m : SwapRequest) :
  NoDup (map pair_of rows) -> In m rows -> is_pending_pair f t m = true ->
  filter (is_pending_pair f t) rows = [m].
Proof.
  intros Hnd Hin Hm. apply is_pending_pair_true in Hm as [Hp Hs].
  induction rows as [|a l IH]; [contradiction|].
  simpl in Hnd. inversion Hnd as [|? ? Hnotin Hnd']; subst.
  assert (forall x, In x l -> is_pending_pair f t x = true ->
                    In (f, t) (map pair_of l)) as Hl.
  { intros x Hx Hpx. apply is_pending_pair_true in Hpx as [Hpx _].
    rewrite <- Hpx. apply in_map. assumption. }
  destruct Hin as [-> | Hin].
  - simpl. replace (is_pending_pair f t m) with true
      by (symmetry; apply is_pending_pair_true; auto).
    f_equal. destruct (filter (is_pending_pair f t) l) as [|x xs] eqn:E;
      [reflexivity|].
    exfalso. apply Hnotin. rewrite Hp.
    assert (In x (filter (is_pending_pair f t) l)) as Hx
      by (rewrite E; left; reflexivity).
    apply filter_In in Hx as [Hx1 Hx2]. eapply Hl; eassumption.
  - simpl. destruct (is_pending_pair f t a) eqn:Ea.
    + exfalso. apply Hnotin. apply is_pending_pair_true in Ea as [Ea _].
      rewrite Ea, <- Hp. apply in_map. assumption.
    + apply IH; assumption.
Qed.

Lemma filter_pending_pair_none (f t : UserId) (rows : list SwapRequest) :
  (forall r, In r rows -> pair_of r = (f, t) -> status r <> pending) ->
  filter (is_pending_pair f t) rows = [].
Proof.
  intros H. destruct (filter (is_pending_pair f t) rows) as [|x xs] eqn:E;
    [reflexivity|].
  assert (In x (filter (is_pending_pair f t) rows)) as Hx
    by (rewrite E; left; reflexivity).
  apply filter_In in Hx as [Hin Hx]. apply is_pending_pair_true in Hx as [Hp Hs].
  exfalso. eapply H; eassumption.
Qed.

Lemma single_data_in (A : Type) (rows : list A) (m : A) :
  data (single rows) = Some m -> rows = [m].
Proof.
  destruct rows as [|a [|b l]]; simpl; congruence.
Qed.

(** Rows told apart by their ids: an update by id touches one row. *)
Lemma unique_id_row (rows : list SwapRequest) (a b : SwapRequest) :
  NoDup (map sr_id rows) -> In a rows -> In b rows -> sr_id a = sr_id b ->
  a = b.
Proof.
  induction rows as [|x l IH]; [contradiction|].
  simpl. intros Hnd Ha Hb E. inversion Hnd as [|? ? Hnotin Hnd']; subst.
  destruct Ha as [-> | Ha], Hb as [-> | Hb]; auto.
  - exfalso. apply Hnotin. rewrite E. apply in_map. assumption.
  - exfalso. apply Hnotin. rewrite <- E. apply in_map. assumption.
Qed.

Lemma update_rows_keeps (s : Status) (sel : SwapRequest -> bool)
    (rows : list SwapRequest) (r : SwapRequest) :
  In r rows -> sel r = false -> In r (update_rows s sel rows).
Proof.
  intros Hin Hsel. unfold update_rows. apply in_map_iff. exists r.
  rewrite Hsel. auto.
Qed.

Lemma update_rows_sets (s : Status) (sel : SwapRequest -> bool)
    (rows : list SwapRequest) (r : SwapRequest) :
  In r rows -> sel r = true -> In (set_status s r) (update_rows s sel rows).
Proof.
  intros Hin Hsel. unfold update_rows. apply in_map_iff. exists r.
  rewrite Hsel. auto.
Qed.

Lemma update_rows_pairs (s : Status) (sel : SwapRequest -> bool)
    (rows : list SwapRequest) :
  map pair_of (update_rows s sel rows) = map pair_of rows.
Proof.
  unfold update_rows. rewrite map_map. apply map_ext. intros r.
  destruct (sel r); reflexivity.
Qed.

Lemma id_in_single (i : RequestId) (r : SwapRequest) :
  id_in [i] r = id_eq i r.
Proof. unfold id_in, id_eq. simpl. apply orb_false_r. Qed.

Lemma update_rows_in_single (s : Status) (i : RequestId)
    (rows : list SwapRequest) :
  update_rows s (id_in [i]) rows = update_rows s (id_eq i) rows.
Proof.
  unfold update_rows. apply map_ext. intros r. rewrite id_in_single.
  reflexivity.
Qed.

Lemma NoDup_snoc (A : Type) (l : list A) (a : A) :
  NoDup l -> ~ In a l -> NoDup (l ++ [a]).
Proof.
  intros Hnd Hnotin. induction Hnd as [|x l Hx Hnd IH]; simpl.
  - constructor; [intros []|constructor].
  - constructor.
    + intros Hin. apply in_app_or in Hin as [Hin | [-> | []]].
      * contradiction.
      * apply Hnotin. left. reflexivity.
    + apply IH. intros Hin. apply Hnotin. right. assumption.
Qed.

(** The insert keeps the table well formed, and keeps the rows it has. *)
Lemma insert_swap_request_wf (f t : UserId) (k : SwipeType) (s : Status)
    (db : Db) :
  wf_db db -> wf_db (snd (insert_swap_request f t k s db)).
Proof.
  intros [Hfresh Hids Hpairs]. unfold insert_swap_request.
  destruct (existsb _ _) eqn:E; simpl.
  - constructor; assumption.
  - constructor; simpl.
    + intros r Hin. apply in_app_or in Hin as [Hin | [<- | []]].
      * specialize (Hfresh r Hin). lia.
      * simpl. lia.
    + rewrite map_app. simpl. apply NoDup_snoc; [assumption|].
      intros Hin. apply in_map_iff in Hin as (r & Hr & Hin).
      specialize (Hfresh r Hin). lia.
    + rewrite map_app. simpl. apply NoDup_snoc; [assumption|].
      apply existsb_same_pair_false. assumption.
Qed.

Lemma insert_swap_request_keeps (f t : UserId) (k : SwipeType) (s : Status)
    (db : Db) (r : SwapRequest) :
  In r (swap_requests db) ->
  In r (swap_requests (snd (insert_swap_request f t k s db))).
Proof.
  intros Hin. unfold insert_swap_request.
  destruct (existsb _ _); simpl; [assumption|].
  apply in_or_app. left. assumption.
Qed.

Lemma wf_db_tables (db db' : Db) :
  swap_requests db' = swap_requests db -> next_id db' = next_id db ->
  wf_db db -> wf_db db'.
Proof.
  intros Hr Hn [Hfresh Hids Hpairs]. constructor; rewrite ?Hr, ?Hn; assumption.
Qed.

Lemma request_insert_wf (f t : UserId) (k : SwipeType) (s : Status) (db : Db) :
  wf_db db ->
  wf_db (snd (request (InsertSwapRequest f t k s)
                      (insert_swap_request f t k s) db)).
Proof.
  intros Hwf. rewrite request_eq.
  assert (wf_db (pop (log (InsertSwapRequest f t k s) db))) as Hwf'
    by (apply (wf_db_tables db); [reflexivity | reflexivity | assumption]).
  destruct (hd None (faults db)); [exact Hwf'|].
  apply insert_swap_request_wf. exact Hwf'.
Qed.

Lemma request_insert_keeps (f t : UserId) (k : SwipeType) (s : Status)
    (db : Db) (r : SwapRequest) :
  In r (swap_requests db) ->
  In r (swap_requests (snd (request (InsertSwapRequest f t k s)
                                    (insert_swap_request f t k s) db))).
Proof.
  intros Hin. rewrite request_eq.
  destruct (hd None (faults db)); [exact Hin|].
  apply insert_swap_request_keeps. exact Hin.
Qed.

(** ** The shape of a swipe *)

Lemma submit_unfold (me : UserId) (p : Profile) (d : Direction) (db : Db)
    (st : State) :
  submit me p d (db, st) =
  let (res, db1) :=
    request (InsertSwapRequest me (p_id p) (kind_of d) pending)
            (insert_swap_request me (p_id p) (kind_of d) pending) db in
  match error res with
  | Some e =>
      if negb (String.eqb (code e) "23505")
      then (Abrupt (ThrownError e), (db1, st))
      else reconcile me p db1 st
  | None => reconcile me p db1 st
  end.
Proof.
  unfold submit, reconcile, triggerMatch, triggered, bind, await, set_state,
    throw, ret.
  cbn [fst snd].
  destruct (request (InsertSwapRequest _ _ _ _) _ db) as [res db1].
  destruct (error res) as [e|];
    [destruct (negb (String.eqb (code e) "23505")); [reflexivity|]|];
    cbn [fst snd];
    destruct (request (SelectPendingSingle _ _) _ db1) as [found db2];
    cbn [fst snd];
    (destruct (data found) as [m|]; [|reflexivity]);
    cbn [fst snd];
    destruct (request (UpdateStatusIn _ _) _ db2) as [r3 db3];
    cbn [fst snd];
    destruct (request (InsertNotification _) _ db3) as [r4 db4];
    reflexivity.
Qed.

Lemma ready_guard (st : State) (p : Profile) :
  ready st p ->
  isAnimating st || (List.length (profiles st) <=? currentIndex st)%nat = false.
Proof.
  intros [Ha Hn]. rewrite Ha. simpl. apply Nat.leb_gt.
  apply nth_error_Some. congruence.
Qed.

Lemma handleSwipe_ready (d : Direction) (db : Db) (st : State) (p : Profile) :
  ready st p ->
  handleSwipe d (db, st) =
  if is_interest d then
    match submit (user st) p d (db, begin_swipe d st) with
    | (Normal _, (db', st')) => (Normal tt, (db', end_swipe d st'))
    | (Abrupt t, (db', st')) => (Normal tt, (db', end_swipe d (logged t st')))
    end
  else (Normal tt, (db, end_swipe d (begin_swipe d st))).
Proof.
  intros Hr. pose proof (ready_guard _ _ Hr) as Hg. destruct Hr as [_ Hn].
  unfold handleSwipe, bind, component, set_state, when, try_catch, ret,
    begin_swipe, end_swipe, logged.
  cbn [fst snd]. rewrite Hg, Hn. cbn [fst snd].
  destruct (is_interest d); [|reflexivity].
  destruct (submit (user st) p d _) as [[[]|t] [db' st']]; reflexivity.
Qed.

(** A call that is not ready to run changes nothing. *)
Lemma handleSwipe_not_ready (d : Direction) (db : Db) (st : State) :
  isAnimating st || (List.length (profiles st) <=? currentIndex st)%nat = true ->
  handleSwipe d (db, st) = (Normal tt, (db, st)).
Proof.
  intros Hg. unfold handleSwipe, bind, component. cbn [fst snd].
  rewrite Hg. destruct st; reflexivity.
Qed.

Lemma reconcile_reliable (me : UserId) (p : Profile) (db : Db) (st : State) :
  reliable db ->
  reconcile me p db st =
  match filter (is_pending_pair (p_id p) me) (swap_requests db) with
  | [m] => (Normal tt, (committed me p m db, triggered p st))
  | _ => (Normal tt, (log (SelectPendingSingle (p_id p) me) db, st))
  end.
Proof.
  unfold reliable, reconcile, request, committed.
  destruct db as [us rs ns i t fs tr]. simpl. intros ->.
  unfold select_pending_single. simpl.
  destruct (filter (is_pending_pair (p_id p) me) rs) as [|m [|m' l]];
    simpl; try reflexivity.
  unfold with_notifications, with_swap_requests, log. simpl.
  rewrite <- !app_assoc. reflexivity.
Qed.

Lemma inserted_reliable (me : UserId) (p : Profile) (d : Direction) (db : Db) :
  reliable db -> reliable (inserted me p d db).
Proof.
  unfold reliable, inserted, insert_swap_request. simpl.
  destruct (existsb _ _); simpl; auto.
Qed.

Lemma submit_reliable (me : UserId) (p : Profile) (d : Direction) (db : Db)
    (st : State) :
  reliable db ->
  submit me p d (db, st) = reconcile me p (inserted me p d db) st.
Proof.
  intros Hrel. rewrite submit_unfold, request_reliable by assumption.
  unfold inserted, insert_swap_request. simpl.
  destruct (existsb _ _); reflexivity.
Qed.

Lemma handleSwipe_reliable (d : Direction) (db : Db) (st : State) (p : Profile) :
  ready st p -> reliable db -> is_interest d = true ->
  handleSwipe d (db, st) =
  match filter (is_pending_pair (p_id p) (user st))
               (swap_requests (inserted (user st) p d db)) with
  | [m] => (Normal tt, (committed (user st) p m (inserted (user st) p d db),
                        end_swipe d (triggered p (begin_swipe d st))))
  | _ => (Normal tt, (log (SelectPendingSingle (p_id p) (user st))
                          (inserted (user st) p d db),
                      end_swipe d (begin_swipe d st)))
  end.
Proof.
  intros Hr Hrel Hd. rewrite (handleSwipe_ready d db st p Hr), Hd.
  rewrite submit_reliable by assumption.
  rewrite reconcile_reliable by (apply inserted_reliable; assumption).
  destruct (filter _ _) as [|m [|m' l]]; reflexivity.
Qed.

Lemma inserted_rows (me : UserId) (p : Profile) (d : Direction) (db : Db) :
  swap_requests (inserted me p d db) =
  if existsb (same_pair me (p_id p)) (swap_requests db)
  then swap_requests db
  else swap_requests db ++ [new_row me p d db].
Proof.
  unfold inserted, insert_swap_request. simpl.
  destruct (existsb _ _); reflexivity.
Qed.

Lemma inserted_notifications (me : UserId) (p : Profile) (d : Direction)
    (db : Db) :
  notifications (inserted me p d db) = notifications db.
Proof.
  unfold inserted, insert_swap_request. simpl.
  destruct (existsb _ _); reflexivity.
Qed.

Lemma inserted_trace (me : UserId) (p : Profile) (d : Direction) (db : Db) :
  trace (inserted me p d db) =
  trace db ++ [InsertSwapRequest me (p_id p) (kind_of d) pending].
Proof.
  unfold inserted, insert_swap_request. simpl.
  destruct (existsb _ _); reflexivity.
Qed.

Lemma inserted_wf (me : UserId) (p : Profile) (d : Direction) (db : Db) :
  wf_db db -> wf_db (inserted me p d db).
Proof.
  intros Hwf. unfold inserted. apply insert_swap_request_wf.
  apply (wf_db_tables db); [reflexivity | reflexivity | assumption].
Qed.

(** A signal to somebody else is not its own reverse. *)
Lemma inserted_reverse (me : UserId) (p : Profile) (d : Direction) (db : Db) :
  me <> p_id p ->
  filter (is_pending_pair (p_id p) me) (swap_requests (inserted me p d db)) =
  filter (is_pending_pair (p_id p) me) (swap_requests db).
Proof.
  intros Hne. rewrite inserted_rows. destruct (existsb _ _); [reflexivity|].
  rewrite filter_app. simpl.
  destruct (is_pending_pair (p_id p) me (new_row me p d db)) eqn:E.
  - apply is_pending_pair_true in E as [E _]. unfold pair_of in E. simpl in E.
    congruence.
  - apply app_nil_r.
Qed.

Lemma swipe_commit (d : Direction) (db : Db) (st : State) (p : Profile)
    (R : SwapRequest) :
  reliable db -> wf_db db -> ready st p -> is_interest d = true ->
  In R (swap_requests db) -> pair_of R = (p_id p, user st) ->
  status R = pending -> user st <> p_id p ->
  handleSwipe d (db, st) =
  (Normal tt,
   (committed (user st) p R (inserted (user st) p d db),
    end_swipe d (triggered p (begin_swipe d st)))).
Proof.
  intros Hrel Hwf Hr Hd Hin Hpair Hst Hne.
  rewrite (handleSwipe_reliable d db st p Hr Hrel Hd).
  rewrite inserted_reverse by assumption.
  rewrite (filter_pending_pair_unique (p_id p) (user st) (swap_requests db) R);
    [reflexivity | apply Hwf | assumption | apply is_pending_pair_true; auto].
Qed.

Lemma swipe_no_commit (d : Direction) (db : Db) (st : State) (p : Profile) :
  reliable db -> ready st p -> is_interest d = true -> user st <> p_id p ->
  (forall r, In r (swap_requests db) -> pair_of r = (p_id p, user st) ->
             status r <> pending) ->
  handleSwipe d (db, st) =
  (Normal tt,
   (log (SelectPendingSingle (p_id p) (user st)) (inserted (user st) p d db),
    end_swipe d (begin_swipe d st))).
Proof.
  intros Hrel Hr Hd Hne Hnone.
  rewrite (handleSwipe_reliable d db st p Hr Hrel Hd).
  rewrite inserted_reverse by assumption.
  rewrite filter_pending_pair_none by assumption. reflexivity.
Qed.

Lemma committed_rows (me : UserId) (p : Profile) (R : SwapRequest) (db : Db) :
  swap_requests (committed me p R db) =
  update_rows matched (id_eq (sr_id R)) (swap_requests db).
Proof.
  unfold committed, update_rows. cbn [swap_requests]. apply map_ext. intros r.
  rewrite id_in_single. reflexivity.
Qed.

Lemma update_rows_app (s : Status) (sel : SwapRequest -> bool)
    (l1 l2 : list SwapRequest) :
  update_rows s sel (l1 ++ l2) = update_rows s sel l1 ++ update_rows s sel l2.
Proof. unfold update_rows. apply map_app. Qed.

(** Whatever calls fail, the rows after the reverse lookup and what follows
    are the rows before, or those rows with one pending reverse row matched. *)
Lemma reconcile_rows (me : UserId) (p : Profile) (db : Db) (st : State) :
  swap_requests (fst (snd (reconcile me p db st))) = swap_requests db
  \/ exists m, In m (swap_requests db)
               /\ is_pending_pair (p_id p) me m = true
               /\ swap_requests (fst (snd (reconcile me p db st))) =
                  update_rows matched (id_eq (sr_id m)) (swap_requests db).
Proof.
  unfold reconcile. rewrite request_eq.
  destruct (hd None (faults db)) as [e|]; [left; reflexivity|].
  unfold select_pending_single.
  destruct (data (single _)) as [m|] eqn:E; [|left; reflexivity].
  apply single_data_in in E.
  assert (In m (filter (is_pending_pair (p_id p) me)
                       (swap_requests (pop (log (SelectPendingSingle (p_id p) me) db)))))
    as Hm by (rewrite E; left; reflexivity).
  apply filter_In in Hm as [Hin Hm]. cbn [fst snd].
  set (db2 := pop (log _ db)) in *.
  rewrite (request_eq _ (InsertNotification _)), (request_eq _ (UpdateStatusIn _ _)).
  destruct (hd None (faults db2)) as [e2|]; cbn [fst snd].
  - left. destruct (hd None _); reflexivity.
  - right. exists m. split; [exact Hin|]. split; [exact Hm|].
    assert (forall db3, swap_requests db3 =
                        update_rows matched (id_in [sr_id m]) (swap_requests db) ->
            swap_requests
              (snd (match hd None (faults db3) with
                    | Some e => (mkResponse (A:=unit) None (Some e),
                                 pop (log (InsertNotification (match_notification me p)) db3))
                    | None => insert_notification (match_notification me p)
                                (pop (log (InsertNotification (match_notification me p)) db3))
                    end)) =
            update_rows matched (id_eq (sr_id m)) (swap_requests db)) as H.
    { intros db3 E3. destruct (hd None (faults db3));
        cbn [snd insert_notification with_notifications pop log with_faults
             swap_requests];
        rewrite E3; apply update_rows_in_single. }
    apply H. reflexivity.
Qed.

Lemma submit_keeps_resolved (me : UserId) (p : Profile) (d : Direction)
    (db : Db) (st : State) (r : SwapRequest) :
  wf_db db -> In r (swap_requests db) -> status r <> pending ->
  In r (swap_requests (fst (snd (submit me p d (db, st))))).
Proof.
  intros Hwf Hin Hst. rewrite submit_unfold.
  pose proof (request_insert_wf me (p_id p) (kind_of d) pending db Hwf) as Hwf1.
  pose proof (request_insert_keeps me (p_id p) (kind_of d) pending db r Hin)
    as Hin1.
  destruct (request (InsertSwapRequest _ _ _ _) _ db) as [res db1].
  cbn [fst snd] in *.
  assert (In r (swap_requests (fst (snd (reconcile me p db1 st))))) as Hrec.
  { destruct (reconcile_rows me p db1 st) as [E | (m & Hm & Hpm & E)];
      rewrite E; [assumption|].
    apply update_rows_keeps; [assumption|].
    unfold id_eq. destruct (Nat.eqb_spec (sr_id r) (sr_id m)) as [Eid|]; [|reflexivity].
    exfalso. apply Hst.
    rewrite (unique_id_row (swap_requests db1) r m (ids_unique db1 Hwf1) Hin1 Hm Eid).
    apply is_pending_pair_true in Hpm. apply Hpm. }
  destruct (error res) as [e|]; [|exact Hrec].
  destruct (negb _); [exact Hin1 | exact Hrec].
Qed.

Lemma guard_cases (st : State) :
  isAnimating st || (List.length (profiles st) <=? currentIndex st)%nat = true
  \/ exists p, ready st p.
Proof.
  destruct (isAnimating st) eqn:Ea; [left; reflexivity|].
  destruct (nth_error (profiles st) (currentIndex st)) as [p|] eqn:En.
  - right. exists p. split; assumption.
  - left. simpl. apply Nat.leb_le. apply nth_error_None. assumption.
Qed.

(** Whatever calls fail, a swipe leaves every record that is not PENDING
    as it is. *)
Lemma handleSwipe_keeps_resolved (d : Direction) (db : Db) (st : State)
    (r : SwapRequest) :
  wf_db db -> In r (swap_requests db) -> status r <> pending ->
  In r (swap_requests (db_after (handleSwipe d) db st)).
Proof.
  intros Hwf Hin Hst. unfold db_after, after.
  destruct (guard_cases st) as [Hg | [p Hr]].
  - rewrite handleSwipe_not_ready by assumption. exact Hin.
  - rewrite (handleSwipe_ready d db st p Hr).
    destruct (is_interest d); [|exact Hin].
    pose proof (submit_keeps_resolved (user st) p d db (begin_swipe d st) r
                  Hwf Hin Hst) as H.
    destruct (submit _ _ _ _) as [[[]|t] [db' st']]; exact H.
Qed.

Lemma request_next_id (A : Type) (c : StoreCall) (run : Db -> Response A * Db)
    (db : Db) :
  (forall x, next_id (snd (run x)) = next_id x) ->
  next_id (snd (request c run db)) = next_id db.
Proof.
  intros Hrun. rewrite request_eq.
  destruct (hd None (faults db)); [reflexivity|]. rewrite Hrun. reflexivity.
Qed.

Lemma reconcile_next_id (me : UserId) (p : Profile) (db : Db) (st : State) :
  next_id (fst (snd (reconcile me p db st))) = next_id db.
Proof.
  unfold reconcile.
  pose proof (request_next_id _ (SelectPendingSingle (p_id p) me)
                (select_pending_single (p_id p) me) db (fun x => eq_refl)) as H2.
  destruct (request (SelectPendingSingle _ _) _ db) as [found db2].
  cbn [fst snd] in *.
  destruct (data found) as [m|]; cbn [fst snd]; [|exact H2].
  rewrite request_next_id by reflexivity. rewrite request_next_id by reflexivity.
  exact H2.
Qed.

Lemma wf_db_update (s : Status) (sel : SwapRequest -> bool) (db db' : Db) :
  swap_requests db' = update_rows s sel (swap_requests db) ->
  next_id db' = next_id db -> wf_db db -> wf_db db'.
Proof.
  intros Hr Hn [Hfresh Hids Hpairs]. constructor; rewrite Hr.
  - rewrite Hn. intros r Hin. unfold update_rows in Hin.
    apply in_map_iff in Hin as (x & <- & Hx). specialize (Hfresh x Hx).
    destruct (sel x); exact Hfresh.
  - unfold update_rows. rewrite map_map.
    rewrite (map_ext _ sr_id); [assumption|]. intros r. destruct (sel r); reflexivity.
  - rewrite update_rows_pairs. assumption.
Qed.

(** The table stays well formed along every swipe, whatever calls fail. *)
Lemma handleSwipe_wf (d : Direction) (db : Db) (st : State) :
  wf_db db -> wf_db (db_after (handleSwipe d) db st).
Proof.
  intros Hwf. unfold db_after, after.
  destruct (guard_cases st) as [Hg | [p Hr]].
  - rewrite handleSwipe_not_ready by assumption. exact Hwf.
  - rewrite (handleSwipe_ready d db st p Hr).
    destruct (is_interest d); [|exact Hwf].
    assert (wf_db (fst (snd (submit (user st) p d (db, begin_swipe d st))))) as H.
    { rewrite submit_unfold.
      pose proof (request_insert_wf (user st) (p_id p) (kind_of d) pending db Hwf)
        as Hwf1.
      destruct (request (InsertSwapRequest _ _ _ _) _ db) as [res db1].
      cbn [fst snd] in *.
      assert (wf_db (fst (snd (reconcile (user st) p db1 (begin_swipe d st)))))
        as Hrec.
      { pose proof (reconcile_next_id (user st) p db1 (begin_swipe d st)) as Hn.
        destruct (reconcile_rows (user st) p db1 (begin_swipe d st))
          as [E | (m & _ & _ & E)].
        - apply (wf_db_tables db1); assumption.
        - apply (wf_db_update matched (id_eq (sr_id m)) db1); assumption. }
      destruct (error res) as [e|]; [|exact Hrec].
      destruct (negb _); [exact Hwf1 | exact Hrec]. }
    destruct (submit _ _ _ _) as [[[]|t] [db' st']]; exact H.
Qed.

(** ** The shape of the Dashboard handlers *)

Section Decide.
Import Dashboard.

Lemma fetchMatches_tables (db : Db) (st : State) :
  exists db' st',
    fetchMatches (db, st) = (Normal tt, (db', st'))
    /\ same_tables db db' /\ (reliable db -> reliable db').
Proof.
  unfold fetchMatches, try_catch, bind, component, await, set_state, throw.
  cbn [fst snd]. rewrite request_eq.
  destruct (hd None (faults db)) as [e|]; cbn [fst snd error data].
  - eexists _, _. split; [reflexivity|]. split; [repeat split|].
    unfold reliable. simpl. intros ->. reflexivity.
  - unfold select_matched. cbn [fst snd error data].
    destruct (traverse _ _) as [ms|]; cbn [fst snd];
      (eexists _, _; split; [reflexivity|]; split; [repeat split|];
       unfold reliable; simpl; intros ->; reflexivity).
Qed.

Lemma fetchPendingRequests_tables (db : Db) (st : State) :
  exists db' st',
    fetchPendingRequests (db, st) = (Normal tt, (db', st'))
    /\ same_tables db db' /\ (reliable db -> reliable db').
Proof.
  unfold fetchPendingRequests, try_finally, try_catch, bind, component, await,
    set_state, throw.
  cbn [fst snd]. rewrite request_eq.
  destruct (hd None (faults db)) as [e|]; cbn [fst snd error data].
  - eexists _, _. split; [reflexivity|]. split; [repeat split|].
    unfold reliable. simpl. intros ->. reflexivity.
  - unfold select_pending_inbound. cbn [fst snd error data].
    destruct (traverse _ _) as [ms|]; cbn [fst snd];
      (eexists _, _; split; [reflexivity|]; split; [repeat split|];
       unfold reliable; simpl; intros ->; reflexivity).
Qed.

Lemma handleAcceptRequest_reliable (requestId : RequestId) (db : Db)
    (st : State) :
  reliable db ->
  exists db' st',
    handleAcceptRequest requestId (db, st) = (Normal tt, (db', st'))
    /\ users db' = users db
    /\ swap_requests db' =
       update_rows matched (id_eq requestId) (swap_requests db)
    /\ notifications db' =
       notifications db ++ accept_notifications requestId st.
Proof.
  intros Hrel.
  unfold handleAcceptRequest, accept_notifications, try_catch, bind, component,
    await, set_state, throw, ret.
  cbn [fst snd]. rewrite request_reliable by assumption.
  unfold update_status_eq. cbn [fst snd error data].
  set (db1 := with_swap_requests _ _).
  assert (reliable db1) as Hrel1 by exact Hrel.
  destruct (find _ (pendingRequests st)) as [req|]; cbn [fst snd].
  - rewrite request_reliable by assumption.
    unfold insert_notification. cbn [fst snd].
    set (db2 := with_notifications _ _).
    destruct (fetchMatches_tables db2 (toast (ToastSuccess "Request accepted! 🎉") st))
      as (db3 & st3 & E3 & (U3 & R3 & N3 & _) & _).
    rewrite E3.
    destruct (fetchPendingRequests_tables db3 st3)
      as (db4 & st4 & E4 & (U4 & R4 & N4 & _) & _).
    rewrite E4. exists db4, st4. split; [reflexivity|].
    rewrite U4, R4, N4, U3, R3, N3. repeat split.
  - destruct (fetchMatches_tables db1 (toast (ToastSuccess "Request accepted! 🎉") st))
      as (db3 & st3 & E3 & (U3 & R3 & N3 & _) & _).
    rewrite E3.
    destruct (fetchPendingRequests_tables db3 st3)
      as (db4 & st4 & E4 & (U4 & R4 & N4 & _) & _).
    rewrite E4. exists db4, st4. split; [reflexivity|].
    rewrite U4, R4, N4, U3, R3, N3. subst db1. simpl. rewrite app_nil_r.
    repeat split.
Qed.

Lemma handleRejectRequest_reliable (requestId : RequestId) (db : Db)
    (st : State) :
  reliable db ->
  exists db' st',
    handleRejectRequest requestId (db, st) = (Normal tt, (db', st'))
    /\ users db' = users db
    /\ swap_requests db' =
       update_rows rejected (id_eq requestId) (swap_requests db)
    /\ notifications db' = notifications db.
Proof.
  intros Hrel.
  unfold handleRejectRequest, try_catch, bind, component, await, set_state,
    throw, ret.
  cbn [fst snd]. rewrite request_reliable by assumption.
  unfold update_status_eq. cbn [fst snd error data].
  set (db1 := with_swap_requests _ _).
  destruct (fetchPendingRequests_tables db1 (toast (ToastSuccess "Request rejected") st))
    as (db4 & st4 & E4 & (U4 & R4 & N4 & _) & _).
  rewrite E4. exists db4, st4. split; [reflexivity|].
  rewrite U4, R4, N4. repeat split.
Qed.

(** The Dashboard's updates keep the table well formed. *)
Lemma handleAcceptRequest_wf (requestId : RequestId) (db : Db) (st : State) :
  reliable db -> wf_db db ->
  wf_db (db_after (handleAcceptRequest requestId) db st).
Proof.
  intros Hrel Hwf.
  unfold db_after, after, handleAcceptRequest, try_catch, bind, component,
    await, set_state, throw, ret.
  cbn [fst snd]. rewrite request_reliable by assumption.
  unfold update_status_eq. cbn [fst snd error data].
  set (db1 := with_swap_requests _ _).
  assert (reliable db1) as Hrel1 by exact Hrel.
  assert (wf_db db1) as Hwf1
    by (apply (wf_db_update matched (id_eq requestId) db);
        [reflexivity | reflexivity | assumption]).
  assert (forall db2 st2, swap_requests db2 = swap_requests db1 ->
                          next_id db2 = next_id db1 ->
            wf_db (fst (snd (let (c, s') := fetchMatches (db2, st2) in
                             match c with
                             | Normal _ => fetchPendingRequests s'
                             | Abrupt t => (Abrupt t, s')
                             end)))) as Htail.
  { intros db2 st2 Hr2 Hn2.
    destruct (fetchMatches_tables db2 st2) as (db3 & st3 & E3 & (_ & R3 & _ & I3) & _).
    rewrite E3.
    destruct (fetchPendingRequests_tables db3 st3)
      as (db4 & st4 & E4 & (_ & R4 & _ & I4) & _).
    rewrite E4. cbn [fst snd].
    apply (wf_db_tables db1); [congruence | congruence | assumption]. }
  destruct (find _ (pendingRequests st)) as [req|]; cbn [fst snd].
  - rewrite request_reliable by assumption.
    unfold insert_notification. cbn [fst snd].
    specialize (Htail (with_notifications
                         (notifications (log (InsertNotification
                            (accepted_notification (person_id (fromUser req)))) db1)
                          ++ [accepted_notification (person_id (fromUser req))])
                         (log (InsertNotification
                            (accepted_notification (person_id (fromUser req)))) db1))
                      (toast (ToastSuccess "Request accepted! 🎉") st)
                      eq_refl eq_refl).
    destruct (fetchMatches _) as [[[]|t] s3]; [|exact Htail].
    destruct (fetchPendingRequests s3) as [[[]|t] s4]; exact Htail.
  - specialize (Htail db1 (toast (ToastSuccess "Request accepted! 🎉") st)
                      eq_refl eq_refl).
    destruct (fetchMatches _) as [[[]|t] s3]; [|exact Htail].
    destruct (fetchPendingRequests s3) as [[[]|t] s4]; exact Htail.
Qed.

Lemma handleRejectRequest_wf (requestId : RequestId) (db : Db) (st : State) :
  reliable db -> wf_db db ->
  wf_db (db_after (handleRejectRequest requestId) db st).
Proof.
  intros Hrel Hwf.
  unfold db_after, after, handleRejectRequest, try_catch, bind, component,
    await, set_state, throw, ret.
  cbn [fst snd]. rewrite request_reliable by assumption.
  unfold update_status_eq. cbn [fst snd error data].
  set (db1 := with_swap_requests _ _).
  assert (wf_db db1) as Hwf1
    by (apply (wf_db_update rejected (id_eq requestId) db);
        [reflexivity | reflexivity | assumption]).
  destruct (fetchPendingRequests_tables db1 (toast (ToastSuccess "Request rejected") st))
    as (db4 & st4 & E4 & (_ & R4 & _ & I4) & _).
  rewrite E4. cbn [fst snd].
  apply (wf_db_tables db1); assumption.
Qed.
End Decide.

Lemma db_bob_waits_wf : wf_db (fst alice_page).
Proof. concrete_wf. Qed.

(** ** Commit, decision and resubmission *)

(** C1 (the code breaks the claim).  When the reverse record [R] of a newly
    submitted signal is PENDING, [handleSwipe] sets [R] to MATCHED and stops
    there: its update names [mutualMatch.id] alone, so the new signal is
    stored PENDING and stays so.  The rows after the swipe are the old rows
    with [R] matched, followed by the new row, pending. *)
Theorem C1_new_signal_stays_pending (d : Direction) (db : Db) (st : State)
    (p : Profile) (R : SwapRequest) :
  reliable db -> wf_db db -> ready st p -> is_interest d = true ->
  In R (swap_requests db) -> pair_of R = (p_id p, user st) ->
  status R = pending ->
  ~ In (user st, p_id p) (map pair_of (swap_requests db)) ->
  swap_requests (db_after (handleSwipe d) db st) =
  update_rows matched (id_eq (sr_id R)) (swap_requests db)
  ++ [mkSwapRequest (next_id db) (user st) (p_id p) (kind_of d) pending (now db)]
  /\ In (set_status matched R) (swap_requests (db_after (handleSwipe d) db st)).
Proof.
  intros Hrel Hwf Hr Hd Hin Hpair Hst Hnew.
  assert (user st <> p_id p) as Hne.
  { intros E. apply Hnew.
    assert (pair_of R = (user st, p_id p)) as <- by (rewrite Hpair; congruence).
    apply in_map. assumption. }
  assert (swap_requests (db_after (handleSwipe d) db st) =
          update_rows matched (id_eq (sr_id R)) (swap_requests db)
          ++ [mkSwapRequest (next_id db) (user st) (p_id p) (kind_of d) pending
                            (now db)]) as Hrows.
  { unfold db_after, after.
    rewrite (swipe_commit d db st p R) by assumption. cbn [fst snd].
    rewrite committed_rows, inserted_rows.
    apply existsb_same_pair_false in Hnew. rewrite Hnew.
    rewrite update_rows_app. f_equal. unfold update_rows, id_eq. simpl.
    pose proof (ids_fresh db Hwf R Hin) as Hlt.
    destruct (Nat.eqb_spec (next_id db) (sr_id R)); [lia|reflexivity]. }
  split; [exact Hrows|].
  rewrite Hrows. apply in_or_app. left. apply update_rows_sets; [assumption|].
  unfold id_eq. apply Nat.eqb_refl.
Qed.

(** C1 at Alice's swipe on Bob, whose request to her is pending. *)
Lemma C1_new_signal_stays_pending_witness :
  swap_requests (db_after (handleSwipe Right) (fst alice_page) (snd alice_page))
  = [mkSwapRequest 0 bob alice normal matched 0;
     mkSwapRequest 1 alice bob normal pending 1].
Proof.
  refine (proj1 (C1_new_signal_stays_pending Right (fst alice_page)
                   (snd alice_page) bob_profile bob_request _ _ _ _ _ _ _ _)).
  - reflexivity.
  - exact db_bob_waits_wf.
  - split; reflexivity.
  - reflexivity.
  - left. reflexivity.
  - reflexivity.
  - reflexivity.
  - simpl. intros [H | []]. discriminate H.
Defined.


(** C3, as stated, fails.  The updates of the Dashboard carry no condition on
    the current status: a REJECTED record is set to MATCHED by an accept, and
    that MATCHED record is set to REJECTED by a reject. *)
Lemma C3_terminal_states_counterexample :
  map status (swap_requests db_bob_rejected) = [rejected]
  /\ map status (swap_requests db_bob_accepted_after_all) = [matched]
  /\ map status
       (swap_requests
          (db_after (Dashboard.handleRejectRequest 0) db_bob_accepted_after_all
                    (snd alice_dashboard))) = [rejected].
Proof. repeat split. Qed.

(** C5, as stated, fails.  Alice's accept of Bob's request sets that one
    record to MATCHED and files no record from Alice to Bob, where Alice's
    swipe on Bob files one (and leaves it PENDING); the two paths also notify
    different users. *)
Lemma C5_accept_is_not_a_reverse_swipe_counterexample :
  (let db' := db_after (Dashboard.handleAcceptRequest 0) (fst alice_dashboard)
                       (snd alice_dashboard) in
   swap_requests db' = [mkSwapRequest 0 bob alice normal matched 0]
   /\ existsb (same_pair alice bob) (swap_requests db') = false
   /\ map n_user_id (notifications db') = [bob])
  /\
  (let db' := db_after (handleSwipe Right) (fst alice_page) (snd alice_page) in
   swap_requests db' = [mkSwapRequest 0 bob alice normal matched 0;
                        mkSwapRequest 1 alice bob normal pending 1]
   /\ map n_user_id (notifications db') = [alice]).
Proof. repeat split. Qed.

(** C5 (amended).  [handleAcceptRequest] sets the status of the record with
    the given id to MATCHED, and [handleRejectRequest] sets it to REJECTED;
    both leave every other record, and the set of ordered pairs on file, as
    they are, so an accept files no reverse record.  The accept notifies the
    requester when the page lists the request; the reject notifies nobody. *)
Theorem C5_decide_updates_the_one_record (requestId : RequestId) (db : Db)
    (dash : Dashboard.State) :
  reliable db ->
  (let db' := db_after (Dashboard.handleAcceptRequest requestId) db dash in
   swap_requests db' = update_rows matched (id_eq requestId) (swap_requests db)
   /\ map pair_of (swap_requests db') = map pair_of (swap_requests db)
   /\ notifications db' =
      notifications db ++ accept_notifications requestId dash)
  /\
  (let db' := db_after (Dashboard.handleRejectRequest requestId) db dash in
   swap_requests db' = update_rows rejected (id_eq requestId) (swap_requests db)
   /\ map pair_of (swap_requests db') = map pair_of (swap_requests db)
   /\ notifications db' = notifications db).
Proof.
  intros Hrel.
  destruct (handleAcceptRequest_reliable requestId db dash Hrel)
    as (dba & sta & Ea & _ & Hra & Hna).
  destruct (handleRejectRequest_reliable requestId db dash Hrel)
    as (dbr & str & Er & _ & Hrr & Hnr).
  unfold db_after, after. rewrite Ea, Er. cbn [fst snd].
  rewrite Hra, Hrr, !update_rows_pairs. repeat split; assumption.
Qed.

(** C5 (amended) at Alice's accept, and at her reject, of Bob's request. *)
Lemma C5_decide_updates_the_one_record_witness :
  swap_requests (db_after (Dashboard.handleAcceptRequest 0) (fst alice_dashboard)
                          (snd alice_dashboard))
  = [mkSwapRequest 0 bob alice normal matched 0]
  /\ swap_requests (db_after (Dashboard.handleRejectRequest 0)
                             (fst alice_dashboard) (snd alice_dashboard))
     = [mkSwapRequest 0 bob alice normal rejected 0].
Proof.
  destruct (C5_decide_updates_the_one_record 0 (fst alice_dashboard)
              (snd alice_dashboard) eq_refl) as ((H1 & _) & (H2 & _)).
  split; [exact H1 | exact H2].
Defined.

Lemma reverse_cases (f t : UserId) (db : Db) :
  wf_db db ->
  (exists R, In R (swap_requests db) /\ pair_of R = (f, t) /\ status R = pending)
  \/ (forall r, In r (swap_requests db) -> pair_of r = (f, t) ->
                status r <> pending).
Proof.
  intros Hwf.
  destruct (filter (is_pending_pair f t) (swap_requests db)) as [|R l] eqn:E.
  - right. intros r Hin Hp Hs.
    assert (In r (filter (is_pending_pair f t) (swap_requests db))) as H.
    { apply filter_In. split; [assumption|]. apply is_pending_pair_true. auto. }
    rewrite E in H. contradiction.
  - left. exists R.
    assert (In R (filter (is_pending_pair f t) (swap_requests db))) as H
      by (rewrite E; left; reflexivity).
    apply filter_In in H as [Hin H]. apply is_pending_pair_true in H as [Hp Hs].
    auto.
Qed.

(** C4, as stated, fails.  Alice's second swipe on Bob is a resubmission (the
    pair is on file and the insert reports the duplicate), yet the reverse
    lookup runs, Bob's record goes from PENDING to MATCHED and a notification
    is dispatched. *)
Lemma C4_resubmission_counterexample :
  existsb (same_pair alice bob) (swap_requests (fst bob_answers)) = true
  /\ swap_requests (fst bob_answers)
     = [mkSwapRequest 0 alice bob normal matched 0;
        mkSwapRequest 1 bob alice normal pending 1]
  /\ swap_requests (fst alice_again)
     = [mkSwapRequest 0 alice bob normal matched 0;
        mkSwapRequest 1 bob alice normal matched 1]
  /\ dispatched (fst bob_answers) (fst alice_again)
     = [match_notification alice bob_profile]
  /\ skipn (List.length (trace (fst bob_answers))) (trace (fst alice_again))
     = [InsertSwapRequest alice bob normal pending;
        SelectPendingSingle bob alice;
        UpdateStatusIn matched [1];
        InsertNotification (match_notification alice bob_profile)].
Proof. repeat split. Qed.

(** C4 (amended).  Submitting a directed signal that is on file adds no
    record and leaves that record as it is (the duplicate-key error of the
    insert is ignored), but the reverse lookup still runs: when the reverse
    record is PENDING it is set to MATCHED and one notification is
    dispatched; otherwise nothing changes. *)
Theorem C4_resubmission_still_reconciles (d : Direction) (db : Db) (st : State)
    (p : Profile) (S : SwapRequest) :
  reliable db -> wf_db db -> ready st p -> is_interest d = true ->
  user st <> p_id p ->
  In S (swap_requests db) -> pair_of S = (user st, p_id p) ->
  In S (swap_requests (db_after (handleSwipe d) db st))
  /\ map pair_of (swap_requests (db_after (handleSwipe d) db st))
     = map pair_of (swap_requests db)
  /\ (exists rest,
        trace (db_after (handleSwipe d) db st) =
        trace db ++ InsertSwapRequest (user st) (p_id p) (kind_of d) pending
                 :: SelectPendingSingle (p_id p) (user st) :: rest)
  /\ (forall R, In R (swap_requests db) -> pair_of R = (p_id p, user st) ->
                status R = pending ->
        swap_requests (db_after (handleSwipe d) db st)
        = update_rows matched (id_eq (sr_id R)) (swap_requests db)
        /\ notifications (db_after (handleSwipe d) db st)
           = notifications db ++ [match_notification (user st) p])
  /\ ((forall R, In R (swap_requests db) -> pair_of R = (p_id p, user st) ->
                 status R <> pending) ->
      swap_requests (db_after (handleSwipe d) db st) = swap_requests db
      /\ notifications (db_after (handleSwipe d) db st) = notifications db).
Proof.
  intros Hrel Hwf Hr Hd Hne HinS HpairS.
  assert (swap_requests (inserted (user st) p d db) = swap_requests db) as Hins.
  { rewrite inserted_rows.
    replace (existsb _ _) with true; [reflexivity|].
    symmetry. apply existsb_exists. exists S. split; [assumption|].
    apply same_pair_true. assumption. }
  unfold db_after, after.
  destruct (reverse_cases (p_id p) (user st) db Hwf)
    as [(R & HinR & HpairR & HstR) | Hnone].
  - rewrite (swipe_commit d db st p R) by assumption. cbn [fst snd].
    rewrite committed_rows, Hins.
    assert (notifications (committed (user st) p R (inserted (user st) p d db))
            = notifications db ++ [match_notification (user st) p]) as Hn.
    { unfold committed. cbn [notifications]. rewrite inserted_notifications.
      reflexivity. }
    split; [|split; [|split; [|split]]].
    + apply update_rows_keeps; [assumption|]. unfold id_eq.
      destruct (Nat.eqb_spec (sr_id S) (sr_id R)) as [E|]; [|reflexivity].
      exfalso. apply Hne.
      pose proof (unique_id_row (swap_requests db) S R (ids_unique db Hwf)
                    HinS HinR E) as ES.
      rewrite ES, HpairR in HpairS. congruence.
    + apply update_rows_pairs.
    + eexists. unfold committed. cbn [trace]. rewrite inserted_trace.
      rewrite <- app_assoc. reflexivity.
    + intros R' HinR' HpairR' HstR'.
      assert (R' = R) as ->.
      { pose proof (filter_pending_pair_unique (p_id p) (user st)
                      (swap_requests db) R (pairs_unique db Hwf) HinR) as E1.
        pose proof (filter_pending_pair_unique (p_id p) (user st)
                      (swap_requests db) R' (pairs_unique db Hwf) HinR') as E2.
        rewrite E1 in E2 by (apply is_pending_pair_true; auto).
        injection E2; [auto | apply is_pending_pair_true; auto]. }
      split; [reflexivity | exact Hn].
    + intros Hnone. exfalso. exact (Hnone R HinR HpairR HstR).
  - rewrite (swipe_no_commit d db st p) by assumption. cbn [fst snd].
    cbn [log swap_requests notifications trace].
    rewrite Hins, inserted_trace, inserted_notifications.
    split; [|split; [|split; [|split]]].
    + assumption.
    + reflexivity.
    + exists []. rewrite <- app_assoc. reflexivity.
    + intros R HinR HpairR HstR. exfalso. exact (Hnone R HinR HpairR HstR).
    + intros _. split; reflexivity.
Qed.

(** C4 (amended) at Alice's second swipe on Bob. *)
Lemma C4_resubmission_still_reconciles_witness :
  In (mkSwapRequest 0 alice bob normal matched 0)
     (swap_requests (db_after (handleSwipe Right) (fst bob_answers)
                              alice_back_on_top))
  /\ map pair_of (swap_requests (db_after (handleSwipe Right) (fst bob_answers)
                                          alice_back_on_top))
     = map pair_of (swap_requests (fst bob_answers)).
Proof.
  assert (wf_db (fst bob_answers)) as Hwf by concrete_wf.
  destruct (C4_resubmission_still_reconciles Right (fst bob_answers)
              alice_back_on_top
              bob_profile (mkSwapRequest 0 alice bob normal matched 0)
              eq_refl Hwf (conj eq_refl eq_refl) eq_refl)
    as (H1 & H2 & _).
  - discriminate.
  - left. reflexivity.
  - reflexivity.
  - split; [exact H1 | exact H2].
Defined.

(** ** Matches on the Dashboard *)

Lemma traverse_map (A B : Type) (f : A -> option B) (g : A -> B) (l : list A) :
  (forall a, In a l -> f a = Some (g a)) -> Dashboard.traverse f l = Some (map g l).
Proof.
  induction l as [|a l IH]; intros H; simpl; [reflexivity|].
  rewrite (H a (or_introl eq_refl)), IH; [reflexivity|].
  intros x Hx. apply H. right. assumption.
Qed.

Lemma map_Some_inj (A : Type) (l1 l2 : list A) :
  map Some l1 = map Some l2 -> l1 = l2.
Proof.
  revert l2. induction l1 as [|a l IH]; intros [|b l']; simpl;
    try discriminate; [reflexivity|].
  intros [= -> E]. f_equal. apply IH. assumption.
Qed.

Lemma fetchMatches_reliable (db : Db) (dash : Dashboard.State) :
  reliable db ->
  (forall r, In r (swap_requests db) -> from_user db r <> None) ->
  map Some (Dashboard.matches (ui_after Dashboard.fetchMatches db dash)) =
  map (match_entry db)
      (filter (is_matched_of (Dashboard.user dash)) (swap_requests db)).
Proof.
  intros Hrel Hfk.
  unfold ui_after, after, Dashboard.fetchMatches, try_catch, bind, component,
    await, set_state, throw.
  cbn [fst snd]. rewrite request_reliable by assumption.
  unfold select_matched. cbn [fst snd error data].
  set (rows := filter _ _).
  assert (forall r, In r rows -> In r (swap_requests db)) as Hsub.
  { intros r Hr. apply filter_In in Hr. apply Hr. }
  clearbody rows.
  change (from_user (log (SelectMatched (Dashboard.user dash)) db))
    with (from_user db).
  rewrite (traverse_map _ _ _
             (fun j : Joined =>
                Dashboard.mkMatch (sr_id (fst j))
                  (Dashboard.person
                     (match snd j with Some o => o | None => alice_row end))
                  (created_at (fst j)) matched)).
  - cbn [fst snd Dashboard.matches Dashboard.setMatches].
    rewrite !map_map. apply map_ext_in. intros r Hr. cbn [fst snd].
    unfold match_entry.
    destruct (from_user db r) eqn:E; [reflexivity|].
    exfalso. apply (Hfk r); [apply Hsub; assumption | assumption].
  - intros j Hj. apply in_map_iff in Hj as (r & <- & Hr).
    unfold Dashboard.to_match. cbn [fst snd].
    destruct (from_user db r) eqn:E.
    + destruct (String.eqb _ _); reflexivity.
    + exfalso. apply (Hfk r); [apply Hsub; assumption | assumption].
Qed.

(** C6, as stated, fails: the list is not deduplicated per unordered pair.
    With both directed records between Alice and Bob MATCHED, Alice's list of
    matches has two entries, one per record. *)
Lemma C6_no_deduplication_counterexample :
  map pair_of (swap_requests (fst alice_again)) = [(alice, bob); (bob, alice)]
  /\ map status (swap_requests (fst alice_again)) = [matched; matched]
  /\ map Dashboard.m_id alice_matches = [0; 1]
  /\ List.length alice_matches = 2.
Proof. repeat split. Qed.

(** C6 (amended).  [fetchMatches] lists exactly the records with status
    MATCHED in which the user is initiator or target, one entry per record
    and in table order, with no deduplication; a record that is PENDING,
    such as a lone signal with no reverse, is in nobody's list. *)
Theorem C6_one_entry_per_matched_record (db : Db) (dash : Dashboard.State)
    (r : SwapRequest) :
  reliable db -> wf_db db ->
  (forall x, In x (swap_requests db) -> from_user db x <> None) ->
  In r (swap_requests db) ->
  map Dashboard.m_id (Dashboard.matches (ui_after Dashboard.fetchMatches db dash))
  = map sr_id (filter (is_matched_of (Dashboard.user dash)) (swap_requests db))
  /\ (In (sr_id r)
         (map Dashboard.m_id
              (Dashboard.matches (ui_after Dashboard.fetchMatches db dash)))
      <-> status r = matched
          /\ (from_user_id r = Dashboard.user dash
              \/ to_user_id r = Dashboard.user dash)).
Proof.
  intros Hrel Hwf Hfk Hin.
  pose proof (fetchMatches_reliable db dash Hrel Hfk) as H.
  assert (map Dashboard.m_id
            (Dashboard.matches (ui_after Dashboard.fetchMatches db dash))
          = map sr_id (filter (is_matched_of (Dashboard.user dash))
                              (swap_requests db))) as Hids.
  { apply map_Some_inj.
    transitivity (map (option_map Dashboard.m_id)
                      (map Some (Dashboard.matches
                                   (ui_after Dashboard.fetchMatches db dash)))).
    - rewrite !map_map. reflexivity.
    - rewrite H, !map_map. apply map_ext_in. intros x Hx.
      apply filter_In in Hx as [Hx _]. unfold match_entry.
      destruct (from_user db x) eqn:E; [reflexivity|].
      exfalso. apply (Hfk x); assumption. }
  split; [exact Hids|].
  rewrite Hids. split.
  - intros Hi. apply in_map_iff in Hi as (x & Ex & Hx).
    apply filter_In in Hx as [Hx Hm].
    rewrite (unique_id_row (swap_requests db) r x (ids_unique db Hwf) Hin Hx
               (eq_sym Ex)).
    unfold is_matched_of in Hm. apply andb_true_iff in Hm as [Hs Hu].
    apply Status_eqb_eq in Hs. apply orb_true_iff in Hu.
    rewrite !String.eqb_eq in Hu. auto.
  - intros [Hs Hu]. apply in_map. apply filter_In. split; [assumption|].
    unfold is_matched_of. apply andb_true_iff. split.
    + apply Status_eqb_eq. assumption.
    + apply orb_true_iff. rewrite !String.eqb_eq. assumption.
Qed.

(** C6 (amended) at Alice's lone signal to Bob: in neither list. *)
Lemma C6_one_entry_per_matched_record_witness :
  ~ In 0 (map Dashboard.m_id
              (Dashboard.matches
                 (ui_after Dashboard.fetchMatches (fst alice_first)
                           (Dashboard.initial alice))))
  /\ ~ In 0 (map Dashboard.m_id
                 (Dashboard.matches
                    (ui_after Dashboard.fetchMatches (fst alice_first)
                              (Dashboard.initial bob)))).
Proof.
  assert (wf_db (fst alice_first)) as Hwf by concrete_wf.
  assert (forall x, In x (swap_requests (fst alice_first)) ->
                    from_user (fst alice_first) x <> None) as Hfk.
  { intros x [<- | []]. discriminate. }
  split.
  - intros H.
    apply (C6_one_entry_per_matched_record (fst alice_first)
             (Dashboard.initial alice)
             (mkSwapRequest 0 alice bob normal pending 0)
             eq_refl Hwf Hfk (or_introl eq_refl)) in H.
    destruct H as [H _]. discriminate H.
  - intros H.
    apply (C6_one_entry_per_matched_record (fst alice_first)
             (Dashboard.initial bob)
             (mkSwapRequest 0 alice bob normal pending 0)
             eq_refl Hwf Hfk (or_introl eq_refl)) in H.
    destruct H as [H _]. discriminate H.
Defined.

(** ** Calls issued, and what the page shows, whatever calls fail *)

Lemma request_trace (A : Type) (c : StoreCall) (run : Db -> Response A * Db)
    (db : Db) :
  (forall x, trace (snd (run x)) = trace x) ->
  trace (snd (request c run db)) = trace db ++ [c].
Proof.
  intros Hrun. rewrite request_eq.
  destruct (hd None (faults db)); [reflexivity|]. rewrite Hrun. reflexivity.
Qed.

Lemma insert_swap_request_trace (f t : UserId) (k : SwipeType) (s : Status)
    (db : Db) :
  trace (snd (insert_swap_request f t k s db)) = trace db.
Proof. unfold insert_swap_request. destruct (existsb _ _); reflexivity. Qed.

Lemma reconcile_trace (me : UserId) (p : Profile) (db : Db) (st : State) :
  exists rest,
    trace (fst (snd (reconcile me p db st))) =
    trace db ++ SelectPendingSingle (p_id p) me :: rest.
Proof.
  unfold reconcile.
  pose proof (request_trace _ (SelectPendingSingle (p_id p) me)
                (select_pending_single (p_id p) me) db (fun x => eq_refl)) as H2.
  destruct (request (SelectPendingSingle _ _) _ db) as [found db2].
  cbn [fst snd] in *.
  destruct (data found) as [m|]; cbn [fst snd].
  - rewrite request_trace by reflexivity. rewrite request_trace by reflexivity.
    rewrite H2, <- !app_assoc. eexists. reflexivity.
  - exists []. exact H2.
Qed.

Lemma submit_trace (me : UserId) (p : Profile) (d : Direction) (db : Db)
    (st : State) :
  exists rest,
    trace (fst (snd (submit me p d (db, st)))) =
    trace db ++ InsertSwapRequest me (p_id p) (kind_of d) pending :: rest.
Proof.
  rewrite submit_unfold.
  pose proof (request_trace _ (InsertSwapRequest me (p_id p) (kind_of d) pending)
                (insert_swap_request me (p_id p) (kind_of d) pending) db
                (insert_swap_request_trace _ _ _ _)) as H1.
  destruct (request (InsertSwapRequest _ _ _ _) _ db) as [res db1].
  cbn [fst snd] in *.
  assert (exists rest,
            trace (fst (snd (reconcile me p db1 st))) =
            trace db ++ InsertSwapRequest me (p_id p) (kind_of d) pending :: rest)
    as Hrec.
  { destruct (reconcile_trace me p db1 st) as [rest E]. rewrite E, H1.
    rewrite <- app_assoc. eexists. reflexivity. }
  destruct (error res) as [e|]; [|exact Hrec].
  destruct (negb _); [|exact Hrec].
  exists []. exact H1.
Qed.

Lemma request_error (A : Type) (c : StoreCall) (run : Db -> Response A * Db)
    (db : Db) (e : PostgrestError) :
  error (fst (request c run db)) = Some e ->
  hd None (faults db) = Some e
  \/ error (fst (run (pop (log c db)))) = Some e.
Proof.
  rewrite request_eq. destruct (hd None (faults db)) as [e'|]; auto.
Qed.

(** [submit] either completes, with or without the celebration, or throws
    the error of the insert, which then is not the duplicate-key error. *)
Lemma submit_outcome (me : UserId) (p : Profile) (d : Direction) (db : Db)
    (st : State) :
  (fst (submit me p d (db, st)) = Normal tt
   /\ (snd (snd (submit me p d (db, st))) = st
       \/ snd (snd (submit me p d (db, st))) = triggered p st))
  \/ (exists e, hd None (faults db) = Some e
                /\ code e <> "23505"
                /\ fst (submit me p d (db, st)) = Abrupt (ThrownError e)
                /\ snd (snd (submit me p d (db, st))) = st).
Proof.
  rewrite submit_unfold.
  pose proof (request_error _ (InsertSwapRequest me (p_id p) (kind_of d) pending)
                (insert_swap_request me (p_id p) (kind_of d) pending) db) as He.
  destruct (request (InsertSwapRequest _ _ _ _) _ db) as [res db1].
  cbn [fst snd] in *.
  assert (fst (reconcile me p db1 st) = Normal tt
          /\ (snd (snd (reconcile me p db1 st)) = st
              \/ snd (snd (reconcile me p db1 st)) = triggered p st)) as Hrec.
  { unfold reconcile.
    destruct (request (SelectPendingSingle _ _) _ db1) as [found db2].
    destruct (data found); cbn [fst snd]; auto. }
  destruct (error res) as [e|]; [|left; exact Hrec].
  destruct (String.eqb (code e) "23505") eqn:Ec; cbn [negb];
    [left; exact Hrec|].
  right. exists e. cbn [fst snd].
  destruct (He e eq_refl) as [Hf | Hi].
  - repeat split; try assumption. apply String.eqb_neq. assumption.
  - exfalso. unfold insert_swap_request in Hi.
    destruct (existsb _ _); cbn [fst error] in Hi; [|discriminate].
    injection Hi as <-. discriminate Ec.
Qed.

Lemma in_firstn (A : Type) (n : nat) (l : list A) (a : A) :
  In a (firstn n l) -> In a l.
Proof.
  intros H. rewrite <- (firstn_skipn n l). apply in_or_app. left. assumption.
Qed.

(** C7, as stated, fails.  [handleSwipe] compares no identifiers: when the
    card on top is the user's own (the session has become Bob's and the deck
    is still the one loaded for Alice), the swipe is not refused but goes to
    the store, insert first, and completes. *)
Lemma C7_self_signal_counterexample :
  user bob_on_alices_deck = bob
  /\ map p_id (profiles bob_on_alices_deck) = [bob]
  /\ completion (handleSwipe Right) db0 bob_on_alices_deck = Normal tt
  /\ trace (db_after (handleSwipe Right) db0 bob_on_alices_deck)
     = [InsertSwapRequest bob bob normal pending;
        SelectPendingSingle bob bob;
        UpdateStatusIn matched [0];
        InsertNotification (match_notification bob bob_profile)]
  /\ swap_requests (db_after (handleSwipe Right) db0 bob_on_alices_deck)
     = [mkSwapRequest 0 bob bob normal matched 0]
  /\ console (ui_after (handleSwipe Right) db0 bob_on_alices_deck) = [].
Proof. repeat split. Qed.

(** C7 (amended).  [handleSwipe] itself refuses nothing: whoever the user
    and the profile shown are, an interested swipe issues the insert as its
    first store call.  Self-targeting is kept out upstream: the deck that
    [fetchProfiles] loads never holds the user's own profile. *)
Theorem C7_deck_excludes_the_user (db : Db) (me : UserId) (p : Profile)
    (d : Direction) (db2 : Db) (st : State) (q : Profile) :
  In p (profiles (ui_after fetchProfiles db (initial me))) ->
  ready st q -> is_interest d = true ->
  p_id p <> me
  /\ exists rest,
       trace (db_after (handleSwipe d) db2 st) =
       trace db2 ++ InsertSwapRequest (user st) (p_id q) (kind_of d) pending
                 :: rest.
Proof.
  intros Hin Hr Hd. split.
  - revert Hin.
    unfold ui_after, after, fetchProfiles, try_finally, try_catch, bind,
      component, await, set_state, throw.
    cbn [fst snd]. rewrite request_eq.
    destruct (hd None (faults db)) as [e|]; cbn [fst snd error data].
    + intros [].
    + unfold select_users. cbn [fst snd error data profiles setLoading setProfiles
                                 initial].
      intros Hin. apply in_map_iff in Hin as (u & <- & Hu).
      apply in_firstn in Hu. apply filter_In in Hu as [_ Hu].
      apply andb_true_iff in Hu as [_ Hu]. apply negb_true_iff in Hu.
      apply String.eqb_neq in Hu. exact Hu.
  - unfold db_after, after. rewrite (handleSwipe_ready d db2 st q Hr), Hd.
    destruct (submit_trace (user st) q d db2 (begin_swipe d st)) as [rest E].
    exists rest.
    destruct (submit _ _ _ _) as [[[]|t] [db' st']]; exact E.
Qed.

(** C7 (amended) at the deck loaded for Alice and her swipe on Bob. *)
Lemma C7_deck_excludes_the_user_witness :
  p_id bob_profile <> alice
  /\ exists rest,
       trace (db_after (handleSwipe Right) (fst alice_page) (snd alice_page)) =
       trace (fst alice_page)
       ++ InsertSwapRequest alice bob normal pending :: rest.
Proof.
  exact (C7_deck_excludes_the_user db_bob_waits alice bob_profile Right
           (fst alice_page) (snd alice_page) bob_profile
           (or_introl eq_refl) (conj eq_refl eq_refl) eq_refl).
Defined.

(** C8, as stated, fails.  The store is unavailable for the reverse lookup
    of Alice's swipe on Bob, whose request is PENDING: nothing surfaces to
    the caller.  The handler completes, nothing is logged, the page says
    "Interested!", and Bob's request stays PENDING. *)
Lemma C8_lookup_failure_counterexample :
  let db := with_faults [None; Some unavailable] (fst alice_page) in
  completion (handleSwipe Right) db (snd alice_page) = Normal tt
  /\ console (ui_after (handleSwipe Right) db (snd alice_page)) = []
  /\ toasts (ui_after (handleSwipe Right) db (snd alice_page))
     = [ToastPlain "Interested!" "❤️"]
  /\ swap_requests (db_after (handleSwipe Right) db (snd alice_page))
     = [mkSwapRequest 0 bob alice normal pending 0;
        mkSwapRequest 1 alice bob normal pending 1]
  /\ notifications (db_after (handleSwipe Right) db (snd alice_page)) = [].
Proof. repeat split. Qed.

(** A failed insert, unless the failure is the duplicate key's, is thrown at
    once: no other call is made and the tables are as they were. *)
Lemma submit_throws (me : UserId) (p : Profile) (d : Direction) (db : Db)
    (st : State) (e : PostgrestError) :
  hd None (faults db) = Some e -> code e <> "23505" ->
  submit me p d (db, st) =
  (Abrupt (ThrownError e),
   (pop (log (InsertSwapRequest me (p_id p) (kind_of d) pending) db), st)).
Proof.
  intros Hf Hc. rewrite submit_unfold, request_eq, Hf. cbn [error].
  apply String.eqb_neq in Hc. rewrite Hc. reflexivity.
Qed.

Lemma handleSwipe_insert_fails (d : Direction) (db : Db) (st : State)
    (p : Profile) (e : PostgrestError) :
  ready st p -> is_interest d = true ->
  hd None (faults db) = Some e -> code e <> "23505" ->
  handleSwipe d (db, st) =
  (Normal tt,
   (pop (log (InsertSwapRequest (user st) (p_id p) (kind_of d) pending) db),
    end_swipe d (logged (ThrownError e) (begin_swipe d st)))).
Proof.
  intros Hr Hd Hf Hc. rewrite (handleSwipe_ready d db st p Hr), Hd.
  rewrite (submit_throws _ _ _ _ _ e Hf Hc). reflexivity.
Qed.

(** In every other case nothing is thrown and nothing is logged. *)
Lemma handleSwipe_logs_nothing (d : Direction) (db : Db) (st : State)
    (p : Profile) :
  ready st p ->
  (forall e, is_interest d = true -> hd None (faults db) = Some e ->
             code e = "23505") ->
  console (snd (snd (handleSwipe d (db, st)))) = console st.
Proof.
  intros Hr H. rewrite (handleSwipe_ready d db st p Hr).
  destruct (is_interest d); [|reflexivity].
  destruct (submit_outcome (user st) p d db (begin_swipe d st))
    as [[Hc [Hs | Hs]] | (e & Hf & Hcode & _)];
    [| |elim Hcode; apply H; [reflexivity | assumption]];
    destruct (submit _ _ _ _) as [c [db' st']]; cbn [fst snd] in *; subst;
    reflexivity.
Qed.

(** C8 (amended).  No store failure surfaces to the caller of [handleSwipe]:
    whatever calls fail, the handler completes normally, shows the toast of
    the direction last and moves on to the next profile.  When the insert of
    an interested swipe fails, and not with the duplicate key's code, the
    error is logged on the console, no further call is made and the tables
    are as they were.  In every other case nothing is logged: not the
    duplicate key, and no failure of the reverse lookup, of the update or of
    the notification insert. *)
Theorem C8_store_failures_never_surface (d : Direction) (db : Db) (st : State)
    (p : Profile) :
  ready st p ->
  completion (handleSwipe d) db st = Normal tt
  /\ currentIndex (ui_after (handleSwipe d) db st) = currentIndex st + 1
  /\ isAnimating (ui_after (handleSwipe d) db st) = false
  /\ (exists ts, toasts (ui_after (handleSwipe d) db st)
                 = toasts st ++ ts ++ [direction_toast d])
  /\ (forall e,
        is_interest d = true -> hd None (faults db) = Some e ->
        code e <> "23505" ->
        console (ui_after (handleSwipe d) db st)
        = console st ++ [("Error handling swipe:", ThrownError e)]
        /\ trace (db_after (handleSwipe d) db st)
           = trace db
             ++ [InsertSwapRequest (user st) (p_id p) (kind_of d) pending]
        /\ same_tables db (db_after (handleSwipe d) db st))
  /\ ((forall e, is_interest d = true -> hd None (faults db) = Some e ->
                 code e = "23505") ->
      console (ui_after (handleSwipe d) db st) = console st).
Proof.
  intros Hr. unfold completion, ui_after, db_after, after.
  assert (fst (handleSwipe d (db, st)) = Normal tt
          /\ currentIndex (snd (snd (handleSwipe d (db, st))))
             = currentIndex st + 1
          /\ isAnimating (snd (snd (handleSwipe d (db, st)))) = false
          /\ (exists ts, toasts (snd (snd (handleSwipe d (db, st))))
                         = toasts st ++ ts ++ [direction_toast d]))
    as (H1 & H2 & H3 & H4).
  { rewrite (handleSwipe_ready d db st p Hr).
    destruct (is_interest d).
    - destruct (submit_outcome (user st) p d db (begin_swipe d st))
        as [[Hc [Hs | Hs]] | (e & Hf & Hcode & Hc & Hs)];
        destruct (submit _ _ _ _) as [c [db' st']]; cbn [fst snd] in *; subst.
      + repeat split; try reflexivity. exists []. reflexivity.
      + repeat split; try reflexivity.
        eexists [_]. unfold end_swipe, triggered, begin_swipe.
        cbn [fst snd toasts setIsAnimating controls setCurrentIndex toast
             fire_confetti setDailySwipes].
        rewrite <- app_assoc. reflexivity.
      + repeat split; try reflexivity. exists []. reflexivity.
    - repeat split; try reflexivity. exists []. reflexivity. }
  split; [exact H1|]. split; [exact H2|]. split; [exact H3|].
  split; [exact H4|]. split.
  - intros e Hd Hf Hc.
    rewrite (handleSwipe_insert_fails d db st p e Hr Hd Hf Hc). cbn [fst snd].
    split; [reflexivity|]. split; [reflexivity|]. repeat split.
  - apply (handleSwipe_logs_nothing d db st p Hr).
Qed.

(** C8 (amended) at Alice's swipe on Bob: with the store down for the insert,
    and with the store down for the lookup and all that follows. *)
Lemma C8_store_failures_never_surface_witness :
  (completion (handleSwipe Right)
              (with_faults [Some unavailable] (fst alice_page)) (snd alice_page)
   = Normal tt
   /\ console (ui_after (handleSwipe Right)
                        (with_faults [Some unavailable] (fst alice_page))
                        (snd alice_page))
      = console (snd alice_page)
        ++ [("Error handling swipe:", ThrownError unavailable)]
   /\ trace (db_after (handleSwipe Right)
                      (with_faults [Some unavailable] (fst alice_page))
                      (snd alice_page))
      = trace (with_faults [Some unavailable] (fst alice_page))
        ++ [InsertSwapRequest (user (snd alice_page)) (p_id bob_profile)
                              (kind_of Right) pending])
  /\ console (ui_after (handleSwipe Right)
                       (with_faults [None; Some unavailable; Some unavailable]
                                    (fst alice_page))
                       (snd alice_page))
     = console (snd alice_page).
Proof.
  destruct (C8_store_failures_never_surface Right
              (with_faults [Some unavailable] (fst alice_page)) (snd alice_page)
              bob_profile (conj eq_refl eq_refl)) as (H1 & _ & _ & _ & H5 & _).
  destruct (C8_store_failures_never_surface Right
              (with_faults [None; Some unavailable; Some unavailable]
                           (fst alice_page))
              (snd alice_page) bob_profile (conj eq_refl eq_refl))
    as (_ & _ & _ & _ & _ & H6).
  destruct (H5 unavailable eq_refl eq_refl) as (Hc & Ht & _);
    [discriminate|].
  split; [split; [exact H1 | split; [exact Hc | exact Ht]]|].
  apply H6. intros e _ Hf. discriminate Hf.
Defined.

(** The calls and their outcomes do not depend on the page state that
    [submit] is given. *)
Lemma submit_db_independent (me : UserId) (p : Profile) (d : Direction)
    (db : Db) (st1 st2 : State) :
  fst (snd (submit me p d (db, st1))) = fst (snd (submit me p d (db, st2)))
  /\ fst (submit me p d (db, st1)) = fst (submit me p d (db, st2)).
Proof.
  rewrite !submit_unfold.
  destruct (request (InsertSwapRequest _ _ _ _) _ db) as [res db1].
  assert (fst (snd (reconcile me p db1 st1)) = fst (snd (reconcile me p db1 st2))
          /\ fst (reconcile me p db1 st1) = fst (reconcile me p db1 st2)) as Hrec.
  { unfold reconcile.
    destruct (request (SelectPendingSingle _ _) _ db1) as [found db2].
    destruct (data found); split; reflexivity. }
  destruct (error res) as [e|]; [|exact Hrec].
  destruct (negb _); [split; reflexivity | exact Hrec].
Qed.

(** The pair of an interested swipe is on file once its insert has run. *)
Lemma inserted_pair (me : UserId) (p : Profile) (d : Direction) (db : Db) :
  In (me, p_id p) (map pair_of (swap_requests (inserted me p d db)))
  /\ (~ In (me, p_id p) (map pair_of (swap_requests db)) ->
      In (new_row me p d db) (swap_requests (inserted me p d db))).
Proof.
  rewrite inserted_rows.
  destruct (existsb (same_pair me (p_id p)) (swap_requests db)) eqn:E.
  - split.
    + apply existsb_exists in E as (r & Hin & Hr).
      apply same_pair_true in Hr. rewrite <- Hr. apply in_map. assumption.
    + intros H. apply existsb_same_pair_false in H. congruence.
  - split.
    + rewrite map_app. apply in_or_app. right. left. reflexivity.
    + intros _. apply in_or_app. right. left. reflexivity.
Qed.

(** C10.  The counter of daily swipes gates nothing: a swipe takes it down by
    one, not below zero, and what the swipe does to the store is the same
    whatever the counter shows, zero included; an interested swipe issues
    the insert as its first call.  With the counter at zero and the store
    available, the signal of an interested swipe is on file afterwards (as
    a new PENDING record when the pair was not on file), the reverse lookup
    runs, and when it finds the PENDING reverse record that record is set to
    MATCHED and the notification is inserted. *)
Theorem C10_counter_never_gates (d : Direction) (db : Db) (st : State)
    (p : Profile) (n : Z) :
  ready st p ->
  dailySwipes (ui_after (handleSwipe d) db st) = Z.max 0 (dailySwipes st - 1)
  /\ db_after (handleSwipe d) db (setDailySwipes (fun _ => n) st)
     = db_after (handleSwipe d) db st
  /\ (is_interest d = true ->
      exists rest,
        trace (db_after (handleSwipe d) db (setDailySwipes (fun _ => 0%Z) st)) =
        trace db ++ InsertSwapRequest (user st) (p_id p) (kind_of d) pending
                 :: rest)
  /\ (is_interest d = true -> reliable db -> wf_db db -> user st <> p_id p ->
      In (user st, p_id p)
         (map pair_of
              (swap_requests (db_after (handleSwipe d) db (out_of_swipes st))))
      /\ (~ In (user st, p_id p) (map pair_of (swap_requests db)) ->
          In (mkSwapRequest (next_id db) (user st) (p_id p) (kind_of d)
                            pending (now db))
             (swap_requests (db_after (handleSwipe d) db (out_of_swipes st))))
      /\ (forall R,
            In R (swap_requests db) -> pair_of R = (p_id p, user st) ->
            status R = pending ->
            In (set_status matched R)
               (swap_requests (db_after (handleSwipe d) db (out_of_swipes st)))
            /\ notifications (db_after (handleSwipe d) db (out_of_swipes st))
               = notifications db ++ [match_notification (user st) p]
            /\ trace (db_after (handleSwipe d) db (out_of_swipes st))
               = trace db
                 ++ [InsertSwapRequest (user st) (p_id p) (kind_of d) pending;
                     SelectPendingSingle (p_id p) (user st);
                     UpdateStatusIn matched [sr_id R];
                     InsertNotification (match_notification (user st) p)])
      /\ ((forall r, In r (swap_requests db) ->
                     pair_of r = (p_id p, user st) -> status r <> pending) ->
          notifications (db_after (handleSwipe d) db (out_of_swipes st))
          = notifications db
          /\ trace (db_after (handleSwipe d) db (out_of_swipes st))
             = trace db
               ++ [InsertSwapRequest (user st) (p_id p) (kind_of d) pending;
                   SelectPendingSingle (p_id p) (user st)])).
Proof.
  intros Hr.
  assert (forall m, ready (setDailySwipes (fun _ => m) st) p) as Hr'
    by (intros m; exact Hr).
  split; [|split; [|split]].
  - unfold ui_after, after. rewrite (handleSwipe_ready d db st p Hr).
    destruct (is_interest d); [|reflexivity].
    destruct (submit_outcome (user st) p d db (begin_swipe d st))
      as [[Hc [Hs | Hs]] | (e & Hf & Hcode & Hc & Hs)];
      destruct (submit _ _ _ _) as [c [db' st']]; cbn [fst snd] in *; subst;
      reflexivity.
  - unfold db_after, after. rewrite (handleSwipe_ready d db st p Hr).
    rewrite (handleSwipe_ready d db _ p (Hr' n)). cbn [user setDailySwipes].
    destruct (is_interest d); [|reflexivity].
    pose proof (submit_db_independent (user st) p d db
                  (begin_swipe d (setDailySwipes (fun _ => n) st))
                  (begin_swipe d st)) as [Hdb Hc].
    destruct (submit (user st) p d (db, begin_swipe d (setDailySwipes _ st)))
      as [c1 [db1 st1]].
    destruct (submit (user st) p d (db, begin_swipe d st)) as [c2 [db2 st2]].
    cbn [fst snd] in *. subst. destruct c2 as [[]|t]; reflexivity.
  - intros Hd. unfold db_after, after.
    rewrite (handleSwipe_ready d db _ p (Hr' 0%Z)), Hd.
    cbn [user setDailySwipes].
    destruct (submit_trace (user st) p d db
                (begin_swipe d (setDailySwipes (fun _ => 0%Z) st)))
      as [rest E].
    exists rest. destruct (submit _ _ _ _) as [[[]|t] [db' st']]; exact E.
  - intros Hd Hrel Hwf Hne.
    pose proof (Hr' 0%Z) as Hr0. fold (out_of_swipes st) in Hr0.
    assert (user (out_of_swipes st) = user st) as Hu by reflexivity.
    destruct (inserted_pair (user st) p d db) as [Hpair Hnew].
    assert (forall R,
              In R (swap_requests db) -> pair_of R = (p_id p, user st) ->
              status R = pending ->
              handleSwipe d (db, out_of_swipes st) =
              (Normal tt,
               (committed (user st) p R (inserted (user st) p d db),
                end_swipe d (triggered p (begin_swipe d (out_of_swipes st))))))
      as Hcommit.
    { intros R Hin Hp Hs.
      rewrite (swipe_commit d db (out_of_swipes st) p R); rewrite ?Hu; auto. }
    assert ((forall r, In r (swap_requests db) ->
                       pair_of r = (p_id p, user st) -> status r <> pending) ->
            handleSwipe d (db, out_of_swipes st) =
            (Normal tt,
             (log (SelectPendingSingle (p_id p) (user st))
                  (inserted (user st) p d db),
              end_swipe d (begin_swipe d (out_of_swipes st)))))
      as Hnone.
    { intros H.
      rewrite (swipe_no_commit d db (out_of_swipes st) p); rewrite ?Hu; auto. }
    unfold db_after, after. split; [|split; [|split]].
    + destruct (reverse_cases (p_id p) (user st) db Hwf)
        as [(R & Hin & Hp & Hs) | H].
      * rewrite (Hcommit R Hin Hp Hs). cbn [fst snd].
        rewrite committed_rows, update_rows_pairs. exact Hpair.
      * rewrite (Hnone H). exact Hpair.
    + intros Hfresh. specialize (Hnew Hfresh).
      destruct (reverse_cases (p_id p) (user st) db Hwf)
        as [(R & Hin & Hp & Hs) | H].
      * rewrite (Hcommit R Hin Hp Hs). cbn [fst snd].
        rewrite committed_rows. apply update_rows_keeps; [exact Hnew|].
        unfold id_eq. cbn [sr_id]. apply Nat.eqb_neq.
        pose proof (ids_fresh db Hwf R Hin). lia.
      * rewrite (Hnone H). exact Hnew.
    + intros R Hin Hp Hs. rewrite (Hcommit R Hin Hp Hs). cbn [fst snd].
      split; [|split].
      * rewrite committed_rows. apply update_rows_sets.
        -- rewrite inserted_rows.
           destruct (existsb _ _);
             [assumption | apply in_or_app; left; assumption].
        -- apply Nat.eqb_refl.
      * unfold committed. cbn [notifications].
        rewrite inserted_notifications. reflexivity.
      * unfold committed. cbn [trace]. rewrite inserted_trace, <- app_assoc.
        reflexivity.
    + intros H. rewrite (Hnone H). cbn [fst snd]. split.
      * apply inserted_notifications.
      * cbn [log trace]. rewrite inserted_trace, <- app_assoc. reflexivity.
Qed.

(** Alice has used up her swipes, and swipes right on Bob all the same: the
    counter stays at zero, Bob's request is MATCHED and Alice is notified. *)
Lemma C10_counter_never_gates_witness :
  dailySwipes (ui_after (handleSwipe Right) (fst alice_page)
                        alice_out_of_swipes)
  = Z.max 0 (dailySwipes alice_out_of_swipes - 1)
  /\ In (set_status matched bob_request)
        (swap_requests (db_after (handleSwipe Right) (fst alice_page)
                                 (out_of_swipes alice_out_of_swipes)))
  /\ notifications (db_after (handleSwipe Right) (fst alice_page)
                             (out_of_swipes alice_out_of_swipes))
     = notifications (fst alice_page)
       ++ [match_notification (user alice_out_of_swipes) bob_profile].
Proof.
  assert (wf_db (fst alice_page)) as Hwf by concrete_wf.
  destruct (C10_counter_never_gates Right (fst alice_page) alice_out_of_swipes
              bob_profile 7%Z (conj eq_refl eq_refl)) as (H1 & _ & _ & H4).
  destruct (H4 eq_refl eq_refl Hwf) as (_ & _ & H & _); [discriminate|].
  destruct (H bob_request (or_introl eq_refl) eq_refl eq_refl) as (Ha & Hb & _).
  split; [exact H1|]. split; [exact Ha | exact Hb].
Defined.

(** ** The kind of a signal *)

Lemma forget_kinds_eq (a b : Db) :
  forget_kinds a = forget_kinds b <->
  users a = users b
  /\ map forget_kind (swap_requests a) = map forget_kind (swap_requests b)
  /\ notifications a = notifications b
  /\ next_id a = next_id b
  /\ now a = now b
  /\ faults a = faults b
  /\ map forget_kind_call (trace a) = map forget_kind_call (trace b).
Proof.
  unfold forget_kinds. split.
  - intros [= H1 H2 H3 H4 H5 H6 H7]. repeat split; assumption.
  - intros (H1 & H2 & H3 & H4 & H5 & H6 & H7). congruence.
Qed.

Lemma existsb_forget_kind (q : SwapRequest -> bool) (rows : list SwapRequest) :
  (forall r, q (forget_kind r) = q r) ->
  existsb q (map forget_kind rows) = existsb q rows.
Proof.
  intros Hq. induction rows as [|r l IH]; simpl; [reflexivity|].
  rewrite Hq, IH. reflexivity.
Qed.

Lemma filter_forget_kind (q : SwapRequest -> bool) (rows : list SwapRequest) :
  (forall r, q (forget_kind r) = q r) ->
  filter q (map forget_kind rows) = map forget_kind (filter q rows).
Proof.
  intros Hq. induction rows as [|r l IH]; simpl; [reflexivity|].
  rewrite Hq, IH. destruct (q r); reflexivity.
Qed.

Lemma update_rows_forget_kind (s : Status) (sel : SwapRequest -> bool)
    (rows : list SwapRequest) :
  (forall r, sel (forget_kind r) = sel r) ->
  update_rows s sel (map forget_kind rows)
  = map forget_kind (update_rows s sel rows).
Proof.
  intros Hsel. unfold update_rows. rewrite !map_map. apply map_ext.
  intros r. rewrite Hsel. destruct (sel r); reflexivity.
Qed.

Lemma single_map (A B : Type) (g : A -> B) (l : list A) :
  data (single (map g l)) = option_map g (data (single l)).
Proof. destruct l as [|a [|b l]]; reflexivity. Qed.

Lemma pop_log_sim (c1 c2 : StoreCall) (a b : Db) :
  forget_kind_call c1 = forget_kind_call c2 ->
  forget_kinds a = forget_kinds b ->
  forget_kinds (pop (log c1 a)) = forget_kinds (pop (log c2 b)).
Proof.
  intros Hc H. apply forget_kinds_eq in H as (H1 & H2 & H3 & H4 & H5 & H6 & H7).
  apply forget_kinds_eq. cbn. rewrite !map_app, H7, H6. cbn. rewrite Hc.
  repeat split; assumption.
Qed.

Lemma insert_sim (f t : UserId) (k1 k2 : SwipeType) (s : Status) (a b : Db) :
  forget_kinds a = forget_kinds b ->
  error (fst (request (InsertSwapRequest f t k1 s)
                      (insert_swap_request f t k1 s) a))
  = error (fst (request (InsertSwapRequest f t k2 s)
                        (insert_swap_request f t k2 s) b))
  /\ forget_kinds (snd (request (InsertSwapRequest f t k1 s)
                               (insert_swap_request f t k1 s) a))
     = forget_kinds (snd (request (InsertSwapRequest f t k2 s)
                                  (insert_swap_request f t k2 s) b)).
Proof.
  intros H.
  pose proof (pop_log_sim (InsertSwapRequest f t k1 s) (InsertSwapRequest f t k2 s)
                a b eq_refl H) as H'.
  rewrite !request_eq.
  replace (faults b) with (faults a) by (apply forget_kinds_eq in H; apply H).
  destruct (hd None (faults a)) as [e|]; [split; [reflexivity | exact H']|].
  set (a' := pop (log _ a)) in *. set (b' := pop (log _ b)) in *.
  clearbody a' b'.
  apply forget_kinds_eq in H' as (H1 & H2 & H3 & H4 & H5 & H6 & H7).
  unfold insert_swap_request.
  assert (existsb (same_pair f t) (swap_requests a')
          = existsb (same_pair f t) (swap_requests b')) as ->.
  { rewrite <- (existsb_forget_kind (same_pair f t) (swap_requests a')),
            <- (existsb_forget_kind (same_pair f t) (swap_requests b'))
      by reflexivity.
    rewrite H2. reflexivity. }
  destruct (existsb _ _); cbn [fst snd error].
  - split; [reflexivity|]. apply forget_kinds_eq. repeat split; assumption.
  - split; [reflexivity|]. apply forget_kinds_eq. cbn.
    rewrite !map_app, H2, H4, H5. cbn. repeat split; congruence.
Qed.

Lemma select_sim (f t : UserId) (a b : Db) :
  forget_kinds a = forget_kinds b ->
  option_map forget_kind
    (data (fst (request (SelectPendingSingle f t) (select_pending_single f t) a)))
  = option_map forget_kind
      (data (fst (request (SelectPendingSingle f t) (select_pending_single f t) b)))
  /\ forget_kinds (snd (request (SelectPendingSingle f t)
                               (select_pending_single f t) a))
     = forget_kinds (snd (request (SelectPendingSingle f t)
                                  (select_pending_single f t) b)).
Proof.
  intros H.
  pose proof (pop_log_sim (SelectPendingSingle f t) (SelectPendingSingle f t)
                a b eq_refl H) as H'.
  rewrite !request_eq.
  replace (faults b) with (faults a) by (apply forget_kinds_eq in H; apply H).
  destruct (hd None (faults a)) as [e|]; [split; [reflexivity | exact H']|].
  unfold select_pending_single. cbn [fst snd]. split; [|exact H'].
  rewrite <- !single_map, <- !filter_forget_kind by reflexivity.
  apply forget_kinds_eq in H' as (_ & H2 & _). rewrite H2. reflexivity.
Qed.

Lemma update_sim (s : Status) (ids : list RequestId) (a b : Db) :
  forget_kinds a = forget_kinds b ->
  forget_kinds (snd (request (UpdateStatusIn s ids) (update_status_in s ids) a))
  = forget_kinds (snd (request (UpdateStatusIn s ids) (update_status_in s ids) b)).
Proof.
  intros H.
  pose proof (pop_log_sim (UpdateStatusIn s ids) (UpdateStatusIn s ids)
                a b eq_refl H) as H'.
  rewrite !request_eq.
  replace (faults b) with (faults a) by (apply forget_kinds_eq in H; apply H).
  destruct (hd None (faults a)) as [e|]; [exact H'|].
  set (a' := pop (log _ a)) in *. set (b' := pop (log _ b)) in *.
  clearbody a' b'.
  apply forget_kinds_eq in H' as (H1 & H2 & H3 & H4 & H5 & H6 & H7).
  apply forget_kinds_eq. cbn.
  rewrite <- !update_rows_forget_kind by reflexivity. rewrite H2.
  repeat split; assumption.
Qed.

Lemma notify_sim (n : Notification) (a b : Db) :
  forget_kinds a = forget_kinds b ->
  forget_kinds (snd (request (InsertNotification n) (insert_notification n) a))
  = forget_kinds (snd (request (InsertNotification n) (insert_notification n) b)).
Proof.
  intros H.
  pose proof (pop_log_sim (InsertNotification n) (InsertNotification n)
                a b eq_refl H) as H'.
  rewrite !request_eq.
  replace (faults b) with (faults a) by (apply forget_kinds_eq in H; apply H).
  destruct (hd None (faults a)) as [e|]; [exact H'|].
  set (a' := pop (log _ a)) in *. set (b' := pop (log _ b)) in *.
  clearbody a' b'.
  apply forget_kinds_eq in H' as (H1 & H2 & H3 & H4 & H5 & H6 & H7).
  apply forget_kinds_eq. cbn. rewrite H3. repeat split; assumption.
Qed.

Lemma reconcile_sim (me : UserId) (p : Profile) (a b : Db) (st1 st2 : State) :
  forget_kinds a = forget_kinds b ->
  forget_kinds (fst (snd (reconcile me p a st1)))
  = forget_kinds (fst (snd (reconcile me p b st2)))
  /\ fst (reconcile me p a st1) = fst (reconcile me p b st2)
  /\ ((snd (snd (reconcile me p a st1)) = st1
       /\ snd (snd (reconcile me p b st2)) = st2)
      \/ (snd (snd (reconcile me p a st1)) = triggered p st1
          /\ snd (snd (reconcile me p b st2)) = triggered p st2)).
Proof.
  intros H. unfold reconcile.
  destruct (select_sim (p_id p) me a b H) as [Hd H2].
  destruct (request (SelectPendingSingle _ _) _ a) as [found1 a2].
  destruct (request (SelectPendingSingle _ _) _ b) as [found2 b2].
  cbn [fst snd] in *.
  destruct (data found1) as [m1|], (data found2) as [m2|];
    cbn [option_map] in Hd; try discriminate; cbn [fst snd].
  - assert (sr_id m1 = sr_id m2) as Hm by (injection Hd; auto).
    rewrite Hm. split; [|split; [reflexivity | right; split; reflexivity]].
    apply notify_sim, update_sim. exact H2.
  - split; [exact H2|]. split; [reflexivity | left; split; reflexivity].
Qed.

Lemma submit_sim (me : UserId) (p : Profile) (d1 d2 : Direction) (a b : Db)
    (st1 st2 : State) :
  forget_kinds a = forget_kinds b ->
  forget_kinds (fst (snd (submit me p d1 (a, st1))))
  = forget_kinds (fst (snd (submit me p d2 (b, st2))))
  /\ fst (submit me p d1 (a, st1)) = fst (submit me p d2 (b, st2))
  /\ ((snd (snd (submit me p d1 (a, st1))) = st1
       /\ snd (snd (submit me p d2 (b, st2))) = st2)
      \/ (snd (snd (submit me p d1 (a, st1))) = triggered p st1
          /\ snd (snd (submit me p d2 (b, st2))) = triggered p st2)).
Proof.
  intros H. rewrite !submit_unfold.
  destruct (insert_sim me (p_id p) (kind_of d1) (kind_of d2) pending a b H)
    as [He H1].
  destruct (request (InsertSwapRequest _ _ (kind_of d1) _) _ a) as [res1 a1].
  destruct (request (InsertSwapRequest _ _ (kind_of d2) _) _ b) as [res2 b1].
  cbn [fst snd] in *. rewrite He.
  pose proof (reconcile_sim me p a1 b1 st1 st2 H1) as Hrec.
  destruct (error res2) as [e|]; [|exact Hrec].
  destruct (negb _); [|exact Hrec].
  cbn [fst snd]. split; [exact H1|]. split; [reflexivity|].
  left. split; reflexivity.
Qed.

(** C9.  The kind of a signal decides nothing in the matching: two
    interested swipes, of any kinds, on databases that agree up to the kinds
    on file, leave databases that agree up to the kinds on file (the same
    records with the same statuses, the same notifications, the same calls
    with the same outcomes), celebrate the same matches and log the same
    errors.  What the kind changes on the page is the wording of the closing
    toast. *)
Theorem C9_kind_does_not_affect_matching (d1 d2 : Direction) (db1 db2 : Db)
    (st : State) :
  is_interest d1 = true -> is_interest d2 = true ->
  forget_kinds db1 = forget_kinds db2 ->
  forget_kinds (db_after (handleSwipe d1) db1 st)
  = forget_kinds (db_after (handleSwipe d2) db2 st)
  /\ map status (swap_requests (db_after (handleSwipe d1) db1 st))
     = map status (swap_requests (db_after (handleSwipe d2) db2 st))
  /\ notifications (db_after (handleSwipe d1) db1 st)
     = notifications (db_after (handleSwipe d2) db2 st)
  /\ confetti (ui_after (handleSwipe d1) db1 st)
     = confetti (ui_after (handleSwipe d2) db2 st)
  /\ console (ui_after (handleSwipe d1) db1 st)
     = console (ui_after (handleSwipe d2) db2 st)
  /\ removelast (toasts (ui_after (handleSwipe d1) db1 st))
     = removelast (toasts (ui_after (handleSwipe d2) db2 st)).
Proof.
  intros Hd1 Hd2 H.
  assert (forall x y : Db,
            forget_kinds x = forget_kinds y ->
            map status (swap_requests x) = map status (swap_requests y)
            /\ notifications x = notifications y) as Hproj.
  { intros x y E. apply forget_kinds_eq in E as (_ & E2 & E3 & _).
    split; [|exact E3].
    apply (f_equal (map status)) in E2. rewrite !map_map in E2. exact E2. }
  assert (forget_kinds (db_after (handleSwipe d1) db1 st)
          = forget_kinds (db_after (handleSwipe d2) db2 st)
          /\ confetti (ui_after (handleSwipe d1) db1 st)
             = confetti (ui_after (handleSwipe d2) db2 st)
          /\ console (ui_after (handleSwipe d1) db1 st)
             = console (ui_after (handleSwipe d2) db2 st)
          /\ removelast (toasts (ui_after (handleSwipe d1) db1 st))
             = removelast (toasts (ui_after (handleSwipe d2) db2 st))) as Hmain.
  { unfold db_after, ui_after, after.
    destruct (guard_cases st) as [Hg | [p Hr]].
    - rewrite !handleSwipe_not_ready by assumption. cbn [fst snd]. auto.
    - rewrite (handleSwipe_ready d1 db1 st p Hr), (handleSwipe_ready d2 db2 st p Hr).
      rewrite Hd1, Hd2.
      destruct (submit_sim (user st) p d1 d2 db1 db2 (begin_swipe d1 st)
                  (begin_swipe d2 st) H) as (Hdb & Hc & Hst).
      destruct (submit (user st) p d1 _) as [c1 [a' st1']].
      destruct (submit (user st) p d2 _) as [c2 [b' st2']].
      cbn [fst snd] in *. subst c2.
      split; [destruct c1 as [[]|t]; exact Hdb|].
      destruct Hst as [[-> ->] | [-> ->]]; destruct c1 as [[]|t];
        unfold end_swipe, logged, triggered, begin_swipe;
        cbn [fst snd toasts confetti console setIsAnimating controls
             setCurrentIndex toast fire_confetti setDailySwipes console_error];
        rewrite ?removelast_last; auto. }
  destruct Hmain as (Hdb & Hrest). destruct (Hproj _ _ Hdb) as [Hs Hn].
  split; [exact Hdb|]. split; [exact Hs|]. split; [exact Hn|]. exact Hrest.
Qed.

(** A normal and a super swipe of Alice on Bob, from the same database. *)
Lemma C9_kind_does_not_affect_matching_witness :
  map status (swap_requests (db_after (handleSwipe Right) (fst alice_page)
                                      (snd alice_page)))
  = map status (swap_requests (db_after (handleSwipe Up) (fst alice_page)
                                        (snd alice_page)))
  /\ notifications (db_after (handleSwipe Right) (fst alice_page) (snd alice_page))
     = notifications (db_after (handleSwipe Up) (fst alice_page) (snd alice_page)).
Proof.
  destruct (C9_kind_does_not_affect_matching Right Up (fst alice_page)
              (fst alice_page) (snd alice_page) eq_refl eq_refl eq_refl)
    as (_ & H1 & H2 & _).
  split; [exact H1 | exact H2].
Defined.

(** ** Beyond the claims: the deck *)

Lemma handleSwipe_normal (d : Direction) (db : Db) (st : State) :
  fst (handleSwipe d (db, st)) = Normal tt.
Proof.
  destruct (guard_cases st) as [Hg | [p Hr]].
  - rewrite handleSwipe_not_ready by assumption. reflexivity.
  - rewrite (handleSwipe_ready d db st p Hr).
    destruct (is_interest d); [|reflexivity].
    destruct (submit _ _ _ _) as [[[]|t] [db' st']]; reflexivity.
Qed.

(** What a swipe that runs leaves of the page, whatever calls fail. *)
Lemma handleSwipe_page (d : Direction) (db : Db) (st : State) (p : Profile) :
  ready st p ->
  profiles (ui_after (handleSwipe d) db st) = profiles st
  /\ currentIndex (ui_after (handleSwipe d) db st) = currentIndex st + 1
  /\ isAnimating (ui_after (handleSwipe d) db st) = false
  /\ dailySwipes (ui_after (handleSwipe d) db st)
     = Z.max 0 (dailySwipes st - 1)
  /\ user (ui_after (handleSwipe d) db st) = user st
  /\ loading (ui_after (handleSwipe d) db st) = loading st
  /\ card (ui_after (handleSwipe d) db st) = mkPose 0 0 0 1.
Proof.
  intros Hr. unfold ui_after, after. rewrite (handleSwipe_ready d db st p Hr).
  destruct (is_interest d).
  - destruct (submit_outcome (user st) p d db (begin_swipe d st))
      as [[Hc [Hs | Hs]] | (e & Hf & Hcode & Hc & Hs)];
      destruct (submit _ _ _ _) as [c [db' st']]; cbn [fst snd] in *; subst;
      repeat split; reflexivity.
  - repeat split; reflexivity.
Qed.



Lemma swipes_cons (d : Direction) (ds : list Direction) (db : Db) (st : State) :
  swipes (d :: ds) (db, st) = swipes ds (after (handleSwipe d) db st).
Proof.
  unfold after. cbn [swipes]. unfold bind.
  pose proof (handleSwipe_normal d db st) as H.
  destruct (handleSwipe d (db, st)) as [c s']. cbn [fst snd] in *. subst c.
  reflexivity.
Qed.

(** The page after a run of swipes from a page that is not animating.  A
    swipe runs while there is a card on top: from index [i] on a deck of [n]
    cards, [n - i] swipes can run (none when [i] is at or past the end). *)
Lemma swipes_page (ds : list Direction) (db : Db) (st : State) :
  isAnimating st = false ->
  completion (swipes ds) db st = Normal tt
  /\ currentIndex (ui_after (swipes ds) db st)
     = Nat.max (currentIndex st)
               (Nat.min (List.length (profiles st))
                        (currentIndex st + List.length ds))
  /\ dailySwipes (ui_after (swipes ds) db st)
     = match Nat.min (List.length ds)
                     (List.length (profiles st) - currentIndex st) with
       | 0 => dailySwipes st
       | S k => Z.max 0 (dailySwipes st - Z.of_nat (S k))
       end
  /\ profiles (ui_after (swipes ds) db st) = profiles st
  /\ isAnimating (ui_after (swipes ds) db st) = false.
Proof.
  revert db st. induction ds as [|d ds IH]; intros db st Ha.
  - unfold completion, ui_after, after. cbn [swipes List.length]. unfold ret.
    cbn [fst snd Nat.min]. repeat split; try reflexivity; try assumption. lia.
  - unfold completion, ui_after, after in *. rewrite swipes_cons.
    destruct (guard_cases st) as [Hg | [p Hr]].
    + assert (List.length (profiles st) <= currentIndex st) as He.
      { rewrite Ha in Hg. cbn [orb] in Hg. apply Nat.leb_le in Hg. exact Hg. }
      unfold after. rewrite handleSwipe_not_ready by assumption. cbn [fst snd].
      destruct (IH db st Ha) as (H1 & H2 & H3 & H4 & H5).
      rewrite H1, H2, H3, H4, H5. cbn [List.length].
      replace (List.length (profiles st) - currentIndex st) with 0 by lia.
      rewrite !Nat.min_0_r. repeat split; try reflexivity. lia.
    + destruct (handleSwipe_page d db st p Hr) as (P1 & P2 & P3 & P4 & P5 & _).
      assert (currentIndex st < List.length (profiles st)) as Hlt
        by (apply nth_error_Some; destruct Hr as [_ Hr]; congruence).
      unfold ui_after, after in *.
      destruct (handleSwipe d (db, st)) as [c [db1 st1]]. cbn [fst snd] in *.
      destruct (IH db1 st1 P3) as (H1 & H2 & H3 & H4 & H5).
      rewrite H1, H2, H3, H4, H5, P1, P2, P4. cbn [List.length].
      replace (List.length (profiles st) - currentIndex st)
        with (S (List.length (profiles st) - (currentIndex st + 1))) by lia.
      cbn [Nat.min].
      repeat split; try reflexivity; [lia|].
      destruct (Nat.min (List.length ds)
                        (List.length (profiles st) - (currentIndex st + 1)));
        lia.
Qed.

(** X2.  Swipes walk the deck and stop at its end: after any run of swipes
    from a page that is not animating, whatever calls failed on the way, the
    run has completed and the deck is the same; as many swipes have run as
    there were cards left (none when the index is at or past the end of the
    deck, as after a reload that kept the index): the index has advanced by
    that number, and the counter shown has gone down by that number, but not
    below zero. *)
Theorem X2_swipes_walk_the_deck (ds : list Direction) (db : Db) (st : State) :
  isAnimating st = false ->
  completion (swipes ds) db st = Normal tt
  /\ currentIndex (ui_after (swipes ds) db st)
     = currentIndex st
       + Nat.min (List.length ds) (List.length (profiles st) - currentIndex st)
  /\ dailySwipes (ui_after (swipes ds) db st)
     = match Nat.min (List.length ds)
                     (List.length (profiles st) - currentIndex st) with
       | 0 => dailySwipes st
       | S k => Z.max 0 (dailySwipes st - Z.of_nat (S k))
       end
  /\ profiles (ui_after (swipes ds) db st) = profiles st
  /\ isAnimating (ui_after (swipes ds) db st) = false.
Proof.
  intros Ha. destruct (swipes_page ds db st Ha) as (H1 & H2 & H3 & H4 & H5).
  repeat split; try assumption. rewrite H2. lia.
Qed.

(** X2 at Alice's deck of one: three swipes, the first one runs; and at the
    same deck with the index left at 3: no swipe runs. *)
Lemma X2_swipes_walk_the_deck_witness :
  (currentIndex (ui_after (swipes [Left; Right; Up]) (fst alice_page)
                          (snd alice_page)) = 1
   /\ dailySwipes (ui_after (swipes [Left; Right; Up]) (fst alice_page)
                            (snd alice_page)) = 14%Z)
  /\ currentIndex (ui_after (swipes [Left; Right; Up]) (fst alice_page)
                            (setCurrentIndex (fun _ => 3) (snd alice_page))) = 3.
Proof.
  destruct (X2_swipes_walk_the_deck [Left; Right; Up] (fst alice_page)
              (snd alice_page) eq_refl) as (_ & H1 & H2 & _).
  destruct (X2_swipes_walk_the_deck [Left; Right; Up] (fst alice_page)
              (setCurrentIndex (fun _ => 3) (snd alice_page)) eq_refl)
    as (_ & H3 & _).
  split; [split; [exact H1 | exact H2] | exact H3].
Defined.


(** ** Beyond the claims: what a swipe does to the tables *)

Lemma insert_swap_request_result (f t : UserId) (k : SwipeType) (s : Status)
    (x : Db) :
  (swap_requests (snd (insert_swap_request f t k s x)) = swap_requests x
   \/ swap_requests (snd (insert_swap_request f t k s x))
      = swap_requests x ++ [mkSwapRequest (next_id x) f t k s (now x)])
  /\ notifications (snd (insert_swap_request f t k s x)) = notifications x
  /\ users (snd (insert_swap_request f t k s x)) = users x
  /\ faults (snd (insert_swap_request f t k s x)) = faults x
  /\ (error (fst (insert_swap_request f t k s x)) = None
      \/ error (fst (insert_swap_request f t k s x)) = Some duplicate_key).
Proof.
  unfold insert_swap_request. destruct (existsb _ _); cbn; auto 10.
Qed.

Lemma request_insert_result (f t : UserId) (k : SwipeType) (s : Status)
    (db : Db) :
  (swap_requests (snd (request (InsertSwapRequest f t k s)
                               (insert_swap_request f t k s) db))
   = swap_requests db
   \/ swap_requests (snd (request (InsertSwapRequest f t k s)
                                  (insert_swap_request f t k s) db))
      = swap_requests db ++ [mkSwapRequest (next_id db) f t k s (now db)])
  /\ notifications (snd (request (InsertSwapRequest f t k s)
                                 (insert_swap_request f t k s) db))
     = notifications db
  /\ users (snd (request (InsertSwapRequest f t k s)
                         (insert_swap_request f t k s) db)) = users db.
Proof.
  rewrite request_eq. destruct (hd None (faults db)); [cbn; auto|].
  destruct (insert_swap_request_result f t k s
              (pop (log (InsertSwapRequest f t k s) db)))
    as (H1 & H2 & H3 & _).
  auto.
Qed.

Lemma request_frame (A : Type) (c : StoreCall) (run : Db -> Response A * Db)
    (db : Db) :
  (forall x, notifications (snd (run x)) = notifications x) ->
  (forall x, users (snd (run x)) = users x) ->
  notifications (snd (request c run db)) = notifications db
  /\ users (snd (request c run db)) = users db.
Proof.
  intros Hn Hu. rewrite request_eq.
  destruct (hd None (faults db)); [split; reflexivity|].
  rewrite Hn, Hu. split; reflexivity.
Qed.

Lemma reconcile_notifications (me : UserId) (p : Profile) (db : Db) (st : State) :
  (notifications (fst (snd (reconcile me p db st))) = notifications db
   \/ notifications (fst (snd (reconcile me p db st)))
      = notifications db ++ [match_notification me p])
  /\ users (fst (snd (reconcile me p db st))) = users db.
Proof.
  unfold reconcile.
  destruct (request_frame _ (SelectPendingSingle (p_id p) me)
              (select_pending_single (p_id p) me) db
              (fun x => eq_refl) (fun x => eq_refl)) as [N2 U2].
  destruct (request (SelectPendingSingle _ _) _ db) as [found db2].
  cbn [fst snd] in *.
  destruct (data found) as [m|]; cbn [fst snd]; [|auto].
  destruct (request_frame _ (UpdateStatusIn matched [sr_id m])
              (update_status_in matched [sr_id m]) db2
              (fun x => eq_refl) (fun x => eq_refl)) as [N3 U3].
  set (db3 := snd (request (UpdateStatusIn _ _) _ db2)) in *.
  rewrite (request_eq _ (InsertNotification _)).
  destruct (hd None (faults db3)); cbn [fst snd]; cbn; rewrite N3, N2, U3, U2;
    auto.
Qed.

Lemma update_rows_identity (s : Status) (sel : SwapRequest -> bool)
    (rows : list SwapRequest) :
  map identity (update_rows s sel rows) = map identity rows.
Proof.
  unfold update_rows. rewrite map_map. apply map_ext. intros r.
  destruct (sel r); reflexivity.
Qed.

Lemma submit_only_appends (me : UserId) (p : Profile) (d : Direction) (db : Db)
    (st : State) :
  exists added ns,
    List.length added <= 1 /\ List.length ns <= 1
    /\ map identity (swap_requests (fst (snd (submit me p d (db, st)))))
       = map identity (swap_requests db ++ added)
    /\ notifications (fst (snd (submit me p d (db, st))))
       = notifications db ++ ns
    /\ users (fst (snd (submit me p d (db, st)))) = users db.
Proof.
  rewrite submit_unfold.
  destruct (request_insert_result me (p_id p) (kind_of d) pending db)
    as (Hr & Hn & Hu).
  destruct (request (InsertSwapRequest _ _ _ _) _ db) as [res db1].
  cbn [fst snd] in *.
  assert (exists added,
            List.length added <= 1
            /\ swap_requests db1 = swap_requests db ++ added) as (added & Hl & Ha).
  { destruct Hr as [Hr | Hr]; rewrite Hr.
    - exists []. rewrite app_nil_r. auto.
    - eexists [_]. auto. }
  assert (exists ns,
            List.length ns <= 1
            /\ map identity (swap_requests (fst (snd (reconcile me p db1 st))))
               = map identity (swap_requests db ++ added)
            /\ notifications (fst (snd (reconcile me p db1 st)))
               = notifications db ++ ns
            /\ users (fst (snd (reconcile me p db1 st))) = users db) as Hrec.
  { destruct (reconcile_notifications me p db1 st) as [[N | N] U];
      [exists [] | eexists [_]]; rewrite N, U, Hn, Hu, ?app_nil_r;
      (split; [cbn; lia|]); (split; [|auto]);
      (destruct (reconcile_rows me p db1 st) as [E | (m & _ & _ & E)];
       rewrite E, ?update_rows_identity, Ha; reflexivity). }
  destruct (error res) as [e|];
    [destruct (negb _)|]; cbn [fst snd];
    try (destruct Hrec as (ns & H); exists added, ns; tauto).
  exists added, []. rewrite Ha, Hn, Hu, app_nil_r. cbn. auto.
Qed.

(** X4.  A swipe only ever adds: whatever calls fail, the records after it
    are the records before it, in order and unchanged but for their status,
    followed by at most one new record; the notifications are those before
    followed by at most one new one; the users are untouched.  Nothing is
    deleted or re-addressed. *)
Theorem X4_a_swipe_only_appends (d : Direction) (db : Db) (st : State) :
  exists added ns,
    List.length added <= 1 /\ List.length ns <= 1
    /\ map identity (swap_requests (db_after (handleSwipe d) db st))
       = map identity (swap_requests db ++ added)
    /\ notifications (db_after (handleSwipe d) db st) = notifications db ++ ns
    /\ users (db_after (handleSwipe d) db st) = users db.
Proof.
  assert (exists added ns : list _,
            List.length added <= 1 /\ List.length ns <= 1
            /\ map identity (swap_requests db)
               = map identity (swap_requests db ++ added)
            /\ notifications db = notifications db ++ (ns : list Notification)
            /\ users db = users db) as Hsame.
  { exists [], []. rewrite !app_nil_r. cbn. auto. }
  unfold db_after, after.
  destruct (guard_cases st) as [Hg | [p Hr]].
  - rewrite handleSwipe_not_ready by assumption. exact Hsame.
  - rewrite (handleSwipe_ready d db st p Hr).
    destruct (is_interest d); [|exact Hsame].
    pose proof (submit_only_appends (user st) p d db (begin_swipe d st)) as H.
    destruct (submit _ _ _ _) as [[[]|t] [db' st']]; exact H.
Qed.

Lemma insert_then_continue (A : Type) (f t : UserId) (k : SwipeType)
    (s : Status) (x : Db) (stop : PostgrestError -> A) (go : A) :
  match error (fst (insert_swap_request f t k s x)) with
  | Some e => if negb (String.eqb (code e) "23505") then stop e else go
  | None => go
  end = go.
Proof. unfold insert_swap_request. destruct (existsb _ _); reflexivity. Qed.

Lemma faults_pop_log (c : StoreCall) (db : Db) :
  faults (pop (log c db)) = tl (faults db).
Proof. reflexivity. Qed.

Lemma inserted_keeps (me : UserId) (p : Profile) (d : Direction) (db : Db)
    (r : SwapRequest) :
  In r (swap_requests db) -> In r (swap_requests (inserted me p d db)).
Proof.
  intros Hin. rewrite inserted_rows. destruct (existsb _ _); [assumption|].
  apply in_or_app. left. assumption.
Qed.

(** X5.  The celebration does not wait for the commit.  When the reverse
    lookup has found the pending reverse record and the store then fails on
    the status update, the swipe still fires the confetti and the "It's a
    match" toast and logs nothing, while the reverse record stays PENDING:
    the response of the update is never read. *)
Theorem X5_celebration_without_commit (d : Direction) (db : Db) (st : State)
    (p : Profile) (R : SwapRequest) (e : PostgrestError)
    (fs : list (option PostgrestError)) :
  wf_db db -> ready st p -> is_interest d = true ->
  In R (swap_requests db) -> pair_of R = (p_id p, user st) ->
  status R = pending -> user st <> p_id p ->
  faults db = None :: None :: Some e :: fs ->
  In R (swap_requests (db_after (handleSwipe d) db st))
  /\ confetti (ui_after (handleSwipe d) db st) = S (confetti st)
  /\ In (ToastSuccess ("🎉 It's a match with " ++ p_name p ++ "!"))
        (toasts (ui_after (handleSwipe d) db st))
  /\ console (ui_after (handleSwipe d) db st) = console st.
Proof.
  intros Hwf Hr Hd Hin Hpair Hst Hne Hf.
  unfold db_after, ui_after, after.
  rewrite (handleSwipe_ready d db st p Hr), Hd, submit_unfold, request_eq, Hf.
  cbn [hd].
  set (c1 := InsertSwapRequest _ _ _ _).
  set (x := pop (log c1 db)).
  destruct (insert_swap_request_result (user st) (p_id p) (kind_of d) pending x)
    as (_ & _ & _ & Hf1 & _).
  assert (swap_requests (snd (insert_swap_request (user st) (p_id p) (kind_of d)
                                                  pending x))
          = swap_requests (inserted (user st) p d db)) as Hrows.
  { unfold inserted, insert_swap_request. subst x. cbn.
    destruct (existsb _ _); reflexivity. }
  destruct (insert_swap_request (user st) (p_id p) (kind_of d) pending x)
    as [res db1] eqn:Eins.
  pose proof (insert_then_continue _ (user st) (p_id p) (kind_of d) pending x
                (fun e0 => (Abrupt (ThrownError e0), (db1, begin_swipe d st)))
                (reconcile (user st) p db1 (begin_swipe d st))) as Hgo.
  rewrite Eins in Hgo. cbn [fst snd] in *. rewrite Hgo. clear Hgo.
  assert (faults db1 = None :: Some e :: fs) as Hf1'.
  { rewrite Hf1. subst x. cbn. rewrite Hf. reflexivity. }
  assert (filter (is_pending_pair (p_id p) (user st)) (swap_requests db1) = [R])
    as Hfound.
  { rewrite Hrows, inserted_reverse by assumption.
    apply filter_pending_pair_unique;
      [apply Hwf | assumption | apply is_pending_pair_true; auto]. }
  unfold reconcile. rewrite request_eq, Hf1'. cbn [hd].
  unfold select_pending_single. cbn [fst snd pop log with_faults swap_requests].
  rewrite Hfound. cbn [single data fst snd].
  rewrite (request_eq _ (InsertNotification _)), (request_eq _ (UpdateStatusIn _ _)).
  rewrite faults_pop_log, Hf1'. cbn [tl hd fst snd].
  rewrite faults_pop_log. cbn [faults pop log with_faults tl].
  rewrite Hf1'. cbn [tl].
  assert (In R (swap_requests db1)) as HinR
    by (rewrite Hrows; apply inserted_keeps; assumption).
  destruct (hd None fs); cbn [fst snd];
    (split; [exact HinR|]); (split; [reflexivity|]);
    (split; [|reflexivity]);
    unfold end_swipe, triggered, begin_swipe;
    cbn [toasts setIsAnimating controls setCurrentIndex toast fire_confetti
         setDailySwipes];
    apply in_or_app; left; apply in_or_app; right; left; reflexivity.
Qed.

(** ** Beyond the claims: the lists of the Dashboard *)

Section Lists.
Import Dashboard.

Lemma from_user_id_found (db : Db) (r : SwapRequest) (u : UserRow) :
  from_user db r = Some u -> u_id u = from_user_id r.
Proof.
  unfold from_user. intros H. apply find_some in H as [_ H].
  apply String.eqb_eq. exact H.
Qed.

Lemma fetchPendingRequests_reliable (db : Db) (st : State) :
  reliable db -> fk_from_user db ->
  map Some (pendingRequests (ui_after fetchPendingRequests db st)) =
  map (request_entry db) (filter (is_pending_to (user st)) (swap_requests db)).
Proof.
  intros Hrel Hfk.
  unfold ui_after, after, fetchPendingRequests, try_finally, try_catch, bind,
    component, await, set_state, throw.
  cbn [fst snd]. rewrite request_reliable by assumption.
  unfold select_pending_inbound. cbn [fst snd error data].
  set (rows := filter _ _).
  assert (forall r, In r rows -> In r (swap_requests db)) as Hsub.
  { intros r Hr. apply filter_In in Hr. apply Hr. }
  clearbody rows.
  change (from_user (log (SelectPendingInbound (user st)) db))
    with (from_user db).
  rewrite (traverse_map _ _ _
             (fun j : Joined =>
                mkPendingRequest (sr_id (fst j))
                  (person (match snd j with Some o => o | None => alice_row end))
                  (swipe_type (fst j)) (created_at (fst j)))).
  - cbn [fst snd pendingRequests setPendingRequests setLoading].
    rewrite !map_map. apply map_ext_in. intros r Hr. cbn [fst snd].
    unfold request_entry.
    destruct (from_user db r) eqn:E; [reflexivity|].
    exfalso. apply (Hfk r); [apply Hsub; assumption | assumption].
  - intros j Hj. apply in_map_iff in Hj as (r & <- & Hr).
    unfold to_request. cbn [fst snd].
    destruct (from_user db r) eqn:E; [reflexivity|].
    exfalso. apply (Hfk r); [apply Hsub; assumption | assumption].
Qed.

(** What the two fetchers leave alone, whatever the store does. *)
Lemma fetchMatches_frame (db : Db) (st : State) :
  fst (fetchMatches (db, st)) = Normal tt
  /\ pendingRequests (ui_after fetchMatches db st) = pendingRequests st
  /\ user (ui_after fetchMatches db st) = user st
  /\ loading (ui_after fetchMatches db st) = loading st
  /\ (exists ts, toasts (ui_after fetchMatches db st) = toasts st ++ ts).
Proof.
  unfold ui_after, after, fetchMatches, try_catch, bind, component, await,
    set_state, throw.
  cbn [fst snd]. rewrite request_eq.
  destruct (hd None (faults db)) as [e|]; cbn [fst snd error data].
  - repeat split; eexists [_]; reflexivity.
  - unfold select_matched. cbn [fst snd error data].
    destruct (traverse _ _) as [ms|]; cbn [fst snd]; repeat split;
      [exists []; cbn; rewrite app_nil_r; reflexivity
      | eexists [_]; reflexivity].
Qed.

Lemma fetchPendingRequests_frame (db : Db) (st : State) :
  fst (fetchPendingRequests (db, st)) = Normal tt
  /\ matches (ui_after fetchPendingRequests db st) = matches st
  /\ user (ui_after fetchPendingRequests db st) = user st
  /\ loading (ui_after fetchPendingRequests db st) = false
  /\ (exists ts, toasts (ui_after fetchPendingRequests db st) = toasts st ++ ts).
Proof.
  unfold ui_after, after, fetchPendingRequests, try_finally, try_catch, bind,
    component, await, set_state, throw.
  cbn [fst snd]. rewrite request_eq.
  destruct (hd None (faults db)) as [e|]; cbn [fst snd error data].
  - repeat split; eexists [_]; reflexivity.
  - unfold select_pending_inbound. cbn [fst snd error data].
    destruct (traverse _ _) as [ms|]; cbn [fst snd]; repeat split;
      [exists []; cbn; rewrite app_nil_r; reflexivity
      | eexists [_]; reflexivity].
Qed.

(** X6.  The list of pending requests is exactly the inbound PENDING
    records of the user, one entry per record in table order, each with the
    id, the kind and the date of its record and with the record's initiator
    as the person shown. *)
Theorem X6_pending_list_is_the_inbound_pending_records (db : Db) (st : State) :
  reliable db -> fk_from_user db ->
  map (fun q => (pr_id q, person_id (fromUser q), swipeType q, createdAt q))
      (pendingRequests (ui_after fetchPendingRequests db st))
  = map (fun r => (sr_id r, from_user_id r, swipe_type r, created_at r))
        (filter (fun r => String.eqb (to_user_id r) (user st)
                          && Status_eqb (status r) pending)
                (swap_requests db)).
Proof.
  intros Hrel Hfk.
  pose proof (fetchPendingRequests_reliable db st Hrel Hfk) as H.
  apply map_Some_inj.
  transitivity
    (map (option_map
            (fun q => (pr_id q, person_id (fromUser q), swipeType q, createdAt q)))
         (map Some (pendingRequests (ui_after fetchPendingRequests db st)))).
  - rewrite !map_map. reflexivity.
  - rewrite H, !map_map. apply map_ext_in. intros r Hr.
    apply filter_In in Hr as [Hr _]. unfold request_entry.
    destruct (from_user db r) as [u|] eqn:E.
    + cbn. rewrite (from_user_id_found db r u E). reflexivity.
    + exfalso. apply (Hfk r); assumption.
Qed.

(** X7.  The person shown for a match is always the initiator of the record,
    never chosen by who is looking: both arms of the conditional in
    [fetchMatches] are [match.users].  For a matched record that the user
    initiated, the Dashboard therefore shows the user to themselves. *)
Theorem X7_a_match_shows_the_initiator (db : Db) (st : State) :
  reliable db -> fk_from_user db ->
  map (fun m => (m_id m, person_id (m_user m)))
      (matches (ui_after fetchMatches db st))
  = map (fun r => (sr_id r, from_user_id r))
        (filter (is_matched_of (user st)) (swap_requests db)).
Proof.
  intros Hrel Hfk.
  pose proof (fetchMatches_reliable db st Hrel Hfk) as H.
  apply map_Some_inj.
  transitivity
    (map (option_map (fun m => (m_id m, person_id (m_user m))))
         (map Some (matches (ui_after fetchMatches db st)))).
  - rewrite !map_map. reflexivity.
  - rewrite H, !map_map. apply map_ext_in. intros r Hr.
    apply filter_In in Hr as [Hr _]. unfold match_entry.
    destruct (from_user db r) as [u|] eqn:E.
    + cbn. rewrite (from_user_id_found db r u E). reflexivity.
    + exfalso. apply (Hfk r); assumption.
Qed.

(** X8.  When the store is down, the fetchers keep what the page shows and
    say so: [fetchMatches] leaves the matches as they are and
    [fetchPendingRequests] leaves the requests as they are, each adds its
    error toast and logs the error, and the spinner is cleared all the same. *)
Theorem X8_a_failed_fetch_keeps_the_lists (db : Db) (st : State)
    (e : PostgrestError) :
  hd None (faults db) = Some e ->
  (completion fetchMatches db st = Normal tt
   /\ matches (ui_after fetchMatches db st) = matches st
   /\ toasts (ui_after fetchMatches db st)
      = toasts st ++ [ToastError "Failed to load matches"]
   /\ console (ui_after fetchMatches db st)
      = console st ++ [("Error fetching matches:", ThrownError e)])
  /\
  (completion fetchPendingRequests db st = Normal tt
   /\ pendingRequests (ui_after fetchPendingRequests db st) = pendingRequests st
   /\ toasts (ui_after fetchPendingRequests db st)
      = toasts st ++ [ToastError "Failed to load pending requests"]
   /\ console (ui_after fetchPendingRequests db st)
      = console st ++ [("Error fetching pending requests:", ThrownError e)]
   /\ loading (ui_after fetchPendingRequests db st) = false).
Proof.
  intros Hf.
  unfold completion, ui_after, after, fetchMatches, fetchPendingRequests,
    try_finally, try_catch, bind, component, await, set_state, throw.
  cbn [fst snd]. rewrite !request_eq, Hf. cbn [fst snd error data].
  repeat split.
Qed.
End Lists.

(** ** Beyond the claims: accepting and rejecting *)

Section Decisions.
Import Dashboard.

Lemma fk_from_user_tables (db db' : Db) :
  users db' = users db ->
  map (fun r => from_user_id r) (swap_requests db')
  = map (fun r => from_user_id r) (swap_requests db) ->
  fk_from_user db -> fk_from_user db'.
Proof.
  intros Hu Hr Hfk r Hin.
  assert (In (from_user_id r) (map (fun r => from_user_id r) (swap_requests db)))
    as H by (rewrite <- Hr; apply in_map; assumption).
  apply in_map_iff in H as (y & Ey & Hy).
  specialize (Hfk y Hy). unfold from_user in *. rewrite Hu, <- Ey. exact Hfk.
Qed.

Lemma update_rows_from (s : Status) (sel : SwapRequest -> bool)
    (rows : list SwapRequest) :
  map (fun r => from_user_id r) (update_rows s sel rows)
  = map (fun r => from_user_id r) rows.
Proof.
  unfold update_rows. rewrite map_map. apply map_ext. intros r.
  destruct (sel r); reflexivity.
Qed.

Lemma fetchMatches_ids (db : Db) (st : State) :
  reliable db -> fk_from_user db ->
  map m_id (matches (ui_after fetchMatches db st))
  = map sr_id (filter (is_matched_of (user st)) (swap_requests db)).
Proof.
  intros Hrel Hfk. pose proof (fetchMatches_reliable db st Hrel Hfk) as H.
  apply map_Some_inj.
  transitivity (map (option_map m_id)
                    (map Some (matches (ui_after fetchMatches db st)))).
  - rewrite !map_map. reflexivity.
  - rewrite H, !map_map. apply map_ext_in. intros r Hr.
    apply filter_In in Hr as [Hr _]. unfold match_entry.
    destruct (from_user db r) eqn:E; [reflexivity|].
    exfalso. apply (Hfk r); assumption.
Qed.

Lemma fetchPendingRequests_ids (db : Db) (st : State) :
  reliable db -> fk_from_user db ->
  map pr_id (pendingRequests (ui_after fetchPendingRequests db st))
  = map sr_id (filter (is_pending_to (user st)) (swap_requests db)).
Proof.
  intros Hrel Hfk. pose proof (fetchPendingRequests_reliable db st Hrel Hfk) as H.
  apply map_Some_inj.
  transitivity (map (option_map pr_id)
                    (map Some (pendingRequests
                                 (ui_after fetchPendingRequests db st)))).
  - rewrite !map_map. reflexivity.
  - rewrite H, !map_map. apply map_ext_in. intros r Hr.
    apply filter_In in Hr as [Hr _]. unfold request_entry.
    destruct (from_user db r) eqn:E; [reflexivity|].
    exfalso. apply (Hfk r); assumption.
Qed.

(** On an available store an accept is its update, its notification if any,
    its toast, and then the two fetches. *)
Lemma handleAcceptRequest_refresh (requestId : RequestId) (db : Db) (st : State) :
  reliable db ->
  exists db2,
    reliable db2
    /\ users db2 = users db
    /\ swap_requests db2
       = update_rows matched (id_eq requestId) (swap_requests db)
    /\ handleAcceptRequest requestId (db, st)
       = fetchPendingRequests (after fetchMatches db2 (toast accepted_toast st)).
Proof.
  intros Hrel.
  unfold handleAcceptRequest, try_catch, bind, component, await, set_state,
    throw, ret.
  cbn [fst snd]. rewrite request_reliable by assumption.
  unfold update_status_eq. cbn [fst snd error data].
  set (db1 := with_swap_requests _ _).
  assert (reliable db1) as Hrel1 by exact Hrel.
  assert (forall db2,
            (let (c, s') :=
               let (c, s') := fetchMatches (db2, toast accepted_toast st) in
               match c with
               | Normal _ => fetchPendingRequests s'
               | Abrupt t => (Abrupt t, s')
               end in
             match c with
             | Normal a => (Normal a, s')
             | Abrupt t =>
                 let (c0, s'0) :=
                   (Normal tt,
                    (fst s', console_error "Error accepting request:" t (snd s'))) in
                 match c0 with
                 | Normal _ =>
                     (Normal tt,
                      (fst s'0,
                       toast (ToastError "Failed to accept request") (snd s'0)))
                 | Abrupt t0 => (Abrupt t0, s'0)
                 end
             end)
            = fetchPendingRequests (after fetchMatches db2 (toast accepted_toast st)))
    as Htail.
  { intros db2. unfold after.
    destruct (fetchMatches_frame db2 (toast accepted_toast st)) as (Hc & _).
    destruct (fetchMatches (db2, toast accepted_toast st)) as [c [db3 st3]].
    cbn [fst snd] in *. subst c.
    destruct (fetchPendingRequests_frame db3 st3) as (Hc' & _).
    destruct (fetchPendingRequests (db3, st3)) as [c' s4].
    cbn [fst] in Hc'. subst c'. reflexivity. }
  destruct (find _ (pendingRequests st)) as [req|]; cbn [fst snd].
  - rewrite request_reliable by assumption.
    unfold insert_notification. cbn [fst snd].
    eexists. split; [|split; [|split; [|apply Htail]]]; [exact Hrel | |]; reflexivity.
  - exists db1. split; [exact Hrel1|]. split; [reflexivity|].
    split; [reflexivity|]. apply Htail.
Qed.

Lemma handleRejectRequest_refresh (requestId : RequestId) (db : Db) (st : State) :
  reliable db ->
  exists db2,
    reliable db2
    /\ users db2 = users db
    /\ swap_requests db2
       = update_rows rejected (id_eq requestId) (swap_requests db)
    /\ handleRejectRequest requestId (db, st)
       = fetchPendingRequests (db2, toast (ToastSuccess "Request rejected") st).
Proof.
  intros Hrel.
  unfold handleRejectRequest, try_catch, bind, component, await, set_state,
    throw, ret.
  cbn [fst snd]. rewrite request_reliable by assumption.
  unfold update_status_eq. cbn [fst snd error data].
  set (db1 := with_swap_requests _ _).
  exists db1. split; [exact Hrel|]. split; [reflexivity|]. split; [reflexivity|].
  destruct (fetchPendingRequests_frame db1
              (toast (ToastSuccess "Request rejected") st)) as (Hc & _).
  destruct (fetchPendingRequests _) as [c s4]. cbn [fst] in Hc. subst c.
  reflexivity.
Qed.

(** After an update by id of a well-formed table, no row that is PENDING
    carries the id of a row that was set to another status. *)
Lemma updated_row_not_pending (s : Status) (db : Db) (r x : SwapRequest) :
  s <> pending -> wf_db db -> In r (swap_requests db) ->
  In x (update_rows s (id_eq (sr_id r)) (swap_requests db)) ->
  sr_id x = sr_id r -> status x <> pending.
Proof.
  intros Hs Hwf Hin Hx Hid. unfold update_rows in Hx.
  apply in_map_iff in Hx as (y & Ey & Hy).
  assert (sr_id y = sr_id r) as Hidy.
  { rewrite <- Hid, <- Ey. destruct (id_eq (sr_id r) y); reflexivity. }
  rewrite (unique_id_row (swap_requests db) y r (ids_unique db Hwf) Hy Hin Hidy)
    in Ey.
  unfold id_eq in Ey. rewrite Nat.eqb_refl in Ey. rewrite <- Ey. exact Hs.
Qed.
End Decisions.

Section Decided.
Import Dashboard.

(** The page after an accept of a request addressed to the user. *)
Lemma handleAcceptRequest_page (db : Db) (st : State)
    (r : SwapRequest) :
  reliable db -> wf_db db -> fk_from_user db ->
  In r (swap_requests db) -> to_user_id r = user st ->
  In (sr_id r)
     (map m_id (matches (ui_after (handleAcceptRequest (sr_id r)) db st)))
  /\ ~ In (sr_id r)
          (map pr_id
               (pendingRequests (ui_after (handleAcceptRequest (sr_id r)) db st))).
Proof.
  intros Hrel Hwf Hfk Hin Hto.
  destruct (handleAcceptRequest_refresh (sr_id r) db st Hrel)
    as (db2 & Hrel2 & Hu2 & Hr2 & E).
  assert (fk_from_user db2) as Hfk2.
  { apply (fk_from_user_tables db); [assumption | | assumption].
    rewrite Hr2. apply update_rows_from. }
  unfold ui_after at 1 2. unfold after at 1 2. rewrite E. clear E.
  pose proof (fetchMatches_ids db2 (toast accepted_toast st) Hrel2 Hfk2) as Hm.
  destruct (fetchMatches_frame db2 (toast accepted_toast st))
    as (_ & _ & Hus & _).
  destruct (fetchMatches_tables db2 (toast accepted_toast st))
    as (db3 & st3 & E3 & (U3 & R3 & _ & _) & Hrel3).
  unfold ui_after, after in Hm, Hus. unfold after. rewrite E3 in *.
  cbn [fst snd] in *.
  assert (fk_from_user db3) as Hfk3.
  { apply (fk_from_user_tables db2); [assumption | | assumption].
    rewrite R3. reflexivity. }
  pose proof (fetchPendingRequests_ids db3 st3 (Hrel3 Hrel2) Hfk3) as Hp.
  destruct (fetchPendingRequests_frame db3 st3) as (_ & Hmk & _).
  unfold ui_after, after in Hp, Hmk.
  destruct (fetchPendingRequests (db3, st3)) as [c [db4 st4]].
  cbn [fst snd] in *. rewrite Hmk, Hm, Hp, R3, Hr2, Hus. cbn [user toast].
  split.
  - apply in_map_iff. exists (set_status matched r). split; [reflexivity|].
    apply filter_In. split.
    + apply update_rows_sets; [assumption | apply Nat.eqb_refl].
    + unfold is_matched_of. cbn [status set_status to_user_id from_user_id].
      rewrite Hto, String.eqb_refl, orb_true_r. reflexivity.
  - intros Hi. apply in_map_iff in Hi as (x & Ex & Hx).
    apply filter_In in Hx as [Hx Hpx].
    unfold is_pending_to in Hpx. apply andb_true_iff in Hpx as [_ Hpx].
    apply Status_eqb_eq in Hpx.
    apply (updated_row_not_pending matched db r x); try assumption.
    discriminate.
Qed.

(** X9.  An accepted request changes lists: once the user has accepted a
    request addressed to them, the page, refreshed by the handler, shows the
    record among the matches and no longer among the pending requests. *)
Theorem X9_an_accepted_request_moves_to_the_matches (db : Db) (st : State)
    (r : SwapRequest) :
  reliable db -> wf_db db -> fk_from_user db ->
  In r (swap_requests db) -> to_user_id r = user st ->
  In (sr_id r)
     (map m_id (matches (ui_after (handleAcceptRequest (sr_id r)) db st)))
  /\ ~ In (sr_id r)
          (map pr_id
               (pendingRequests (ui_after (handleAcceptRequest (sr_id r)) db st))).
Proof. exact (handleAcceptRequest_page db st r). Qed.

(** X10.  A rejected request leaves the list of pending requests, and the
    reject touches nothing else on the page: the matches shown are the ones
    shown before, and the user is told "Request rejected". *)
Theorem X10_a_rejected_request_leaves_the_pending_list (db : Db) (st : State)
    (r : SwapRequest) :
  reliable db -> wf_db db -> fk_from_user db ->
  In r (swap_requests db) ->
  ~ In (sr_id r)
       (map pr_id
            (pendingRequests (ui_after (handleRejectRequest (sr_id r)) db st)))
  /\ matches (ui_after (handleRejectRequest (sr_id r)) db st) = matches st
  /\ In (ToastSuccess "Request rejected")
        (toasts (ui_after (handleRejectRequest (sr_id r)) db st)).
Proof.
  intros Hrel Hwf Hfk Hin.
  destruct (handleRejectRequest_refresh (sr_id r) db st Hrel)
    as (db2 & Hrel2 & Hu2 & Hr2 & E).
  assert (fk_from_user db2) as Hfk2.
  { apply (fk_from_user_tables db); [assumption | | assumption].
    rewrite Hr2. apply update_rows_from. }
  unfold ui_after, after. rewrite E. clear E.
  pose proof (fetchPendingRequests_ids db2
                (toast (ToastSuccess "Request rejected") st) Hrel2 Hfk2) as Hp.
  destruct (fetchPendingRequests_frame db2
              (toast (ToastSuccess "Request rejected") st))
    as (_ & Hmk & _ & _ & (ts & Hts)).
  unfold ui_after, after in Hp, Hmk, Hts.
  destruct (fetchPendingRequests _) as [c [db4 st4]].
  cbn [fst snd] in *. rewrite Hmk, Hp, Hts, Hr2.
  split; [|split; [reflexivity|]].
  - intros Hi. apply in_map_iff in Hi as (x & Ex & Hx).
    apply filter_In in Hx as [Hx Hpx].
    unfold is_pending_to in Hpx. apply andb_true_iff in Hpx as [_ Hpx].
    apply Status_eqb_eq in Hpx.
    apply (updated_row_not_pending rejected db r x); try assumption.
    discriminate.
  - apply in_or_app. left. cbn [toasts toast]. apply in_or_app. right.
    left. reflexivity.
Qed.

(** X11.  When the store fails on the update, an accept and a reject change
    nothing and say so: the tables are as they were, no notification is sent,
    no further call is issued, the lists on the page are not refreshed, the
    error is logged and the user gets the failure toast. *)
Theorem X11_a_failed_decision_changes_nothing (requestId : RequestId) (db : Db)
    (st : State) (e : PostgrestError) :
  hd None (faults db) = Some e ->
  (swap_requests (db_after (handleAcceptRequest requestId) db st)
   = swap_requests db
   /\ notifications (db_after (handleAcceptRequest requestId) db st)
      = notifications db
   /\ trace (db_after (handleAcceptRequest requestId) db st)
      = trace db ++ [UpdateStatusEq matched requestId]
   /\ ui_after (handleAcceptRequest requestId) db st
      = toast (ToastError "Failed to accept request")
              (console_error "Error accepting request:" (ThrownError e) st))
  /\
  (swap_requests (db_after (handleRejectRequest requestId) db st)
   = swap_requests db
   /\ notifications (db_after (handleRejectRequest requestId) db st)
      = notifications db
   /\ trace (db_after (handleRejectRequest requestId) db st)
      = trace db ++ [UpdateStatusEq rejected requestId]
   /\ ui_after (handleRejectRequest requestId) db st
      = toast (ToastError "Failed to reject request")
              (console_error "Error rejecting request:" (ThrownError e) st)).
Proof.
  intros Hf.
  unfold db_after, ui_after, after, handleAcceptRequest, handleRejectRequest,
    try_catch, bind, component, await, set_state, throw.
  cbn [fst snd]. rewrite !request_eq, Hf. cbn [fst snd error data].
  repeat split.
Qed.

(** X12.  Accepting a request that is not on file reports success: when no
    record has the given id, the update matches nothing and the table is as
    it was, yet the user gets the "Request accepted" toast; and when the
    page does not list the id either, nobody is notified. *)
Theorem X12_accepting_an_unknown_request_reports_success
    (requestId : RequestId) (db : Db) (st : State) :
  reliable db ->
  (forall r, In r (swap_requests db) -> sr_id r <> requestId) ->
  swap_requests (db_after (handleAcceptRequest requestId) db st)
  = swap_requests db
  /\ In accepted_toast (toasts (ui_after (handleAcceptRequest requestId) db st))
  /\ completion (handleAcceptRequest requestId) db st = Normal tt
  /\ (find (fun q => Nat.eqb (pr_id q) requestId) (pendingRequests st) = None ->
      notifications (db_after (handleAcceptRequest requestId) db st)
      = notifications db).
Proof.
  intros Hrel Hnone.
  destruct (handleAcceptRequest_reliable requestId db st Hrel)
    as (db' & st' & E & _ & Hr & Hn).
  assert (update_rows matched (id_eq requestId) (swap_requests db)
          = swap_requests db) as Hsame.
  { unfold update_rows. rewrite <- (map_id (swap_requests db)) at 2.
    apply map_ext_in. intros r Hin. unfold id_eq.
    destruct (Nat.eqb_spec (sr_id r) requestId) as [Eid|]; [|reflexivity].
    exfalso. exact (Hnone r Hin Eid). }
  destruct (handleAcceptRequest_refresh requestId db st Hrel)
    as (db2 & _ & _ & _ & E2).
  unfold db_after, ui_after, completion, after.
  split; [rewrite E; cbn [fst snd]; rewrite Hr; exact Hsame|].
  split; [|split].
  - rewrite E2. unfold after.
    destruct (fetchMatches_frame db2 (toast accepted_toast st))
      as (_ & _ & _ & _ & (ts & Hts)).
    unfold ui_after, after in Hts.
    destruct (fetchMatches (db2, toast accepted_toast st)) as [c [db3 st3]].
    cbn [fst snd] in *.
    destruct (fetchPendingRequests_frame db3 st3) as (_ & _ & _ & _ & (ts' & Hts')).
    unfold ui_after, after in Hts'.
    destruct (fetchPendingRequests (db3, st3)) as [c' [db4 st4]].
    cbn [fst snd] in *. rewrite Hts', Hts. cbn [toasts toast].
    apply in_or_app. left. apply in_or_app. left. apply in_or_app. right.
    left. reflexivity.
  - rewrite E. reflexivity.
  - intros Hfind. rewrite E. cbn [fst snd]. rewrite Hn.
    unfold accept_notifications. rewrite Hfind. apply app_nil_r.
Qed.

(** X13.  A notification that cannot be delivered is lost in silence: when
    the update of an accept goes through and the store then fails on the
    notification insert, the record is MATCHED all the same, no notification
    is on file, and the user is told the request was accepted; the response
    of the insert is never read. *)
Theorem X13_a_lost_notification_is_silent (requestId : RequestId) (db : Db)
    (st : State) (req : PendingRequest) (e : PostgrestError)
    (fs : list (option PostgrestError)) :
  faults db = None :: Some e :: fs ->
  find (fun q => Nat.eqb (pr_id q) requestId) (pendingRequests st) = Some req ->
  swap_requests (db_after (handleAcceptRequest requestId) db st)
  = update_rows matched (id_eq requestId) (swap_requests db)
  /\ notifications (db_after (handleAcceptRequest requestId) db st)
     = notifications db
  /\ In accepted_toast (toasts (ui_after (handleAcceptRequest requestId) db st))
  /\ completion (handleAcceptRequest requestId) db st = Normal tt.
Proof.
  intros Hf Hfind.
  unfold db_after, ui_after, completion, after, handleAcceptRequest, try_catch,
    bind, component, await, set_state, throw, ret.
  cbn [fst snd]. rewrite request_eq, Hf. cbn [hd].
  unfold update_status_eq. cbn [fst snd error data]. rewrite Hfind.
  cbn [fst snd]. rewrite request_eq.
  cbn [faults with_swap_requests pop log with_faults tl hd].
  rewrite Hf. cbn [tl hd fst snd].
  set (db2 := pop (log (InsertNotification _) _)).
  destruct (fetchMatches_frame db2 (toast accepted_toast st))
    as (Hc & _ & _ & _ & (ts & Hts)).
  destruct (fetchMatches_tables db2 (toast accepted_toast st))
    as (db3 & st3 & E3 & (_ & R3 & N3 & _) & _).
  unfold ui_after, after in Hts.
  change (ToastSuccess "Request accepted! 🎉") with accepted_toast.
  rewrite E3 in *. cbn [fst snd] in *.
  destruct (fetchPendingRequests_frame db3 st3) as (Hc' & _ & _ & _ & (ts' & Hts')).
  destruct (fetchPendingRequests_tables db3 st3)
    as (db4 & st4 & E4 & (_ & R4 & N4 & _) & _).
  unfold ui_after, after in Hts'. rewrite E4 in *. cbn [fst snd] in *.
  rewrite R4, R3, N4, N3, Hts', Hts.
  split; [reflexivity|]. split; [reflexivity|]. split; [|reflexivity].
  cbn [toasts toast]. apply in_or_app. left. apply in_or_app. left.
  apply in_or_app. right. left. reflexivity.
Qed.
End Decided.

(** ** Beyond the claims: from one page to the other *)

Lemma in_map_Some (A : Type) (a : A) (l : list A) :
  In (Some a) (map Some l) -> In a l.
Proof.
  intros H. apply in_map_iff in H as (x & [= ->] & Hx). exact Hx.
Qed.

(** X14.  A swipe reaches the other user's Dashboard: after an interested
    swipe on somebody the user has no record with yet, and who has no pending
    record with the user, the list of pending requests that person fetches
    holds the new request, with the swiper as the person shown and with the
    kind of the swipe. *)
Theorem X14_a_swipe_shows_up_as_a_pending_request (d : Direction) (db : Db)
    (st : State) (p : Profile) (dash : Dashboard.State) (u : UserRow) :
  reliable db -> ready st p -> is_interest d = true -> user st <> p_id p ->
  ~ In (user st, p_id p) (map pair_of (swap_requests db)) ->
  (forall r, In r (swap_requests db) -> pair_of r = (p_id p, user st) ->
             status r <> pending) ->
  fk_from_user db ->
  find (fun x => String.eqb (u_id x) (user st)) (users db) = Some u ->
  Dashboard.user dash = p_id p ->
  In (Dashboard.mkPendingRequest (next_id db) (Dashboard.person u) (kind_of d)
                                 (now db))
     (Dashboard.pendingRequests
        (ui_after Dashboard.fetchPendingRequests
                  (db_after (handleSwipe d) db st) dash)).
Proof.
  intros Hrel Hr Hd Hne Hnew Hnone Hfk Hu Hdash.
  unfold db_after at 1. unfold after.
  rewrite (swipe_no_commit d db st p) by assumption. cbn [fst snd].
  set (db' := log _ (inserted (user st) p d db)).
  assert (swap_requests db' = swap_requests db ++ [new_row (user st) p d db])
    as Hrows.
  { subst db'. cbn [log swap_requests]. rewrite inserted_rows.
    apply existsb_same_pair_false in Hnew. rewrite Hnew. reflexivity. }
  assert (users db' = users db) as Husers.
  { subst db'. unfold inserted, insert_swap_request. cbn.
    destruct (existsb _ _); reflexivity. }
  assert (reliable db') as Hrel'.
  { subst db'. apply (inserted_reliable (user st) p d db Hrel). }
  assert (from_user db' (new_row (user st) p d db) = Some u) as Hfrom.
  { unfold from_user. rewrite Husers. exact Hu. }
  assert (fk_from_user db') as Hfk'.
  { intros r Hin. rewrite Hrows in Hin. apply in_app_or in Hin as [Hin | [<- | []]].
    - specialize (Hfk r Hin). unfold from_user in *. rewrite Husers. exact Hfk.
    - rewrite Hfrom. discriminate. }
  apply in_map_Some.
  rewrite (fetchPendingRequests_reliable db' dash Hrel' Hfk').
  apply in_map_iff. exists (new_row (user st) p d db). split.
  - unfold request_entry. rewrite Hfrom. reflexivity.
  - apply filter_In. split.
    + rewrite Hrows. apply in_or_app. right. left. reflexivity.
    + unfold is_pending_to, new_row. cbn [to_user_id status].
      rewrite Hdash, String.eqb_refl. reflexivity.
Qed.

(** ** Beyond the claims: loading the deck *)

Lemma or_else_nonempty (a : option string) (d : string) :
  d <> "" -> or_else a d <> "".
Proof.
  intros Hd. unfold or_else. destruct a as [s|]; [|exact Hd].
  destruct (String.eqb_spec s ""); assumption.
Qed.

Lemma fetchProfiles_reliable (db : Db) (st : State) :
  reliable db ->
  ui_after fetchProfiles db st
  = setLoading false
      (setProfiles
         (map transform
              (firstn 10
                 (filter (fun u => nonempty (user_skill_offer u)
                                   && nonempty (user_skill_want u)
                                   && negb (String.eqb (u_id u) (user st)))
                         (users db))))
         st).
Proof.
  intros Hrel.
  unfold ui_after, after, fetchProfiles, try_finally, try_catch, bind,
    component, await, set_state, throw.
  cbn [fst snd]. rewrite request_reliable by assumption. reflexivity.
Qed.

(** X15.  A deck that has loaded is presentable: it holds at most ten
    profiles; every profile has a name, a location and a bio that are not
    empty (a missing or empty one is replaced by its default) and teaches
    and wants at least one skill; the spinner is cleared.  The position in
    the deck is not reset by the load. *)
Theorem X15_a_loaded_deck_is_presentable (db : Db) (st : State) :
  reliable db ->
  List.length (profiles (ui_after fetchProfiles db st)) <= 10
  /\ (forall p, In p (profiles (ui_after fetchProfiles db st)) ->
        p_name p <> "" /\ p_location p <> "" /\ bio p <> ""
        /\ canTeach p <> [] /\ wantToLearn p <> [])
  /\ loading (ui_after fetchProfiles db st) = false
  /\ currentIndex (ui_after fetchProfiles db st) = currentIndex st.
Proof.
  intros Hrel. rewrite (fetchProfiles_reliable db st Hrel).
  cbn [profiles loading currentIndex setLoading setProfiles].
  split; [|split; [|split; reflexivity]].
  - rewrite length_map. apply firstn_le_length.
  - intros p Hin. apply in_map_iff in Hin as (u & <- & Hu).
    apply in_firstn in Hu. apply filter_In in Hu as [_ Hu].
    apply andb_true_iff in Hu as [Hu _]. apply andb_true_iff in Hu as [Ho Hw].
    unfold transform. cbn [p_name p_location bio canTeach wantToLearn].
    repeat split; try (apply or_else_nonempty; discriminate).
    + destruct (user_skill_offer u); [discriminate Ho | discriminate].
    + destruct (user_skill_want u); [discriminate Hw | discriminate].
Qed.

(** X16.  When the store is down, loading the deck keeps the deck: the
    profiles and the position are as they were, the error is logged, the
    user gets "Failed to load profiles", and the spinner is cleared all the
    same. *)
Theorem X16_a_failed_load_keeps_the_deck (db : Db) (st : State)
    (e : PostgrestError) :
  hd None (faults db) = Some e ->
  completion fetchProfiles db st = Normal tt
  /\ ui_after fetchProfiles db st
     = setLoading false
         (toast (ToastError "Failed to load profiles")
                (console_error "Error fetching profiles:" (ThrownError e) st))
  /\ swap_requests (db_after fetchProfiles db st) = swap_requests db.
Proof.
  intros Hf.
  unfold completion, db_after, ui_after, after, fetchProfiles, try_finally,
    try_catch, bind, component, await, set_state, throw.
  cbn [fst snd]. rewrite request_eq, Hf. cbn [fst snd error data].
  repeat split.
Qed.

(** ** Beyond the claims: the drag *)








Lemma alice_dashboard_fk : fk_from_user (fst alice_dashboard).
Proof.
  intros r H. vm_compute in H.
  repeat (destruct H as [<- | H]; [vm_compute; discriminate|]). contradiction.
Qed.

Lemma alice_dashboard_wf : wf_db (fst alice_dashboard).
Proof. concrete_wf. Qed.

(** ** Beyond the claims: invariants and repeated decisions *)

(** X18.  The handlers keep the table well formed: ids stay fresh and
    distinct and no ordered pair gets a second record, along every swipe
    whatever calls fail, and along every accept and reject on an available
    store. *)
Theorem X18_the_handlers_keep_the_table_well_formed (d : Direction) (db : Db)
    (st : State) (requestId : RequestId) (dash : Dashboard.State) :
  wf_db db ->
  wf_db (db_after (handleSwipe d) db st)
  /\ (reliable db ->
      wf_db (db_after (Dashboard.handleAcceptRequest requestId) db dash)
      /\ wf_db (db_after (Dashboard.handleRejectRequest requestId) db dash)).
Proof.
  intros Hwf. split; [apply handleSwipe_wf; assumption|].
  intros Hrel. split.
  - apply handleAcceptRequest_wf; assumption.
  - apply handleRejectRequest_wf; assumption.
Qed.

(** X18 at Alice's swipe on Bob, the store failing on the update. *)
Lemma X18_the_handlers_keep_the_table_well_formed_witness :
  wf_db (db_after (handleSwipe Right)
                  (with_faults [None; None; Some unavailable] (fst alice_page))
                  (snd alice_page)).
Proof.
  assert (wf_db (with_faults [None; None; Some unavailable] (fst alice_page)))
    as Hwf by concrete_wf.
  exact (proj1 (X18_the_handlers_keep_the_table_well_formed Right
                  (with_faults [None; None; Some unavailable] (fst alice_page))
                  (snd alice_page) 0 (snd alice_dashboard) Hwf)).
Defined.

Lemma update_rows_idempotent (s : Status) (i : RequestId)
    (rows : list SwapRequest) :
  update_rows s (id_eq i) (update_rows s (id_eq i) rows)
  = update_rows s (id_eq i) rows.
Proof.
  unfold update_rows. rewrite map_map. apply map_ext. intros r.
  destruct (id_eq i r) eqn:E.
  - replace (id_eq i (set_status s r)) with true by (symmetry; exact E).
    reflexivity.
  - rewrite E. reflexivity.
Qed.

Lemma find_none_of_ids (requestId : RequestId)
    (l : list Dashboard.PendingRequest) :
  ~ In requestId (map Dashboard.pr_id l) ->
  find (fun q => Nat.eqb (Dashboard.pr_id q) requestId) l = None.
Proof.
  intros H. destruct (find _ l) as [q|] eqn:E; [|reflexivity].
  apply find_some in E as [Hin E]. apply Nat.eqb_eq in E.
  exfalso. apply H. rewrite <- E. apply in_map. assumption.
Qed.

Lemma handleAcceptRequest_stays_reliable (requestId : RequestId) (db : Db)
    (dash : Dashboard.State) :
  reliable db ->
  reliable (db_after (Dashboard.handleAcceptRequest requestId) db dash).
Proof.
  intros Hrel.
  destruct (handleAcceptRequest_refresh requestId db dash Hrel)
    as (db2 & Hrel2 & _ & _ & E).
  unfold db_after, after. rewrite E. unfold after.
  destruct (fetchMatches_tables db2 (Dashboard.toast accepted_toast dash))
    as (db3 & st3 & E3 & _ & Hrel3).
  rewrite E3. cbn [fst snd].
  destruct (fetchPendingRequests_tables db3 st3) as (db4 & st4 & E4 & _ & Hrel4).
  rewrite E4. cbn [fst snd]. auto.
Qed.

(** X19.  Accepting again changes nothing more: once a request addressed to
    the user has been accepted and the page has refreshed, a second accept of
    the same request leaves the records as they are and sends no second
    notification, the request being off the list the notification is looked
    up in. *)
Theorem X19_a_second_accept_changes_nothing_more (db : Db)
    (dash : Dashboard.State) (r : SwapRequest) :
  reliable db -> wf_db db -> fk_from_user db ->
  In r (swap_requests db) -> to_user_id r = Dashboard.user dash ->
  swap_requests
    (db_after (Dashboard.handleAcceptRequest (sr_id r))
              (db_after (Dashboard.handleAcceptRequest (sr_id r)) db dash)
              (ui_after (Dashboard.handleAcceptRequest (sr_id r)) db dash))
  = swap_requests (db_after (Dashboard.handleAcceptRequest (sr_id r)) db dash)
  /\ notifications
       (db_after (Dashboard.handleAcceptRequest (sr_id r))
                 (db_after (Dashboard.handleAcceptRequest (sr_id r)) db dash)
                 (ui_after (Dashboard.handleAcceptRequest (sr_id r)) db dash))
     = notifications (db_after (Dashboard.handleAcceptRequest (sr_id r)) db dash).
Proof.
  intros Hrel Hwf Hfk Hin Hto.
  pose proof (handleAcceptRequest_stays_reliable (sr_id r) db dash Hrel) as Hrel1.
  destruct (handleAcceptRequest_page db dash r Hrel Hwf Hfk Hin Hto) as [_ Hoff].
  apply find_none_of_ids in Hoff.
  destruct (handleAcceptRequest_reliable (sr_id r) db dash Hrel)
    as (db1 & st1 & E1 & _ & Hr1 & _).
  unfold db_after, ui_after, after in *. rewrite E1 in *. cbn [fst snd] in *.
  destruct (handleAcceptRequest_reliable (sr_id r) db1 st1 Hrel1)
    as (db2 & st2 & E2 & _ & Hr2 & Hn2).
  rewrite E2. cbn [fst snd]. rewrite Hr2, Hn2, Hr1.
  unfold accept_notifications. rewrite Hoff.
  split; [apply update_rows_idempotent | apply app_nil_r].
Qed.

(** X19 at Alice's accept of Bob's request, twice. *)
Lemma X19_a_second_accept_changes_nothing_more_witness :
  notifications
    (db_after (Dashboard.handleAcceptRequest 0)
              (db_after (Dashboard.handleAcceptRequest 0) (fst alice_dashboard)
                        (snd alice_dashboard))
              (ui_after (Dashboard.handleAcceptRequest 0) (fst alice_dashboard)
                        (snd alice_dashboard)))
  = notifications (db_after (Dashboard.handleAcceptRequest 0)
                            (fst alice_dashboard) (snd alice_dashboard)).
Proof.
  exact (proj2 (X19_a_second_accept_changes_nothing_more (fst alice_dashboard)
                  (snd alice_dashboard) bob_request eq_refl alice_dashboard_wf
                  alice_dashboard_fk (or_introl eq_refl) eq_refl)).
Defined.

(** ** Beyond the claims: the properties on the scenarios *)


(** X5 at Alice's swipe on Bob, the store failing on the third call. *)
Lemma X5_celebration_without_commit_witness :
  In bob_request
     (swap_requests
        (db_after (handleSwipe Right)
                  (with_faults [None; None; Some unavailable] (fst alice_page))
                  (snd alice_page)))
  /\ confetti (ui_after (handleSwipe Right)
                        (with_faults [None; None; Some unavailable]
                                     (fst alice_page))
                        (snd alice_page)) = 1.
Proof.
  assert (wf_db (with_faults [None; None; Some unavailable] (fst alice_page)))
    as Hwf by concrete_wf.
  destruct (X5_celebration_without_commit Right
              (with_faults [None; None; Some unavailable] (fst alice_page))
              (snd alice_page) bob_profile bob_request unavailable []
              Hwf (conj eq_refl eq_refl) eq_refl (or_introl eq_refl)
              eq_refl eq_refl) as (H1 & H2 & _).
  - discriminate.
  - reflexivity.
  - split; [exact H1 | exact H2].
Defined.

(** X6 at Alice's Dashboard, Bob's request pending. *)
Lemma X6_pending_list_is_the_inbound_pending_records_witness :
  map (fun q => (Dashboard.pr_id q, Dashboard.person_id (Dashboard.fromUser q),
                 Dashboard.swipeType q, Dashboard.createdAt q))
      (Dashboard.pendingRequests
         (ui_after Dashboard.fetchPendingRequests (fst alice_dashboard)
                   (snd alice_dashboard)))
  = [(0, bob, normal, 0)].
Proof.
  exact (X6_pending_list_is_the_inbound_pending_records (fst alice_dashboard)
           (snd alice_dashboard) eq_refl alice_dashboard_fk).
Defined.

Lemma alice_again_fk : fk_from_user (fst alice_again).
Proof.
  intros r H. vm_compute in H.
  repeat (destruct H as [<- | H]; [vm_compute; discriminate|]). contradiction.
Qed.

(** X7 at Alice's Dashboard once both records are matched: for the record she
    initiated she is shown herself. *)
Lemma X7_a_match_shows_the_initiator_witness :
  map (fun m => (Dashboard.m_id m, Dashboard.person_id (Dashboard.m_user m)))
      (Dashboard.matches
         (ui_after Dashboard.fetchMatches (fst alice_again)
                   (Dashboard.initial alice)))
  = [(0, alice); (1, bob)].
Proof.
  exact (X7_a_match_shows_the_initiator (fst alice_again)
           (Dashboard.initial alice) eq_refl alice_again_fk).
Defined.

(** X8 at Alice's Dashboard with the store down. *)
Lemma X8_a_failed_fetch_keeps_the_lists_witness :
  Dashboard.pendingRequests
    (ui_after Dashboard.fetchPendingRequests
              (down_for_next_call (fst alice_dashboard)) (snd alice_dashboard))
  = [bob_pending_request]
  /\ Dashboard.matches
       (ui_after Dashboard.fetchMatches
                 (down_for_next_call (fst alice_dashboard)) (snd alice_dashboard))
     = [].
Proof.
  destruct (X8_a_failed_fetch_keeps_the_lists
              (down_for_next_call (fst alice_dashboard)) (snd alice_dashboard)
              unavailable eq_refl) as ((_ & H1 & _) & (_ & H2 & _)).
  split; [exact H2 | exact H1].
Defined.

(** X9 at Alice's accept of Bob's request. *)
Lemma X9_an_accepted_request_moves_to_the_matches_witness :
  In 0 (map Dashboard.m_id
            (Dashboard.matches
               (ui_after (Dashboard.handleAcceptRequest 0) (fst alice_dashboard)
                         (snd alice_dashboard))))
  /\ ~ In 0 (map Dashboard.pr_id
                 (Dashboard.pendingRequests
                    (ui_after (Dashboard.handleAcceptRequest 0)
                              (fst alice_dashboard) (snd alice_dashboard)))).
Proof.
  exact (X9_an_accepted_request_moves_to_the_matches (fst alice_dashboard)
           (snd alice_dashboard) bob_request eq_refl alice_dashboard_wf
           alice_dashboard_fk (or_introl eq_refl) eq_refl).
Defined.

(** X10 at Alice's reject of Bob's request. *)
Lemma X10_a_rejected_request_leaves_the_pending_list_witness :
  ~ In 0 (map Dashboard.pr_id
              (Dashboard.pendingRequests
                 (ui_after (Dashboard.handleRejectRequest 0)
                           (fst alice_dashboard) (snd alice_dashboard)))).
Proof.
  exact (proj1 (X10_a_rejected_request_leaves_the_pending_list
                  (fst alice_dashboard) (snd alice_dashboard) bob_request
                  eq_refl alice_dashboard_wf alice_dashboard_fk
                  (or_introl eq_refl))).
Defined.

(** X11 at Alice's accept of Bob's request with the store down. *)
Lemma X11_a_failed_decision_changes_nothing_witness :
  swap_requests (db_after (Dashboard.handleAcceptRequest 0)
                          (down_for_next_call (fst alice_dashboard))
                          (snd alice_dashboard))
  = [bob_request].
Proof.
  exact (proj1 (proj1 (X11_a_failed_decision_changes_nothing 0
                         (down_for_next_call (fst alice_dashboard))
                         (snd alice_dashboard) unavailable eq_refl))).
Defined.

(** X12 at an accept of request 7, which nobody has filed. *)
Lemma X12_accepting_an_unknown_request_reports_success_witness :
  swap_requests (db_after (Dashboard.handleAcceptRequest 7)
                          (fst alice_dashboard) (snd alice_dashboard))
  = [bob_request]
  /\ In accepted_toast
        (Dashboard.toasts (ui_after (Dashboard.handleAcceptRequest 7)
                                    (fst alice_dashboard) (snd alice_dashboard))).
Proof.
  destruct (X12_accepting_an_unknown_request_reports_success 7
              (fst alice_dashboard) (snd alice_dashboard) eq_refl)
    as (H1 & H2 & _).
  - intros r [<- | []]. discriminate.
  - split; [exact H1 | exact H2].
Defined.

(** X13 at Alice's accept of Bob's request, the store failing on the
    notification. *)
Lemma X13_a_lost_notification_is_silent_witness :
  swap_requests (db_after (Dashboard.handleAcceptRequest 0)
                          (with_faults [None; Some unavailable]
                                       (fst alice_dashboard))
                          (snd alice_dashboard))
  = [mkSwapRequest 0 bob alice normal matched 0]
  /\ notifications (db_after (Dashboard.handleAcceptRequest 0)
                             (with_faults [None; Some unavailable]
                                          (fst alice_dashboard))
                             (snd alice_dashboard)) = [].
Proof.
  destruct (X13_a_lost_notification_is_silent 0
              (with_faults [None; Some unavailable] (fst alice_dashboard))
              (snd alice_dashboard) bob_pending_request unavailable []
              eq_refl eq_refl) as (H1 & H2 & _).
  split; [exact H1 | exact H2].
Defined.

(** X14 at Alice's first swipe on Bob, seen from Bob's Dashboard. *)
Lemma X14_a_swipe_shows_up_as_a_pending_request_witness :
  In (Dashboard.mkPendingRequest 0 (Dashboard.person alice_row) normal 0)
     (Dashboard.pendingRequests
        (ui_after Dashboard.fetchPendingRequests
                  (db_after (handleSwipe Right) (fst (open_discover alice db0))
                            (snd (open_discover alice db0)))
                  (Dashboard.initial bob))).
Proof.
  apply (X14_a_swipe_shows_up_as_a_pending_request Right
           (fst (open_discover alice db0)) (snd (open_discover alice db0))
           bob_profile (Dashboard.initial bob) alice_row).
  - reflexivity.
  - split; reflexivity.
  - reflexivity.
  - discriminate.
  - intros [].
  - intros r [].
  - intros r [].
  - reflexivity.
  - reflexivity.
Defined.

(** X15 at the deck loaded for Alice. *)
Lemma X15_a_loaded_deck_is_presentable_witness :
  List.length (profiles (ui_after fetchProfiles db0 (initial alice))) <= 10
  /\ loading (ui_after fetchProfiles db0 (initial alice)) = false.
Proof.
  destruct (X15_a_loaded_deck_is_presentable db0 (initial alice) eq_refl)
    as (H1 & _ & H2 & _).
  split; [exact H1 | exact H2].
Defined.

(** X16 at Alice's page, reloading with the store down. *)
Lemma X16_a_failed_load_keeps_the_deck_witness :
  profiles (ui_after fetchProfiles (down_for_next_call (fst alice_page))
                     (snd alice_page)) = [bob_profile]
  /\ loading (ui_after fetchProfiles (down_for_next_call (fst alice_page))
                       (snd alice_page)) = false.
Proof.
  destruct (X16_a_failed_load_keeps_the_deck (down_for_next_call (fst alice_page))
              (snd alice_page) unavailable eq_refl) as (_ & H & _).
  rewrite H. split; reflexivity.
Defined.

(** ** Notifications, whatever calls fail *)



Section Dispatch.
Import Dashboard.


End Dispatch.



(** ** A swipe among other writers *)

Lemma submit_among_nobody (me : UserId) (p : Profile) (d : Direction)
    (s : Db * State) :
  submit_among nobody nobody nobody me p d s = submit me p d s.
Proof.
  destruct s as [db st].
  unfold submit_among, submit, meanwhile, nobody, triggerMatch, bind, await,
    set_state, throw, ret.
  cbn [fst snd].
  destruct (request (InsertSwapRequest _ _ _ _) _ db) as [res db1].
  destruct (error res) as [e|];
    [destruct (negb (String.eqb (code e) "23505")); [reflexivity|]|];
    cbn [fst snd];
    destruct (request (SelectPendingSingle _ _) _ db1) as [found db2];
    cbn [fst snd];
    (destruct (data found) as [m|]; [|reflexivity]);
    cbn [fst snd];
    destruct (request (UpdateStatusIn _ _) _ db2) as [r3 db3];
    cbn [fst snd];
    destruct (request (InsertNotification _) _ db3) as [r4 db4];
    reflexivity.
Qed.

(** With nobody else writing, the swipe among other writers is
    [handleSwipe]. *)
Lemma handleSwipe_among_nobody (d : Direction) (s : Db * State) :
  handleSwipe_among nobody nobody nobody d s = handleSwipe d s.
Proof.
  destruct s as [db st].
  unfold handleSwipe_among, handleSwipe, bind, component, set_state, when,
    try_catch, ret.
  cbn [fst snd].
  destruct (isAnimating st || _); [reflexivity|].
  destruct (nth_error _ _) as [p|]; [|reflexivity].
  cbn [fst snd]. destruct (is_interest d); [|reflexivity].
  rewrite submit_among_nobody. reflexivity.
Qed.

Lemma handleSwipe_among_ready (e1 e2 e3 : Db -> Db) (d : Direction) (db : Db)
    (st : State) (p : Profile) :
  ready st p ->
  handleSwipe_among e1 e2 e3 d (db, st) =
  if is_interest d then
    match submit_among e1 e2 e3 (user st) p d (db, begin_swipe d st) with
    | (Normal _, (db', st')) => (Normal tt, (db', end_swipe d st'))
    | (Abrupt t, (db', st')) => (Normal tt, (db', end_swipe d (logged t st')))
    end
  else (Normal tt, (db, end_swipe d (begin_swipe d st))).
Proof.
  intros Hr. pose proof (ready_guard _ _ Hr) as Hg. destruct Hr as [_ Hn].
  unfold handleSwipe_among, bind, component, set_state, when, try_catch, ret,
    begin_swipe, end_swipe, logged.
  cbn [fst snd]. rewrite Hg, Hn. cbn [fst snd].
  destruct (is_interest d); [|reflexivity].
  destruct (submit_among e1 e2 e3 (user st) p d _) as [[[]|t] [db' st']];
    reflexivity.
Qed.

(** The reverse record was read as PENDING; the reject of another page (the
    user's Dashboard in a second tab) reaches the store before the swipe's
    update does; the update, which names the record by id alone, overwrites
    it. *)
Lemma submit_among_reject (me : UserId) (p : Profile) (d : Direction)
    (db : Db) (st : State) (R : SwapRequest) :
  reliable db -> wf_db db -> In R (swap_requests db) ->
  pair_of R = (p_id p, me) -> status R = pending -> me <> p_id p ->
  exists db',
    submit_among nobody (reject_call (sr_id R)) nobody me p d (db, st)
    = (Normal tt, (db', triggered p st))
    /\ swap_requests db'
       = update_rows matched (id_in [sr_id R])
           (update_rows rejected (id_eq (sr_id R))
              (swap_requests (inserted me p d db)))
    /\ notifications db' = notifications db ++ [match_notification me p]
    /\ trace db'
       = trace db
         ++ [InsertSwapRequest me (p_id p) (kind_of d) pending;
             SelectPendingSingle (p_id p) me;
             UpdateStatusEq rejected (sr_id R);
             UpdateStatusIn matched [sr_id R];
             InsertNotification (match_notification me p)].
Proof.
  intros Hrel Hwf Hin Hpair Hst Hne.
  assert (filter (is_pending_pair (p_id p) me)
                 (swap_requests (inserted me p d db)) = [R]) as Hfilt.
  { rewrite inserted_reverse by assumption.
    apply filter_pending_pair_unique;
      [apply Hwf | assumption | apply is_pending_pair_true; auto]. }
  pose proof (inserted_reliable me p d db Hrel) as Hrel1.
  pose proof (inserted_notifications me p d db) as Hn1.
  pose proof (inserted_trace me p d db) as Ht1.
  unfold submit_among, meanwhile, nobody, reject_call, triggerMatch, triggered,
    bind, await, set_state, throw, ret.
  cbn [fst snd]. rewrite request_reliable by assumption.
  destruct (insert_swap_request me (p_id p) (kind_of d) pending _)
    as [res db1] eqn:E.
  assert (db1 = inserted me p d db) as ->
    by (unfold inserted; rewrite E; reflexivity).
  assert (error res = None \/ error res = Some duplicate_key) as Herr.
  { replace res with (fst (insert_swap_request me (p_id p) (kind_of d) pending
                             (log (InsertSwapRequest me (p_id p) (kind_of d)
                                                     pending) db)))
      by (rewrite E; reflexivity).
    unfold insert_swap_request. destruct (existsb _ _); cbn; auto. }
  set (db1 := inserted me p d db) in *.
  destruct Herr as [He | He]; rewrite He;
    [|change (negb (String.eqb (code duplicate_key) "23505")) with false];
    cbn iota beta.
  all: cbn [fst snd].
  all: rewrite request_reliable by assumption.
  all: unfold select_pending_single; cbn [swap_requests log]; fold db1.
  all: rewrite Hfilt; cbn [single data fst snd].
  all: rewrite (request_reliable _ (UpdateStatusEq rejected (sr_id R)))
    by exact Hrel1.
  all: unfold update_status_eq; cbn [fst snd].
  all: rewrite (request_reliable _ (UpdateStatusIn matched [sr_id R]))
    by exact Hrel1.
  all: unfold update_status_in; cbn [fst snd].
  all: rewrite (request_reliable _ (InsertNotification _)) by exact Hrel1.
  all: unfold insert_notification; cbn [fst snd].
  all: eexists; split; [reflexivity|].
  all: cbn [swap_requests notifications trace with_swap_requests
            with_notifications log].
  all: rewrite Hn1, Ht1, <- !app_assoc.
  all: repeat split.
Qed.

Lemma update_rows_status (s : Status) (sel : SwapRequest -> bool)
    (rows : list SwapRequest) (x : SwapRequest) :
  (forall y, sel (set_status s y) = sel y) ->
  In x (update_rows s sel rows) -> sel x = true -> status x = s.
Proof.
  intros Hsel Hin Hx. unfold update_rows in Hin.
  apply in_map_iff in Hin as (y & <- & _).
  destruct (sel y) eqn:E; [reflexivity | congruence].
Qed.

(** C3 (amended).  No status update in the code is conditional on the
    current status, so MATCHED and REJECTED are not terminal.
    [handleAcceptRequest] and [handleRejectRequest] set the record with the
    given id to MATCHED, respectively REJECTED, whatever its status was.
    [handleSwipe] issues its update, by id alone, only for the reverse record
    its lookup has just read as PENDING: a run that no other writer
    interleaves with leaves every record that is MATCHED or REJECTED as it
    is, whatever store calls fail.  But the lookup and the update are two
    calls: when the reject of that record by another page reaches the store
    between them, the swipe overwrites it and the record ends MATCHED. *)
Theorem C3_no_update_is_conditional (d : Direction) (db : Db) (st : State)
    (dash : Dashboard.State) (r : SwapRequest) :
  reliable db -> wf_db db -> In r (swap_requests db) ->
  In (set_status matched r)
     (swap_requests (db_after (Dashboard.handleAcceptRequest (sr_id r)) db dash))
  /\ In (set_status rejected r)
        (swap_requests (db_after (Dashboard.handleRejectRequest (sr_id r)) db dash))
  /\ (status r <> pending ->
      forall fs, In r (swap_requests (db_after (handleSwipe d) (with_faults fs db) st)))
  /\ (forall s, handleSwipe_among nobody nobody nobody d s = handleSwipe d s)
  /\ (forall p,
        ready st p -> is_interest d = true ->
        pair_of r = (p_id p, user st) -> status r = pending ->
        user st <> p_id p ->
        In (set_status rejected r)
           (swap_requests (reject_call (sr_id r) db))
        /\ In (set_status matched r)
              (swap_requests
                 (db_after (handleSwipe_among nobody (reject_call (sr_id r))
                                              nobody d) db st))
        /\ ~ In (set_status rejected r)
                (swap_requests
                   (db_after (handleSwipe_among nobody (reject_call (sr_id r))
                                                nobody d) db st))
        /\ trace (db_after (handleSwipe_among nobody (reject_call (sr_id r))
                                              nobody d) db st)
           = trace db
             ++ [InsertSwapRequest (user st) (p_id p) (kind_of d) pending;
                 SelectPendingSingle (p_id p) (user st);
                 UpdateStatusEq rejected (sr_id r);
                 UpdateStatusIn matched [sr_id r];
                 InsertNotification (match_notification (user st) p)]).
Proof.
  intros Hrel Hwf Hin.
  destruct (handleAcceptRequest_reliable (sr_id r) db dash Hrel)
    as (dba & sta & Ea & _ & Hra & _).
  destruct (handleRejectRequest_reliable (sr_id r) db dash Hrel)
    as (dbr & str & Er & _ & Hrr & _).
  split; [|split; [|split; [|split]]].
  - unfold db_after, after. rewrite Ea. cbn [fst snd]. rewrite Hra.
    apply update_rows_sets; [assumption | apply Nat.eqb_refl].
  - unfold db_after, after. rewrite Er. cbn [fst snd]. rewrite Hrr.
    apply update_rows_sets; [assumption | apply Nat.eqb_refl].
  - intros Hst fs. unfold db_after, after.
    apply handleSwipe_keeps_resolved; try assumption.
    apply (wf_db_tables db); [reflexivity | reflexivity | assumption].
  - exact (handleSwipe_among_nobody d).
  - intros p Hr Hd Hp Hs Hne.
    destruct (submit_among_reject (user st) p d db (begin_swipe d st) r
                Hrel Hwf Hin Hp Hs Hne) as (db' & E & Hrows & _ & Htr).
    unfold db_after, after.
    rewrite (handleSwipe_among_ready _ _ _ d db st p Hr), Hd, E.
    cbn [fst snd]. rewrite Hrows.
    split; [|split; [|split]].
    + unfold reject_call. rewrite request_reliable by assumption.
      unfold update_status_eq.
      cbn [snd swap_requests with_swap_requests log].
      apply update_rows_sets; [assumption | apply Nat.eqb_refl].
    + change (set_status matched r)
        with (set_status matched (set_status rejected r)).
      apply update_rows_sets.
      * apply update_rows_sets; [|apply Nat.eqb_refl].
        apply inserted_keeps. assumption.
      * rewrite id_in_single. apply Nat.eqb_refl.
    + intros H.
      apply update_rows_status in H; [discriminate H | reflexivity |].
      rewrite id_in_single. apply Nat.eqb_refl.
    + exact Htr.
Qed.

(** C3 (amended) at Bob's request to Alice.  While it is PENDING Alice swipes
    right on Bob, and her Dashboard's reject of the request reaches the
    store between the lookup and the update of the swipe: the request ends
    MATCHED.  Once she has rejected it, her accept from the page that still
    lists it sets it to MATCHED, and her swipe leaves it REJECTED. *)
Lemma C3_no_update_is_conditional_witness :
  (In (set_status rejected bob_request)
      (swap_requests (reject_call (sr_id bob_request) (fst alice_page)))
   /\ In (set_status matched bob_request)
         (swap_requests
            (db_after (handleSwipe_among nobody
                                         (reject_call (sr_id bob_request))
                                         nobody Right)
                      (fst alice_page) (snd alice_page))))
  /\ In (set_status matched (mkSwapRequest 0 bob alice normal rejected 0))
        (swap_requests
           (db_after (Dashboard.handleAcceptRequest
                        (sr_id (mkSwapRequest 0 bob alice normal rejected 0)))
                     db_bob_rejected (snd alice_dashboard)))
  /\ In (mkSwapRequest 0 bob alice normal rejected 0)
        (swap_requests
           (db_after (handleSwipe Right)
                     (with_faults [None; None; Some unavailable] db_bob_rejected)
                     (snd alice_page))).
Proof.
  assert (wf_db (fst alice_page)) as Hwf1 by concrete_wf.
  assert (wf_db db_bob_rejected) as Hwf2 by concrete_wf.
  destruct (C3_no_update_is_conditional Right (fst alice_page) (snd alice_page)
              (snd alice_dashboard) bob_request
              eq_refl Hwf1 (or_introl eq_refl)) as (_ & _ & _ & _ & H5).
  destruct (C3_no_update_is_conditional Right db_bob_rejected (snd alice_page)
              (snd alice_dashboard)
              (mkSwapRequest 0 bob alice normal rejected 0)
              eq_refl Hwf2 (or_introl eq_refl)) as (H1 & _ & H3 & _).
  destruct (H5 bob_profile (conj eq_refl eq_refl) eq_refl eq_refl eq_refl)
    as (Ha & Hb & _); [discriminate|].
  split; [split; [exact Ha | exact Hb]|]. split; [exact H1|].
  apply H3. discriminate.
Defined.
